(** * libsrt.c: the SRT endpoint of libavformat, as a shallow embedding

    The file embeds [libavformat/libsrt.c] function by function.  The
    program is sequential and talks to three collaborators: the SRT
    transport library ([srt_*]), the resolver ([getaddrinfo]) and the
    application (interrupt callback, monotonic clock).  Every call to a
    collaborator is an event: the program appends the call and the answer it
    got to a trace, and the answer is chosen by an environment that sees the
    whole history.  Loops that the C code leaves unbounded take a fuel
    argument; a run that exhausts its fuel yields [None] together with the
    state (and trace) it had reached.  Logging ([av_log], and the
    [srt_getlasterror_str] and [gai_strerror] calls that only feed it) is
    left out. *)

From Stdlib Require Import ZArith Lia Bool List String Ascii.
From stdpp Require Import base gmap sets.
Import ListNotations.
Local Open Scope string_scope.
Local Open Scope list_scope.
Local Open Scope Z_scope.

(** ** Constants of the headers the file includes

    Modelled from the spec: the numeric values below come from headers that
    are not under src/ ([errno.h] of Linux, [libavutil/error.h],
    [libavformat/network.h], [libavformat/avio.h], [srt/srt.h]).  The proofs
    use that the error codes are distinct and negative once wrapped in
    [AVERROR], nothing else. *)

Definition EINTR : Z := 4.
Definition EIO : Z := 5.
Definition EAGAIN : Z := 11.
Definition EINVAL : Z := 22.
Definition ETIMEDOUT : Z := 110.
Definition EINPROGRESS : Z := 115.

Definition AVERROR (e : Z) : Z := - e.

Definition MKTAG (a b c d : Z) : Z :=
  Z.lor a (Z.lor (Z.shiftl b 8) (Z.lor (Z.shiftl c 16) (Z.shiftl d 24))).

Definition FFERRTAG (a b c d : Z) : Z := - MKTAG a b c d.

(** [FFERRTAG('E','X','I','T')] *)
Definition AVERROR_EXIT : Z := Eval cbv in FFERRTAG 69 88 73 84.

(** [FFERRTAG('U','N','K','N')] *)
Definition AVERROR_UNKNOWN : Z := Eval cbv in FFERRTAG 85 78 75 78.

Definition SRT_EASYNCRCV : Z := 6002.
Definition SRT_ETIMEOUT : Z := 6003.
Definition SRT_EPOLL_IN : Z := 1.
Definition SRT_EPOLL_OUT : Z := 4.
Definition POLLING_TIME : Z := 100.
Definition AVIO_FLAG_NONBLOCK : Z := 8.
Definition SOL_SOCKET : Z := 1.
Definition SOCK_DGRAM : Z := 2.
Definition AI_PASSIVE : Z := 1.

(** Conversion of a wider integer to C [int] (two's complement, 32 bits). *)
Definition to_int (z : Z) : Z := (z + 2 ^ 31) mod 2 ^ 32 - 2 ^ 31.

(** ** Data *)

Inductive SRTMode : Type :=
| SRT_MODE_CALLER
| SRT_MODE_LISTENER
| SRT_MODE_RENDEZVOUS.

Definition SRTMode_eqb (a b : SRTMode) : bool :=
  match a, b with
  | SRT_MODE_CALLER, SRT_MODE_CALLER => true
  | SRT_MODE_LISTENER, SRT_MODE_LISTENER => true
  | SRT_MODE_RENDEZVOUS, SRT_MODE_RENDEZVOUS => true
  | _, _ => false
  end.

Module SRTContext.

Record t : Type := mk {
  fd : Z;
  eid : Z;
  rw_timeout : Z;
  listen_timeout : Z;
  recv_buffer_size : Z;
  send_buffer_size : Z;
  maxbw : Z;
  pbkeylen : Z;
  passphrase : option string;
  mss : Z;
  ffs : Z;
  ipttl : Z;
  iptos : Z;
  inputbw : Z;
  oheadbw : Z;
  tsbpddelay : Z;
  tlpktdrop : Z;
  nakreport : Z;
  connect_timeout : Z;
  mode : SRTMode
}.

Definition set_fd (v : Z) (s : t) : t :=
  mk v (eid s) (rw_timeout s) (listen_timeout s) (recv_buffer_size s)
    (send_buffer_size s) (maxbw s) (pbkeylen s) (passphrase s) (mss s)
    (ffs s) (ipttl s) (iptos s) (inputbw s) (oheadbw s) (tsbpddelay s)
    (tlpktdrop s) (nakreport s) (connect_timeout s) (mode s).

Definition set_eid (v : Z) (s : t) : t :=
  mk (fd s) v (rw_timeout s) (listen_timeout s) (recv_buffer_size s)
    (send_buffer_size s) (maxbw s) (pbkeylen s) (passphrase s) (mss s)
    (ffs s) (ipttl s) (iptos s) (inputbw s) (oheadbw s) (tsbpddelay s)
    (tlpktdrop s) (nakreport s) (connect_timeout s) (mode s).

Definition set_rw_timeout (v : Z) (s : t) : t :=
  mk (fd s) (eid s) v (listen_timeout s) (recv_buffer_size s)
    (send_buffer_size s) (maxbw s) (pbkeylen s) (passphrase s) (mss s)
    (ffs s) (ipttl s) (iptos s) (inputbw s) (oheadbw s) (tsbpddelay s)
    (tlpktdrop s) (nakreport s) (connect_timeout s) (mode s).

Definition set_listen_timeout (v : Z) (s : t) : t :=
  mk (fd s) (eid s) (rw_timeout s) v (recv_buffer_size s)
    (send_buffer_size s) (maxbw s) (pbkeylen s) (passphrase s) (mss s)
    (ffs s) (ipttl s) (iptos s) (inputbw s) (oheadbw s) (tsbpddelay s)
    (tlpktdrop s) (nakreport s) (connect_timeout s) (mode s).

Definition set_maxbw (v : Z) (s : t) : t :=
  mk (fd s) (eid s) (rw_timeout s) (listen_timeout s) (recv_buffer_size s)
    (send_buffer_size s) v (pbkeylen s) (passphrase s) (mss s) (ffs s)
    (ipttl s) (iptos s) (inputbw s) (oheadbw s) (tsbpddelay s) (tlpktdrop s)
    (nakreport s) (connect_timeout s) (mode s).

Definition set_pbkeylen (v : Z) (s : t) : t :=
  mk (fd s) (eid s) (rw_timeout s) (listen_timeout s) (recv_buffer_size s)
    (send_buffer_size s) (maxbw s) v (passphrase s) (mss s) (ffs s)
    (ipttl s) (iptos s) (inputbw s) (oheadbw s) (tsbpddelay s) (tlpktdrop s)
    (nakreport s) (connect_timeout s) (mode s).

Definition set_passphrase (v : option string) (s : t) : t :=
  mk (fd s) (eid s) (rw_timeout s) (listen_timeout s) (recv_buffer_size s)
    (send_buffer_size s) (maxbw s) (pbkeylen s) v (mss s) (ffs s) (ipttl s)
    (iptos s) (inputbw s) (oheadbw s) (tsbpddelay s) (tlpktdrop s)
    (nakreport s) (connect_timeout s) (mode s).

Definition set_mss (v : Z) (s : t) : t :=
  mk (fd s) (eid s) (rw_timeout s) (listen_timeout s) (recv_buffer_size s)
    (send_buffer_size s) (maxbw s) (pbkeylen s) (passphrase s) v (ffs s)
    (ipttl s) (iptos s) (inputbw s) (oheadbw s) (tsbpddelay s) (tlpktdrop s)
    (nakreport s) (connect_timeout s) (mode s).

Definition set_ffs (v : Z) (s : t) : t :=
  mk (fd s) (eid s) (rw_timeout s) (listen_timeout s) (recv_buffer_size s)
    (send_buffer_size s) (maxbw s) (pbkeylen s) (passphrase s) (mss s) v
    (ipttl s) (iptos s) (inputbw s) (oheadbw s) (tsbpddelay s) (tlpktdrop s)
    (nakreport s) (connect_timeout s) (mode s).

Definition set_ipttl (v : Z) (s : t) : t :=
  mk (fd s) (eid s) (rw_timeout s) (listen_timeout s) (recv_buffer_size s)
    (send_buffer_size s) (maxbw s) (pbkeylen s) (passphrase s) (mss s)
    (ffs s) v (iptos s) (inputbw s) (oheadbw s) (tsbpddelay s) (tlpktdrop s)
    (nakreport s) (connect_timeout s) (mode s).

Definition set_iptos (v : Z) (s : t) : t :=
  mk (fd s) (eid s) (rw_timeout s) (listen_timeout s) (recv_buffer_size s)
    (send_buffer_size s) (maxbw s) (pbkeylen s) (passphrase s) (mss s)
    (ffs s) (ipttl s) v (inputbw s) (oheadbw s) (tsbpddelay s) (tlpktdrop s)
    (nakreport s) (connect_timeout s) (mode s).

Definition set_inputbw (v : Z) (s : t) : t :=
  mk (fd s) (eid s) (rw_timeout s) (listen_timeout s) (recv_buffer_size s)
    (send_buffer_size s) (maxbw s) (pbkeylen s) (passphrase s) (mss s)
    (ffs s) (ipttl s) (iptos s) v (oheadbw s) (tsbpddelay s) (tlpktdrop s)
    (nakreport s) (connect_timeout s) (mode s).

Definition set_oheadbw (v : Z) (s : t) : t :=
  mk (fd s) (eid s) (rw_timeout s) (listen_timeout s) (recv_buffer_size s)
    (send_buffer_size s) (maxbw s) (pbkeylen s) (passphrase s) (mss s)
    (ffs s) (ipttl s) (iptos s) (inputbw s) v (tsbpddelay s) (tlpktdrop s)
    (nakreport s) (connect_timeout s) (mode s).

Definition set_tsbpddelay (v : Z) (s : t) : t :=
  mk (fd s) (eid s) (rw_timeout s) (listen_timeout s) (recv_buffer_size s)
    (send_buffer_size s) (maxbw s) (pbkeylen s) (passphrase s) (mss s)
    (ffs s) (ipttl s) (iptos s) (inputbw s) (oheadbw s) v (tlpktdrop s)
    (nakreport s) (connect_timeout s) (mode s).

Definition set_tlpktdrop (v : Z) (s : t) : t :=
  mk (fd s) (eid s) (rw_timeout s) (listen_timeout s) (recv_buffer_size s)
    (send_buffer_size s) (maxbw s) (pbkeylen s) (passphrase s) (mss s)
    (ffs s) (ipttl s) (iptos s) (inputbw s) (oheadbw s) (tsbpddelay s) v
    (nakreport s) (connect_timeout s) (mode s).

Definition set_nakreport (v : Z) (s : t) : t :=
  mk (fd s) (eid s) (rw_timeout s) (listen_timeout s) (recv_buffer_size s)
    (send_buffer_size s) (maxbw s) (pbkeylen s) (passphrase s) (mss s)
    (ffs s) (ipttl s) (iptos s) (inputbw s) (oheadbw s) (tsbpddelay s)
    (tlpktdrop s) v (connect_timeout s) (mode s).

Definition set_connect_timeout (v : Z) (s : t) : t :=
  mk (fd s) (eid s) (rw_timeout s) (listen_timeout s) (recv_buffer_size s)
    (send_buffer_size s) (maxbw s) (pbkeylen s) (passphrase s) (mss s)
    (ffs s) (ipttl s) (iptos s) (inputbw s) (oheadbw s) (tsbpddelay s)
    (tlpktdrop s) (nakreport s) v (mode s).

Definition set_mode (v : SRTMode) (s : t) : t :=
  mk (fd s) (eid s) (rw_timeout s) (listen_timeout s) (recv_buffer_size s)
    (send_buffer_size s) (maxbw s) (pbkeylen s) (passphrase s) (mss s)
    (ffs s) (ipttl s) (iptos s) (inputbw s) (oheadbw s) (tsbpddelay s)
    (tlpktdrop s) (nakreport s) (connect_timeout s) v.

End SRTContext.

(** The defaults of the [libsrt_options] table: every numeric option is -1,
    the passphrase is NULL and the mode is caller. *)
Definition SRTContext_default : SRTContext.t :=
  SRTContext.mk 0 0 (-1) (-1) (-1) (-1) (-1) (-1) None (-1) (-1) (-1) (-1)
    (-1) (-1) (-1) (-1) (-1) (-1) SRT_MODE_CALLER.

Module URLContext.

Record t : Type := mk {
  priv_data : SRTContext.t;
  flags : Z;
  is_streamed : Z;
  rw_timeout : Z
}.

Definition set_priv_data (v : SRTContext.t) (h : t) : t :=
  mk v (flags h) (is_streamed h) (rw_timeout h).

Definition set_is_streamed (v : Z) (h : t) : t :=
  mk (priv_data h) (flags h) v (rw_timeout h).

Definition set_rw_timeout (v : Z) (h : t) : t :=
  mk (priv_data h) (flags h) (is_streamed h) v.

End URLContext.

(** One element of the list [getaddrinfo] returns; [ai_addr] stands for the
    socket address (and its length). *)
Record addrinfo : Type := mk_addrinfo {
  ai_family : Z;
  ai_socktype : Z;
  ai_addr : Z
}.

Inductive SRT_SOCKOPT : Type :=
| SRTO_SNDSYN | SRTO_RCVSYN | SRTO_REUSEADDR | SRTO_RENDEZVOUS | SRTO_MAXBW
| SRTO_PBKEYLEN | SRTO_PASSPHRASE | SRTO_MSS | SRTO_FC | SRTO_IPTTL
| SRTO_IPTOS | SRTO_TSBPDDELAY | SRTO_TLPKTDROP | SRTO_NAKREPORT
| SRTO_CONNTIMEO | SRTO_INPUTBW | SRTO_OHEADBW | SRTO_UDP_RCVBUF
| SRTO_UDP_SNDBUF.

(** The value handed to [srt_setsockopt]. *)
Inductive optval : Type :=
| OptInt (v : Z)
| OptStr (v : option string).

(** ** Calls to the collaborators *)

Inductive extcall : Type :=
| srt_startup
| srt_cleanup
| srt_getlasterror
| srt_clearlasterror
| srt_epoll_create
| srt_epoll_release (eid : Z)
| srt_epoll_add_usock (eid fd modes : Z)
| srt_epoll_wait (eid : Z) (write : bool) (msTimeOut : Z)
| srt_epoll_remove_usock (eid fd : Z)
| srt_socket (af type protocol : Z)
| srt_setsockopt (fd level : Z) (optname : SRT_SOCKOPT) (v : optval)
| srt_bind (fd addr : Z)
| srt_listen (fd backlog : Z)
| srt_accept (fd : Z)
| srt_connect (fd addr : Z)
| srt_close (fd : Z)
| srt_recvmsg (fd size : Z)
| srt_sendmsg (fd size : Z)
| getaddrinfo (node : option string) (port flags : Z)
| freeaddrinfo
| ff_check_interrupt
| av_gettime_relative.

(** A call together with the value it returned. *)
Abbreviation event := (extcall * Z)%type.

(** The collaborators.  [respond] answers a call given the history so far,
    with a value of the C return type of the call ([int], and [int64_t] for
    the clock; the answer to a [void] call is recorded and ignored);
    the other fields are the pure helpers of libavformat and libc that the
    file calls: [resolved] is the list [getaddrinfo] hands back on success
    (never empty), [av_url_split] yields (proto, hostname, port),
    [av_find_info_tag tag info] the value of a query key, [strtol s base]
    and [strtoll s base] the parsed number. *)
Record env : Type := mk_env {
  respond : list event -> extcall -> Z;
  resolved : option string -> Z -> Z -> addrinfo * list addrinfo;
  av_url_split : string -> string * string * Z;
  av_find_info_tag : string -> string -> option string;
  strtol : string -> Z -> Z;
  strtoll : string -> Z -> Z
}.

(** [strchr s c]: the suffix of [s] that starts at the first [c]. *)
Fixpoint strchr (s : string) (c : ascii) : option string :=
  match s with
  | EmptyString => None
  | String a rest => if Ascii.eqb a c then Some s else strchr rest c
  end.

(** ** Program state and the monad of the embedding *)

Record state : Type := mk_state {
  trace : list event;
  h : URLContext.t
}.

Definition add_trace (s : state) (t : list event) : state :=
  mk_state (trace s ++ t) (h s).

Arguments add_trace : simpl never.

(** A computation returns a value, or [None] when its fuel ran out, and the
    state it reached in either case. *)
Definition M (A : Type) : Type := state -> option A * state.

Definition Ret {A : Type} (a : A) : M A := fun s => (Some a, s).

Definition bind {A B : Type} (m : M A) (k : A -> M B) : M B :=
  fun s => match m s with
           | (Some a, s') => k a s'
           | (None, s') => (None, s')
           end.

Definition out_of_fuel {A : Type} : M A := fun s => (None, s).

Definition get_h : M URLContext.t := fun s => (Some (h s), s).

Definition put_h (v : URLContext.t) : M unit :=
  fun s => (Some tt, mk_state (trace s) v).

Definition get_s : M SRTContext.t :=
  fun s => (Some (URLContext.priv_data (h s)), s).

Definition modify_s (f : SRTContext.t -> SRTContext.t) : M unit :=
  fun s => (Some tt,
            mk_state (trace s)
              (URLContext.set_priv_data (f (URLContext.priv_data (h s))) (h s))).

Declare Scope srt_scope.
Delimit Scope srt_scope with srt.
Notation "x <- m ;; k" := (bind m (fun x => k))
  (at level 100, m at next level, k at level 200, right associativity)
  : srt_scope.
Notation "m ;; k" := (bind m (fun _ => k))
  (at level 100, k at level 200, right associativity) : srt_scope.
Local Open Scope srt_scope.

(** C truth value of an [int]. *)
Definition truthy (z : Z) : bool := negb (z =? 0).

(** ** The program *)

Section Program.

Variable E : env.

(** Perform a call: ask the environment and record the event. *)
Definition ext (c : extcall) : M Z :=
  fun s => let r := respond E (trace s) c in
           (Some r, add_trace s [(c, r)]).

(** [libsrt_neterrno], lines 96-103. *)
Definition libsrt_neterrno : M Z :=
  err <- ext srt_getlasterror ;;
  if err =? SRT_EASYNCRCV then Ret (AVERROR EAGAIN) else Ret AVERROR_UNKNOWN.

(** [libsrt_socket_nonblock], lines 105-111. *)
Definition libsrt_socket_nonblock (socket enable : Z) : M Z :=
  ret <- ext (srt_setsockopt socket 0 SRTO_SNDSYN (OptInt enable)) ;;
  if ret <? 0 then Ret ret
  else ext (srt_setsockopt socket 0 SRTO_RCVSYN (OptInt enable)).

(** [libsrt_network_wait_fd], lines 113-137.  The [write] flag selects the
    event mask and which of the two ready arrays [srt_epoll_wait] gets. *)
Definition libsrt_network_wait_fd (eid fd write : Z) : M Z :=
  let modes := if truthy write then SRT_EPOLL_OUT else SRT_EPOLL_IN in
  r <- ext (srt_epoll_add_usock eid fd modes) ;;
  if r <? 0 then libsrt_neterrno
  else
    ret <- ext (srt_epoll_wait eid (truthy write) POLLING_TIME) ;;
    ret <- (if ret <? 0 then
              e <- ext srt_getlasterror ;;
              if e =? SRT_ETIMEOUT then Ret (AVERROR EAGAIN)
              else libsrt_neterrno
            else Ret 0) ;;
    r <- ext (srt_epoll_remove_usock eid fd) ;;
    if r <? 0 then libsrt_neterrno else Ret ret.

(** The [while (1)] of [libsrt_network_wait_fd_timeout], lines 146-158,
    with the local [wait_start] as an argument.  The difference of the two
    clock readings is taken in [Z]: both are non-negative 64-bit values, so
    the C subtraction does not overflow. *)
Fixpoint wait_fd_timeout_loop (fuel : nat) (eid fd write timeout wait_start : Z)
  : M Z :=
  match fuel with
  | O => out_of_fuel
  | S fuel' =>
    i <- ext ff_check_interrupt ;;
    if truthy i then Ret AVERROR_EXIT
    else
      ret <- libsrt_network_wait_fd eid fd write ;;
      if negb (ret =? AVERROR EAGAIN) then Ret ret
      else if 0 <? timeout then
        if negb (truthy wait_start) then
          now <- ext av_gettime_relative ;;
          wait_fd_timeout_loop fuel' eid fd write timeout now
        else
          now <- ext av_gettime_relative ;;
          if timeout <? now - wait_start then Ret (AVERROR ETIMEDOUT)
          else wait_fd_timeout_loop fuel' eid fd write timeout wait_start
      else wait_fd_timeout_loop fuel' eid fd write timeout wait_start
  end.

(** [libsrt_network_wait_fd_timeout], lines 141-159. *)
Definition libsrt_network_wait_fd_timeout (fuel : nat)
  (eid fd write timeout : Z) : M Z :=
  wait_fd_timeout_loop fuel eid fd write timeout 0.

(** The [while] of [libsrt_listen], lines 176-183: the value is 0 when the
    loop is left normally and the error that [return ret] hands back
    otherwise. *)
Fixpoint listen_wait_loop (fuel : nat) (eid fd timeout : Z) : M Z :=
  match fuel with
  | O => out_of_fuel
  | S fuel' =>
    ret <- libsrt_network_wait_fd_timeout fuel' eid fd 1 timeout ;;
    if truthy ret then
      if ret =? AVERROR ETIMEDOUT then listen_wait_loop fuel' eid fd timeout
      else Ret ret
    else Ret 0
  end.

(** [libsrt_listen], lines 161-192. *)
Definition libsrt_listen (fuel : nat) (eid fd addr timeout : Z) : M Z :=
  ext (srt_setsockopt fd SOL_SOCKET SRTO_REUSEADDR (OptInt 1)) ;;
  ret <- ext (srt_bind fd addr) ;;
  if truthy ret then libsrt_neterrno
  else
    ret <- ext (srt_listen fd 1) ;;
    if truthy ret then libsrt_neterrno
    else
      ret <- listen_wait_loop fuel eid fd timeout ;;
      if truthy ret then Ret ret
      else
        ret <- ext (srt_accept fd) ;;
        if ret <? 0 then libsrt_neterrno
        else
          libsrt_socket_nonblock ret 1 ;;
          Ret ret.

(** The [while] of [libsrt_listen_connect], lines 201-231. *)
Fixpoint listen_connect_loop (fuel : nat) (eid fd addr timeout : Z)
  (will_try_next : bool) : M Z :=
  match fuel with
  | O => out_of_fuel
  | S fuel' =>
    ret <- ext (srt_connect fd addr) ;;
    if truthy ret then
      ret <- libsrt_neterrno ;;
      if ret =? AVERROR EINTR then
        i <- ext ff_check_interrupt ;;
        if truthy i then Ret AVERROR_EXIT
        else listen_connect_loop fuel' eid fd addr timeout will_try_next
      else if (ret =? AVERROR EINPROGRESS) || (ret =? AVERROR EAGAIN) then
        ret <- libsrt_network_wait_fd_timeout fuel' eid fd 1 timeout ;;
        if ret <? 0 then Ret ret
        else
          ret <- ext srt_getlasterror ;;
          ext srt_clearlasterror ;;
          if truthy ret then Ret (AVERROR ret) else Ret ret
      else Ret ret
    else Ret ret
  end.

(** [libsrt_listen_connect], lines 194-232. *)
Definition libsrt_listen_connect (fuel : nat) (eid fd addr timeout : Z)
  (will_try_next : bool) : M Z :=
  libsrt_socket_nonblock fd 1 ;;
  listen_connect_loop fuel eid fd addr timeout will_try_next.

(** [libsrt_setsockopt], lines 234-241. *)
Definition libsrt_setsockopt (fd : Z) (optname : SRT_SOCKOPT) (v : optval)
  : M Z :=
  r <- ext (srt_setsockopt fd 0 optname v) ;;
  if r <? 0 then Ret (AVERROR EIO) else Ret 0.

(** A non-NULL [char *]. *)
Definition non_null (p : option string) : bool :=
  match p with Some _ => true | None => false end.

(** [c && m < 0] and the short-circuit [||] of the two option appliers. *)
Definition and_fails (c : bool) (m : M Z) : M bool :=
  if c then (r <- m ;; Ret (r <? 0)) else Ret false.

Definition or_else (a b : M bool) : M bool :=
  x <- a ;; if x : bool then Ret true else b.

(** [libsrt_set_options_post], lines 247-256. *)
Definition libsrt_set_options_post (fd : Z) : M Z :=
  s <- get_s ;;
  failed <-
    or_else
      (and_fails (0 <=? SRTContext.inputbw s)
         (libsrt_setsockopt fd SRTO_INPUTBW (OptInt (SRTContext.inputbw s))))
      (and_fails (0 <=? SRTContext.oheadbw s)
         (libsrt_setsockopt fd SRTO_OHEADBW (OptInt (SRTContext.oheadbw s)))) ;;
  if failed : bool then Ret (AVERROR EIO) else Ret 0.

(** [libsrt_set_options_pre], lines 261-283. *)
Definition libsrt_set_options_pre (fd : Z) : M Z :=
  s <- get_s ;;
  let yes := 1 in
  let tsbpddelay := to_int (Z.quot (SRTContext.tsbpddelay s) 1000) in
  let connect_timeout := to_int (SRTContext.connect_timeout s) in
  failed <-
    or_else (and_fails (SRTMode_eqb (SRTContext.mode s) SRT_MODE_RENDEZVOUS)
      (libsrt_setsockopt fd SRTO_RENDEZVOUS (OptInt yes)))
    (or_else (and_fails (0 <=? SRTContext.maxbw s)
      (libsrt_setsockopt fd SRTO_MAXBW (OptInt (SRTContext.maxbw s))))
    (or_else (and_fails (0 <=? SRTContext.pbkeylen s)
      (libsrt_setsockopt fd SRTO_PBKEYLEN (OptInt (SRTContext.pbkeylen s))))
    (or_else (and_fails (non_null (SRTContext.passphrase s))
      (libsrt_setsockopt fd SRTO_PASSPHRASE (OptStr (SRTContext.passphrase s))))
    (or_else (and_fails (0 <=? SRTContext.mss s)
      (libsrt_setsockopt fd SRTO_MSS (OptInt (SRTContext.mss s))))
    (or_else (and_fails (0 <=? SRTContext.ffs s)
      (libsrt_setsockopt fd SRTO_FC (OptInt (SRTContext.ffs s))))
    (or_else (and_fails (0 <=? SRTContext.ipttl s)
      (libsrt_setsockopt fd SRTO_IPTTL (OptInt (SRTContext.ipttl s))))
    (or_else (and_fails (0 <=? SRTContext.iptos s)
      (libsrt_setsockopt fd SRTO_IPTOS (OptInt (SRTContext.iptos s))))
    (or_else (and_fails (0 <=? tsbpddelay)
      (libsrt_setsockopt fd SRTO_TSBPDDELAY (OptInt tsbpddelay)))
    (or_else (and_fails (0 <=? SRTContext.tlpktdrop s)
      (libsrt_setsockopt fd SRTO_TLPKTDROP (OptInt (SRTContext.tlpktdrop s))))
    (or_else (and_fails (0 <=? SRTContext.nakreport s)
      (libsrt_setsockopt fd SRTO_NAKREPORT (OptInt (SRTContext.nakreport s))))
    (and_fails (0 <=? connect_timeout)
      (libsrt_setsockopt fd SRTO_CONNTIMEO (OptInt connect_timeout)))))))))))))
    ;;
  if failed : bool then Ret (AVERROR EIO) else Ret 0.

(** Where the code of one candidate address leaves the body of
    [libsrt_setup]: past the post-options with the connected socket, or by
    [goto fail] / [goto fail1] with the current [ret] and [fd]. *)
Inductive jump : Type :=
| connected (fd : Z)
| goto_fail (ret fd : Z)
| goto_fail1 (ret fd : Z).

(** Lines 379-381 of [libsrt_setup]. *)
Definition setup_post (fd : Z) : M jump :=
  ret <- libsrt_set_options_post fd ;;
  if ret <? 0 then Ret (goto_fail ret fd) else Ret (connected fd).

(** Lines 341-358 of [libsrt_setup]: the socket of the candidate [cur_ai]
    is created, the pre-options and the buffer sizes are applied.  The value
    is the socket, or the jump that leaves the candidate. *)
Definition setup_socket (cur_ai : addrinfo) : M (jump + Z) :=
  fd <- ext (srt_socket (ai_family cur_ai) (ai_socktype cur_ai) 0) ;;
  if fd <? 0 then
    ret <- libsrt_neterrno ;; Ret (inl (goto_fail ret fd))
  else
    ret <- libsrt_set_options_pre fd ;;
    if ret <? 0 then Ret (inl (goto_fail ret fd))
    else
      s <- get_s ;;
      (if 0 <? SRTContext.recv_buffer_size s then
         ext (srt_setsockopt fd SOL_SOCKET SRTO_UDP_RCVBUF
                (OptInt (SRTContext.recv_buffer_size s)))
       else Ret 0) ;;
      (if 0 <? SRTContext.send_buffer_size s then
         ext (srt_setsockopt fd SOL_SOCKET SRTO_UDP_SNDBUF
                (OptInt (SRTContext.send_buffer_size s)))
       else Ret 0) ;;
      Ret (inr fd).

(** Lines 359-381 of [libsrt_setup]: the socket [fd] of the candidate is
    connected in the way of the mode, then the post-options are applied. *)
Definition setup_connect (fuel : nat) (open_timeout : Z) (cur_ai : addrinfo)
  (has_next : bool) (fd : Z) : M jump :=
  s <- get_s ;;
  if SRTMode_eqb (SRTContext.mode s) SRT_MODE_LISTENER then
    ret <- libsrt_listen fuel (SRTContext.eid s) fd (ai_addr cur_ai)
             (Z.quot open_timeout 1000) ;;
    if ret <? 0 then Ret (goto_fail1 ret fd)
    else setup_post ret
  else
    bound <-
      (if SRTMode_eqb (SRTContext.mode s) SRT_MODE_RENDEZVOUS then
         ext (srt_bind fd (ai_addr cur_ai))
       else Ret 0) ;;
    if truthy bound then Ret (goto_fail1 bound fd)
    else
      ret <- libsrt_listen_connect fuel (SRTContext.eid s) fd
               (ai_addr cur_ai) (Z.quot open_timeout 1000) has_next ;;
      if ret <? 0 then
        if ret =? AVERROR_EXIT then Ret (goto_fail1 ret fd)
        else Ret (goto_fail ret fd)
      else setup_post fd.

(** Lines 341-381 of [libsrt_setup]: from the label [restart] to the
    post-options, for the candidate [cur_ai]. *)
Definition setup_candidate (fuel : nat) (open_timeout : Z)
  (cur_ai : addrinfo) (has_next : bool) : M jump :=
  x <- setup_socket cur_ai ;;
  match x with
  | inl j => Ret j
  | inr fd => setup_connect fuel open_timeout cur_ai has_next fd
  end.

(** The label [fail1], lines 398-402. *)
Definition setup_fail1 (ret fd : Z) : M Z :=
  (if 0 <=? fd then ext (srt_close fd) else Ret 0) ;;
  ext freeaddrinfo ;;
  Ret ret.

(** The candidate loop of [libsrt_setup], lines 339-402: the label
    [restart] with [cur_ai] and the rest of the list behind it. *)
Fixpoint setup_restart (fuel : nat) (open_timeout : Z) (cur_ai : addrinfo)
  (next : list addrinfo) : M Z :=
  j <- setup_candidate fuel open_timeout cur_ai
         (match next with [] => false | _ => true end) ;;
  match j with
  | connected fd =>
    hd <- get_h ;;
    put_h (URLContext.set_is_streamed 1 hd) ;;
    modify_s (SRTContext.set_fd fd) ;;
    ext freeaddrinfo ;;
    Ret 0
  | goto_fail ret fd =>
    match next with
    | ai_next :: rest =>
      (if 0 <=? fd then ext (srt_close fd) else Ret 0) ;;
      setup_restart fuel open_timeout ai_next rest
    | [] => setup_fail1 ret fd
    end
  | goto_fail1 ret fd => setup_fail1 ret fd
  end.

(** [if (av_find_info_tag(buf, .., tag, p)) field = conv(buf)]. *)
Definition parse_tag (tag p : string) (conv : string -> Z)
  (set : Z -> SRTContext.t -> SRTContext.t) : M unit :=
  match av_find_info_tag E tag p with
  | Some buf => modify_s (set (conv buf))
  | None => Ret tt
  end.

(** [libsrt_setup], lines 286-403. *)
Definition libsrt_setup (fuel : nat) (uri : string) (flags : Z) : M Z :=
  eid <- ext srt_epoll_create ;;
  if eid <? 0 then libsrt_neterrno
  else
    modify_s (SRTContext.set_eid eid) ;;
    let '(proto, hostname, port) := av_url_split E uri in
    if negb (String.eqb proto "srt") then Ret (AVERROR EINVAL)
    else if (port <=? 0) || (65536 <=? port) then Ret (AVERROR EINVAL)
    else
      (match strchr uri "?" with
       | Some p =>
         parse_tag "timeout" p (fun buf => strtol E buf 10)
           SRTContext.set_rw_timeout ;;
         parse_tag "listen_timeout" p (fun buf => strtol E buf 10)
           SRTContext.set_listen_timeout
       | None => Ret tt
       end) ;;
      s <- get_s ;;
      hd <- get_h ;;
      (if 0 <=? SRTContext.rw_timeout s then
         put_h (URLContext.set_rw_timeout (SRTContext.rw_timeout s) hd)
       else Ret tt) ;;
      let open_timeout :=
        if 0 <=? SRTContext.rw_timeout s then to_int (SRTContext.rw_timeout s)
        else 5000000 in
      let ai_flags :=
        if SRTMode_eqb (SRTContext.mode s) SRT_MODE_LISTENER then AI_PASSIVE
        else 0 in
      let node := if String.eqb hostname "" then None else Some hostname in
      ret <- ext (getaddrinfo node port ai_flags) ;;
      if truthy ret then Ret (AVERROR EIO)
      else
        let '(ai, ai_rest) := resolved E node port ai_flags in
        setup_restart fuel open_timeout ai ai_rest.

(** The [if (p)] block of [libsrt_open], lines 417-468: [Some e] is the
    early [return e] of the unknown-mode branch. *)
Definition open_options (p : string) : M (option Z) :=
  parse_tag "maxbw" p (fun buf => strtoll E buf 0) SRTContext.set_maxbw ;;
  parse_tag "pbkeylen" p (fun buf => to_int (strtol E buf 10))
    SRTContext.set_pbkeylen ;;
  (match av_find_info_tag E "passphrase" p with
   | Some buf => modify_s (SRTContext.set_passphrase (Some buf))
   | None => Ret tt
   end) ;;
  parse_tag "mss" p (fun buf => to_int (strtol E buf 10)) SRTContext.set_mss ;;
  parse_tag "ffs" p (fun buf => to_int (strtol E buf 10)) SRTContext.set_ffs ;;
  parse_tag "ipttl" p (fun buf => to_int (strtol E buf 10))
    SRTContext.set_ipttl ;;
  parse_tag "iptos" p (fun buf => to_int (strtol E buf 10))
    SRTContext.set_iptos ;;
  parse_tag "inputbw" p (fun buf => strtoll E buf 10) SRTContext.set_inputbw ;;
  parse_tag "oheadbw" p (fun buf => to_int (strtoll E buf 10))
    SRTContext.set_oheadbw ;;
  parse_tag "tsbpddelay" p (fun buf => strtol E buf 10)
    SRTContext.set_tsbpddelay ;;
  parse_tag "tlpktdrop" p (fun buf => to_int (strtol E buf 10))
    SRTContext.set_tlpktdrop ;;
  parse_tag "nakreport" p (fun buf => to_int (strtol E buf 10))
    SRTContext.set_nakreport ;;
  parse_tag "connect_timeout" p (fun buf => strtol E buf 10)
    SRTContext.set_connect_timeout ;;
  match av_find_info_tag E "mode" p with
  | Some buf =>
    if String.eqb buf "caller" then
      modify_s (SRTContext.set_mode SRT_MODE_CALLER) ;; Ret None
    else if String.eqb buf "listener" then
      modify_s (SRTContext.set_mode SRT_MODE_LISTENER) ;; Ret None
    else if String.eqb buf "rendezvous" then
      modify_s (SRTContext.set_mode SRT_MODE_RENDEZVOUS) ;; Ret None
    else Ret (Some (AVERROR EIO))
  | None => Ret None
  end.

(** [libsrt_open], lines 405-470. *)
Definition libsrt_open (fuel : nat) (uri : string) (flags : Z) : M Z :=
  r <- ext srt_startup ;;
  if r <? 0 then Ret AVERROR_UNKNOWN
  else
    early <- (match strchr uri "?" with
              | Some p => open_options p
              | None => Ret None
              end) ;;
    match early with
    | Some e => Ret e
    | None => libsrt_setup fuel uri flags
    end.

(** [libsrt_read], lines 472-489; the bytes received are not modelled,
    only the count. *)
Definition libsrt_read (fuel : nat) (size : Z) : M Z :=
  hd <- get_h ;;
  s <- get_s ;;
  ret <- (if Z.land (URLContext.flags hd) AVIO_FLAG_NONBLOCK =? 0 then
            libsrt_network_wait_fd_timeout fuel (SRTContext.eid s)
              (SRTContext.fd s) 0 (URLContext.rw_timeout hd)
          else Ret 0) ;;
  if truthy ret then Ret ret
  else
    ret <- ext (srt_recvmsg (SRTContext.fd s) size) ;;
    if ret <? 0 then libsrt_neterrno else Ret ret.

(** [libsrt_write], lines 491-508. *)
Definition libsrt_write (fuel : nat) (size : Z) : M Z :=
  hd <- get_h ;;
  s <- get_s ;;
  ret <- (if Z.land (URLContext.flags hd) AVIO_FLAG_NONBLOCK =? 0 then
            libsrt_network_wait_fd_timeout fuel (SRTContext.eid s)
              (SRTContext.fd s) 1 (URLContext.rw_timeout hd)
          else Ret 0) ;;
  if truthy ret then Ret ret
  else
    ret <- ext (srt_sendmsg (SRTContext.fd s) size) ;;
    if ret <? 0 then libsrt_neterrno else Ret ret.

(** [libsrt_close], lines 510-521. *)
Definition libsrt_close : M Z :=
  s <- get_s ;;
  ext (srt_close (SRTContext.fd s)) ;;
  ext (srt_epoll_release (SRTContext.eid s)) ;;
  ext srt_cleanup ;;
  Ret 0.

(** [libsrt_get_file_handle], lines 523-527. *)
Definition libsrt_get_file_handle : M Z :=
  s <- get_s ;; Ret (SRTContext.fd s).

End Program.

(** ** What a history leaves registered

    Modelled from the spec: the contract of the transport's readiness group,
    which is not under src/ (section 4.1: registering adds the socket to the
    group's registration set for one direction, deregistering takes it out).
    [registrations t] is the set of (group, socket) pairs, with their event
    mask, that the successful [srt_epoll_add_usock] and
    [srt_epoll_remove_usock] calls of the history [t] leave behind. *)
Definition apply_registration (r : gmap (Z * Z) Z) (e : event)
  : gmap (Z * Z) Z :=
  match e with
  | (srt_epoll_add_usock eid fd modes, ret) =>
    if 0 <=? ret then <[(eid, fd) := modes]> r else r
  | (srt_epoll_remove_usock eid fd, ret) =>
    if 0 <=? ret then delete (eid, fd) r else r
  | _ => r
  end.

Definition registrations (t : list event) : gmap (Z * Z) Z :=
  fold_left apply_registration t ∅.

(** Modelled from the spec: the descriptors a history leaves live, by the
    contract of the transport (not under src/): a successful
    [srt_epoll_create] yields a live readiness group until
    [srt_epoll_release] is called on it, a successful [srt_socket] or
    [srt_accept] yields a live socket until [srt_close] is called on it. *)
Definition apply_group (g : gset Z) (e : event) : gset Z :=
  match e with
  | (srt_epoll_create, ret) => if 0 <=? ret then g ∪ {[ret]} else g
  | (srt_epoll_release eid, _) => g ∖ {[eid]}
  | _ => g
  end.

Definition live_groups (t : list event) : gset Z :=
  fold_left apply_group t ∅.

Definition apply_socket (g : gset Z) (e : event) : gset Z :=
  match e with
  | (srt_socket _ _ _, ret) => if 0 <=? ret then g ∪ {[ret]} else g
  | (srt_accept _, ret) => if 0 <=? ret then g ∪ {[ret]} else g
  | (srt_close fd, _) => g ∖ {[fd]}
  | _ => g
  end.

Definition live_sockets (t : list event) : gset Z :=
  fold_left apply_socket t ∅.

(** ** Classes of events *)

(** The calls of the readiness group. *)
Definition is_epoll_call (c : extcall) : bool :=
  match c with
  | srt_epoll_add_usock _ _ _ | srt_epoll_wait _ _ _
  | srt_epoll_remove_usock _ _ => true
  | _ => false
  end.

(** Calls to the transport and the resolver, as opposed to the two calls
    back into the application (interrupt check, clock). *)
Definition is_lib_call (c : extcall) : bool :=
  match c with
  | ff_check_interrupt | av_gettime_relative => false
  | _ => true
  end.

(** The interrupt callback asked for the operation to be abandoned. *)
Definition is_cancel (e : event) : bool :=
  match e with
  | (ff_check_interrupt, v) => truthy v
  | _ => false
  end.

(** Calls that give a resource back: closing the candidate socket and
    freeing the resolved address list. *)
Definition is_release (e : event) : bool :=
  match fst e with
  | srt_close _ | freeaddrinfo => true
  | _ => false
  end.



(** The readings from the one that starts the deadline: the loop keeps 0
    in [wait_start] for "not started", so a reading of 0 starts nothing. *)
Fixpoint started (readings : list Z) : list Z :=
  match readings with
  | [] => []
  | now :: later => if now =? 0 then started later else readings
  end.

(** The error [libsrt_neterrno] makes of the transport's last error. *)
Definition neterrno_of (err : Z) : Z :=
  if err =? SRT_EASYNCRCV then AVERROR EAGAIN else AVERROR_UNKNOWN.

(** [emits ok m]: [m] always returns, leaves the handle alone and performs
    only calls of the class [ok]. *)
Definition emits {A : Type} (ok : extcall -> bool) (m : M A) : Prop :=
  forall s, exists a t,
    m s = (Some a, add_trace s t) /\ forallb (fun e => ok (fst e)) t = true.

(** What the label [fail] of [libsrt_setup] does with a candidate whose
    socket is [fd], from the state [s]: it closes the socket and goes on with
    the next candidate, or, on the last candidate, leaves through [fail1]
    with the error [ret]. *)
Definition after_fail (E : env) (fuel : nat) (open_timeout : Z)
  (next : list addrinfo) (ret fd : Z) (s : state) : option Z * state :=
  let closed := add_trace s [(srt_close fd, respond E (trace s) (srt_close fd))] in
  match next with
  | ai_next :: rest => setup_restart E fuel open_timeout ai_next rest closed
  | [] =>
    (Some ret,
     add_trace closed [(freeaddrinfo, respond E (trace closed) freeaddrinfo)])
  end.

(** What the label [fail1] does: the socket is closed, the address list is
    freed and the error [ret] is returned, whatever candidates are left. *)
Definition after_fail1 (E : env) (ret fd : Z) (s : state) : option Z * state :=
  let closed := add_trace s [(srt_close fd, respond E (trace s) (srt_close fd))] in
  (Some ret,
   add_trace closed [(freeaddrinfo, respond E (trace closed) freeaddrinfo)]).

(** ** The paths of the readiness waiter

    The shapes a run of [libsrt_network_wait_fd] can take, as the events it
    performs and the value it returns.  [poll_outcome r2 diag ret]: after
    [srt_epoll_wait] returned [r2] the code reads the last error as in
    [diag] and holds [ret].  [deregister_outcome r3 diag ret r]: after
    [srt_epoll_remove_usock] returned [r3] the call returns [r]. *)
Inductive poll_outcome : Z -> list event -> Z -> Prop :=
| poll_ready (r2 : Z) :
    0 <= r2 -> poll_outcome r2 [] 0
| poll_timed_out (r2 : Z) :
    r2 < 0 ->
    poll_outcome r2 [(srt_getlasterror, SRT_ETIMEOUT)] (AVERROR EAGAIN)
| poll_error (r2 e1 e2 : Z) :
    r2 < 0 -> e1 <> SRT_ETIMEOUT ->
    poll_outcome r2 [(srt_getlasterror, e1); (srt_getlasterror, e2)]
      (neterrno_of e2).

Inductive deregister_outcome : Z -> list event -> Z -> Z -> Prop :=
| deregister_ok (r3 ret : Z) :
    0 <= r3 -> deregister_outcome r3 [] ret ret
| deregister_failed (r3 err ret : Z) :
    r3 < 0 ->
    deregister_outcome r3 [(srt_getlasterror, err)] ret (neterrno_of err).

Inductive wait_fd_path (eid fd write : Z) : list event -> Z -> Prop :=
| wait_fd_not_registered (r1 err : Z) :
    r1 < 0 ->
    wait_fd_path eid fd write
      [(srt_epoll_add_usock eid fd
          (if truthy write then SRT_EPOLL_OUT else SRT_EPOLL_IN), r1);
       (srt_getlasterror, err)]
      (neterrno_of err)
| wait_fd_polled (r1 r2 r3 ret r : Z) (diag diag' : list event) :
    0 <= r1 ->
    poll_outcome r2 diag ret ->
    deregister_outcome r3 diag' ret r ->
    wait_fd_path eid fd write
      ((srt_epoll_add_usock eid fd
          (if truthy write then SRT_EPOLL_OUT else SRT_EPOLL_IN), r1)
       :: (srt_epoll_wait eid (truthy write) POLLING_TIME, r2)
       :: diag ++ (srt_epoll_remove_usock eid fd, r3) :: diag')
      r.

(** ** The paths of the deadline loop

    [wait_loop_path eid fd write timeout fuel wait_start t r]: the loop of
    [libsrt_network_wait_fd_timeout], entered with [fuel] iterations left
    and the local [wait_start], performs the events [t] and returns [r]
    ([None] when the iterations are used up). *)
Inductive wait_loop_path (eid fd write timeout : Z)
  : nat -> Z -> list event -> option Z -> Prop :=
| loop_out_of_fuel (ws : Z) :
    wait_loop_path eid fd write timeout O ws [] None
| loop_cancelled (n : nat) (ws v : Z) :
    truthy v = true ->
    wait_loop_path eid fd write timeout (S n) ws
      [(ff_check_interrupt, v)] (Some AVERROR_EXIT)
| loop_done (n : nat) (ws v r : Z) (tp : list event) :
    truthy v = false ->
    wait_fd_path eid fd write tp r ->
    r <> AVERROR EAGAIN ->
    wait_loop_path eid fd write timeout (S n) ws
      ((ff_check_interrupt, v) :: tp) (Some r)
| loop_untimed (n : nat) (ws v : Z) (tp t : list event) (r : option Z) :
    truthy v = false ->
    wait_fd_path eid fd write tp (AVERROR EAGAIN) ->
    timeout <= 0 ->
    wait_loop_path eid fd write timeout n ws t r ->
    wait_loop_path eid fd write timeout (S n) ws
      ((ff_check_interrupt, v) :: tp ++ t) r
| loop_start (n : nat) (v now : Z) (tp t : list event) (r : option Z) :
    truthy v = false ->
    wait_fd_path eid fd write tp (AVERROR EAGAIN) ->
    0 < timeout ->
    wait_loop_path eid fd write timeout n now t r ->
    wait_loop_path eid fd write timeout (S n) 0
      ((ff_check_interrupt, v) :: tp ++ (av_gettime_relative, now) :: t) r
| loop_deadline (n : nat) (ws v now : Z) (tp : list event) :
    truthy v = false ->
    wait_fd_path eid fd write tp (AVERROR EAGAIN) ->
    0 < timeout -> ws <> 0 ->
    timeout < now - ws ->
    wait_loop_path eid fd write timeout (S n) ws
      ((ff_check_interrupt, v) :: tp ++ [(av_gettime_relative, now)])
      (Some (AVERROR ETIMEDOUT))
| loop_again (n : nat) (ws v now : Z) (tp t : list event) (r : option Z) :
    truthy v = false ->
    wait_fd_path eid fd write tp (AVERROR EAGAIN) ->
    0 < timeout -> ws <> 0 ->
    now - ws <= timeout ->
    wait_loop_path eid fd write timeout n ws t r ->
    wait_loop_path eid fd write timeout (S n) ws
      ((ff_check_interrupt, v) :: tp ++ (av_gettime_relative, now) :: t) r.


(** No event of the trace is a cancellation. *)
Definition no_cancel (t : list event) : bool :=
  forallb (fun e => negb (is_cancel e)) t.

(** ** Scenarios

    Concrete collaborators on which the theorems below are exercised. *)

(** Decimal digits, as [strtol] reads them in base 10. *)
Fixpoint digits (s : string) (acc : Z) : Z :=
  match s with
  | EmptyString => acc
  | String a rest =>
    let n := Z.of_N (N_of_ascii a) in
    if (48 <=? n) && (n <=? 57) then digits rest (10 * acc + (n - 48))
    else acc
  end.

Definition scenario_strtol (s : string) (base : Z) : Z :=
  match s with
  | String "-"%char rest => - digits rest 0
  | _ => digits s 0
  end.

(** The query of a URI as a table of keys and values. *)
Fixpoint scenario_tag (query : list (string * string)) (tag : string)
  : option string :=
  match query with
  | [] => None
  | (k, v) :: rest => if String.eqb k tag then Some v else scenario_tag rest tag
  end.

(** The host of a URI: the text between [://] and the next [:], [/] or
    [?]. *)
Fixpoint after_scheme (uri : string) : string :=
  match uri with
  | String ":"%char (String "/"%char (String "/"%char rest)) => rest
  | String _ rest => after_scheme rest
  | EmptyString => EmptyString
  end.

Fixpoint until_delimiter (s : string) : string :=
  match s with
  | EmptyString => EmptyString
  | String c rest =>
    if (Ascii.eqb c ":" || Ascii.eqb c "/" || Ascii.eqb c "?")%bool
    then EmptyString
    else String c (until_delimiter rest)
  end.

Definition scenario_hostname (uri : string) : string :=
  until_delimiter (after_scheme uri).

Definition scenario (answers : list event -> extcall -> Z)
  (candidates : addrinfo * list addrinfo) (proto : string) (port : Z)
  (query : list (string * string)) : env :=
  mk_env answers (fun _ _ _ => candidates)
    (fun uri => (proto, scenario_hostname uri, port))
    (fun tag _ => scenario_tag query tag) scenario_strtol scenario_strtol.

(** A fresh handle: the option defaults, blocking mode. *)
Definition fresh_state : state :=
  mk_state [] (URLContext.mk SRTContext_default 0 0 0).

Definition candidate_a : addrinfo := mk_addrinfo 2 SOCK_DGRAM 101.
Definition candidate_b : addrinfo := mk_addrinfo 2 SOCK_DGRAM 102.

(** A transport on which no socket ever becomes ready: every poll times
    out, nothing else fails, the application never interrupts, and the clock
    advances by a millisecond with every call. *)
Definition never_ready (hist : list event) (c : extcall) : Z :=
  match c with
  | srt_epoll_wait _ _ _ => -1
  | srt_getlasterror => SRT_ETIMEOUT
  | av_gettime_relative => 1000 * (1 + Z.of_nat (length hist))
  | srt_epoll_create => 1
  | srt_socket _ _ _ => 5
  | srt_accept _ => 6
  | _ => 0
  end.

(** ** Cancellation

    [cancel_shape after is_exit t r]: the events [t] of a run hold no
    cancellation, or exactly one, after which the run performs only events
    of the class [after] and returns a value of the class [is_exit]. *)
Definition cancel_shape {A : Type} (after : event -> bool)
  (is_exit : A -> Prop) (t : list event) (r : option A) : Prop :=
  no_cancel t = true
  \/ exists t1 v t2,
       t = t1 ++ (ff_check_interrupt, v) :: t2
       /\ truthy v = true
       /\ no_cancel t1 = true
       /\ forallb after t2 = true
       /\ exists a, r = Some a /\ is_exit a.

(** Every run of [m] has the shape above. *)
Definition cancels {A : Type} (after : event -> bool) (is_exit : A -> Prop)
  (m : M A) : Prop :=
  forall s, exists t,
    trace (snd (m s)) = trace s ++ t
    /\ cancel_shape after is_exit t (fst (m s)).

(** [m] always returns a value of the class [is_exit] and performs only
    events of the class [after]. *)
Definition releases {A : Type} (after : event -> bool) (is_exit : A -> Prop)
  (m : M A) : Prop :=
  forall s, exists a t,
    fst (m s) = Some a /\ is_exit a
    /\ trace (snd (m s)) = trace s ++ t /\ forallb after t = true.

(** The value with which a cancelled operation returns. *)
Definition is_exit_code (ret : Z) : Prop := ret = AVERROR_EXIT.

(** The jump a cancelled candidate takes: to [fail1], with the
    cancellation code. *)
Definition is_exit_jump (j : jump) : Prop :=
  exists fd, j = goto_fail1 AVERROR_EXIT fd.

(** [lib_only m]: [m] always returns and performs library calls only (it
    may change the handle). *)
Definition lib_only {A : Type} (m : M A) : Prop :=
  forall s, exists a t,
    fst (m s) = Some a
    /\ trace (snd (m s)) = trace s ++ t
    /\ forallb (fun e => is_lib_call (fst e)) t = true.

(** A transport on which connecting would block, with an application that
    asks to stop at the first interrupt check. *)
Definition cancelled_connect (hist : list event) (c : extcall) : Z :=
  match c with
  | srt_epoll_create => 1
  | srt_socket _ _ _ => 5
  | srt_connect _ _ => -1
  | srt_getlasterror => SRT_EASYNCRCV
  | ff_check_interrupt => 1
  | _ => 0
  end.

(** A transport on which every call succeeds at once. *)
Definition always_ready (hist : list event) (c : extcall) : Z :=
  match c with
  | srt_epoll_create => 1
  | srt_socket _ _ _ => 5
  | srt_accept _ => 6
  | srt_epoll_wait _ _ _ => 1
  | av_gettime_relative => 1000 * (1 + Z.of_nat (length hist))
  | _ => 0
  end.

(** A transport that reports the socket ready and then fails to take it
    out of the group. *)
Definition deregistration_fails (hist : list event) (c : extcall) : Z :=
  match c with
  | srt_epoll_wait _ _ _ => 1
  | srt_epoll_remove_usock _ _ => -1
  | srt_getlasterror => 5004
  | _ => 0
  end.

Definition is_setsockopt (e : event) : bool :=
  match fst e with
  | srt_setsockopt _ _ _ _ => true
  | _ => false
  end.

(** A transport that rejects the first option it is given and accepts
    every later one; sockets are numbered by the length of the history. *)
Definition first_option_rejected (hist : list event) (c : extcall) : Z :=
  match c with
  | srt_epoll_create => 1
  | srt_socket _ _ _ => 5 + Z.of_nat (length hist)
  | srt_setsockopt _ _ _ _ => if existsb is_setsockopt hist then 0 else -1
  | _ => 0
  end.

(** A transport on which no address can be bound. *)
Definition bind_refused (hist : list event) (c : extcall) : Z :=
  match c with
  | srt_epoll_create => 1
  | srt_socket _ _ _ => 5 + Z.of_nat (length hist)
  | srt_bind _ _ => -1
  | srt_getlasterror => 5011
  | _ => 0
  end.

(** A transport on which every connect is refused. *)
Definition connect_refused (hist : list event) (c : extcall) : Z :=
  match c with
  | srt_epoll_create => 1
  | srt_socket _ _ _ => 5 + Z.of_nat (length hist)
  | srt_connect _ _ => -1
  | srt_getlasterror => 1001
  | _ => 0
  end.

(** [silent m]: [m] always returns and performs no call.  [yields v m]: it
    moreover returns [v]. *)
Definition silent {A : Type} (m : M A) : Prop :=
  forall s, exists a s', m s = (Some a, s') /\ trace s' = trace s.

Definition yields {A : Type} (v : A) (m : M A) : Prop :=
  forall s, exists s', m s = (Some v, s') /\ trace s' = trace s.

(** [performs ok m]: whatever [m] does, returning or not, it performs only
    calls of the class [ok]. *)
Definition performs {A : Type} (ok : extcall -> bool) (m : M A) : Prop :=
  forall s, exists t,
    trace (snd (m s)) = trace s ++ t
    /\ forallb (fun e => ok (fst e)) t = true.

(** Every call but the release of a readiness group. *)
Definition keeps_group (c : extcall) : bool :=
  match c with
  | srt_epoll_release _ => false
  | _ => true
  end.

(** ** Classes of calls, by the part of the program that makes them *)

(** [only_calls ok m]: whatever [m] does, returning or not, it leaves the
    handle alone and performs only calls of the class [ok]. *)
Definition only_calls {A : Type} (ok : extcall -> bool) (m : M A) : Prop :=
  forall s, exists t,
    snd (m s) = add_trace s t /\ forallb (fun e => ok (fst e)) t = true.

(** The calls of a wait on the socket [fd] in the group [eid] for the
    direction [write]: the interrupt check, the clock, the last error, and
    the three group calls with exactly these arguments. *)
Definition wait_call (eid fd write : Z) (c : extcall) : bool :=
  match c with
  | ff_check_interrupt | av_gettime_relative | srt_getlasterror => true
  | srt_epoll_add_usock e f modes =>
    (e =? eid) && (f =? fd)
    && (modes =? (if truthy write then SRT_EPOLL_OUT else SRT_EPOLL_IN))
  | srt_epoll_wait e w ms =>
    (e =? eid) && Bool.eqb w (truthy write) && (ms =? POLLING_TIME)
  | srt_epoll_remove_usock e f => (e =? eid) && (f =? fd)
  | _ => false
  end.

(** The calls made for one candidate address. *)
Definition candidate_call (c : extcall) : bool :=
  match c with
  | ff_check_interrupt | av_gettime_relative | srt_getlasterror
  | srt_clearlasterror | srt_epoll_add_usock _ _ _ | srt_epoll_wait _ _ _
  | srt_epoll_remove_usock _ _ | srt_socket _ _ _ | srt_setsockopt _ _ _ _
  | srt_bind _ _ | srt_listen _ _ | srt_accept _ | srt_connect _ _ => true
  | _ => false
  end.

(** The calls of setup, and of open. *)
Definition setup_call (c : extcall) : bool :=
  match c with
  | srt_epoll_create | getaddrinfo _ _ _ | freeaddrinfo | srt_close _ => true
  | _ => candidate_call c
  end.

Definition open_call (c : extcall) : bool :=
  match c with
  | srt_startup => true
  | _ => setup_call c
  end.

(** The calls of a read or write of [size] bytes on the handle. *)
Definition read_call (eid fd size : Z) (c : extcall) : bool :=
  match c with
  | srt_recvmsg f n => (f =? fd) && (n =? size)
  | _ => wait_call eid fd 0 c
  end.

Definition write_call (eid fd size : Z) (c : extcall) : bool :=
  match c with
  | srt_sendmsg f n => (f =? fd) && (n =? size)
  | _ => wait_call eid fd 1 c
  end.

(** The events of a trace whose call is of the class [p]. *)
Definition calls_of (p : extcall -> bool) (t : list event) : list event :=
  List.filter (fun e => p (fst e)) t.

Definition is_accept (c : extcall) : bool :=
  match c with srt_accept _ => true | _ => false end.


Definition is_interrupt_check (c : extcall) : bool :=
  match c with ff_check_interrupt => true | _ => false end.

Definition is_freeaddrinfo (c : extcall) : bool :=
  match c with freeaddrinfo => true | _ => false end.

Definition is_close (c : extcall) : bool :=
  match c with srt_close _ => true | _ => false end.

Definition is_socket (c : extcall) : bool :=
  match c with srt_socket _ _ _ => true | _ => false end.

(** A transport that fails the poll with an error other than the
    timeout. *)
Definition poll_broken (hist : list event) (c : extcall) : Z :=
  match c with
  | srt_epoll_wait _ _ _ => -1
  | srt_getlasterror => 5004
  | _ => 0
  end.

Definition is_check_or_registration (c : extcall) : bool :=
  match c with
  | ff_check_interrupt | srt_epoll_add_usock _ _ _ => true
  | _ => false
  end.

(** A sequence of interrupt checks and registrations in which the two
    alternate, beginning with a check, and every registration follows a
    check that did not signal. *)
Fixpoint checks_before_polls (l : list event) : bool :=
  match l with
  | [] => true
  | (ff_check_interrupt, v) :: rest =>
    match rest with
    | [] => true
    | (srt_epoll_add_usock _ _ _, _) :: rest' =>
      negb (truthy v) && checks_before_polls rest'
    | _ => false
    end
  | _ => false
  end.

(** The events of a run of [libsrt_setsockopt] calls on the socket [fd]:
    each entry is the option, the value given and the answer of
    [srt_setsockopt]. *)
Definition sockopt_events (fd : Z) (l : list (SRT_SOCKOPT * optval * Z))
  : list event :=
  map (fun x => (srt_setsockopt fd 0 (fst (fst x)) (snd (fst x)), snd x)) l.

(** The options of [libsrt_set_options_pre] and of
    [libsrt_set_options_post], in the order of the [||] chains. *)
Definition pre_options : list SRT_SOCKOPT :=
  [SRTO_RENDEZVOUS; SRTO_MAXBW; SRTO_PBKEYLEN; SRTO_PASSPHRASE; SRTO_MSS;
   SRTO_FC; SRTO_IPTTL; SRTO_IPTOS; SRTO_TSBPDDELAY; SRTO_TLPKTDROP;
   SRTO_NAKREPORT; SRTO_CONNTIMEO].

Definition post_options : list SRT_SOCKOPT := [SRTO_INPUTBW; SRTO_OHEADBW].

(** [applied fd order failed t]: the trace [t] sets options of [order] on
    [fd], in that order and each at most once; if [failed] the last answer
    is negative and is the only one, otherwise none is. *)
Definition applied (fd : Z) (order : list SRT_SOCKOPT) (failed : bool)
  (t : list event) : Prop :=
  exists l,
    t = sockopt_events fd l
    /\ sublist (map (fun x => fst (fst x)) l) order
    /\ if failed then
         exists l' x,
           l = l' ++ [x] /\ snd x < 0 /\ Forall (fun y => 0 <= snd y) l'
       else Forall (fun y => 0 <= snd y) l.

(** [applies fd order m]: every run of the chain [m] returns and is
    [applied]. *)
Definition applies (fd : Z) (order : list SRT_SOCKOPT) (m : M bool) : Prop :=
  forall s, exists failed t,
    m s = (Some failed, add_trace s t) /\ applied fd order failed t.

Definition is_getaddrinfo (c : extcall) : bool :=
  match c with getaddrinfo _ _ _ => true | _ => false end.

(** The calls made for the candidate addresses: those of one candidate, and
    the [srt_close] of a socket given up. *)
Definition candidate_or_close (c : extcall) : bool :=
  candidate_call c || is_close c.

(** What the three ways out of a candidate carry: a socket, a negative
    error, an error. *)
Definition jump_sound (j : jump) : Prop :=
  match j with
  | connected fd => 0 <= fd
  | goto_fail ret _ => ret < 0
  | goto_fail1 ret _ => ret <> 0
  end.

(** The two fields of the handle that describe the connection. *)
Definition same_connection (h1 h2 : URLContext.t) : Prop :=
  SRTContext.fd (URLContext.priv_data h1) =
    SRTContext.fd (URLContext.priv_data h2)
  /\ URLContext.is_streamed h1 = URLContext.is_streamed h2.

(** The calls of a candidate that neither create nor close a socket. *)
Definition connect_call (c : extcall) : bool :=
  candidate_call c && negb (is_socket c) && negb (is_accept c).

(** The socket a jump out of a candidate carries. *)
Definition jump_fd (j : jump) : Z :=
  match j with
  | connected fd | goto_fail _ fd | goto_fail1 _ fd => fd
  end.

(** A handle in listener mode, as [libsrt_open] leaves it for
    [mode=listener]. *)
Definition listener_state : state :=
  mk_state []
    (URLContext.mk (SRTContext.set_mode SRT_MODE_LISTENER SRTContext_default)
       0 0 0).

(** Polls under the watch of the interrupt callback: in [t] every
    registration of a socket for a poll comes directly after an interrupt
    check that did not signal; [prev] is the event before [t]. *)
Fixpoint polls_checked (prev : option event) (t : list event) : bool :=
  match t with
  | [] => true
  | e :: rest =>
    match fst e with
    | srt_epoll_add_usock _ _ _ =>
      match prev with
      | Some (ff_check_interrupt, v) => negb (truthy v)
      | _ => false
      end
    | _ => true
    end && polls_checked (Some e) rest
  end.

(** [checks_polls m]: in every run of [m], returning or not, no poll starts
    without such a check. *)
Definition checks_polls {A : Type} (m : M A) : Prop :=
  forall s, exists t,
    trace (snd (m s)) = trace s ++ t /\ polls_checked None t = true.

Definition is_registration (c : extcall) : bool :=
  match c with srt_epoll_add_usock _ _ _ => true | _ => false end.

(* ===================================================================== *)
(** * Properties *)

(** ** Runs of the embedding *)

Example to_int_wraps :
  to_int (2 ^ 31) = - 2 ^ 31 /\ to_int (2 ^ 32 + 5) = 5 /\ to_int (-1) = -1.
Proof. by compute. Qed.

Example strchr_query : strchr "srt://h:1?a=b" "?" = Some "?a=b".
Proof. reflexivity. Qed.

(** Caller mode on a transport that is ready: the first candidate is
    connected, its socket recorded, the timeout of the query copied to the
    handle. *)
Example caller_connects :
  let run :=
    libsrt_open
      (scenario always_ready (candidate_a, [candidate_b]) "srt" 9000
         [("timeout", "3000000")])
      5 "srt://host:9000?timeout=3000000" 0 fresh_state in
  fst run = Some 0
  /\ trace (snd run) =
     [(srt_startup, 0); (srt_epoll_create, 1);
      (getaddrinfo (Some "host") 9000 0, 0); (srt_socket 2 2 0, 5);
      (srt_setsockopt 5 0 SRTO_TSBPDDELAY (OptInt 0), 0);
      (srt_setsockopt 5 0 SRTO_SNDSYN (OptInt 1), 0);
      (srt_setsockopt 5 0 SRTO_RCVSYN (OptInt 1), 0);
      (srt_connect 5 101, 0); (freeaddrinfo, 0)]
  /\ SRTContext.fd (URLContext.priv_data (h (snd run))) = 5
  /\ URLContext.rw_timeout (h (snd run)) = 3000000
  /\ URLContext.is_streamed (h (snd run)) = 1.
Proof. repeat split; reflexivity. Qed.

(** Listener mode on the same transport: the accepted socket 6 replaces the
    listening socket 5. *)
Example listener_accepts :
  let run :=
    libsrt_open
      (scenario always_ready (candidate_a, []) "srt" 9000 [("mode", "listener")])
      5 "srt://:9000?mode=listener" 0 fresh_state in
  fst run = Some 0
  /\ trace (snd run) =
     [(srt_startup, 0); (srt_epoll_create, 1); (getaddrinfo None 9000 1, 0);
      (srt_socket 2 2 0, 5);
      (srt_setsockopt 5 0 SRTO_TSBPDDELAY (OptInt 0), 0);
      (srt_setsockopt 5 1 SRTO_REUSEADDR (OptInt 1), 0);
      (srt_bind 5 101, 0); (srt_listen 5 1, 0);
      (ff_check_interrupt, 0); (srt_epoll_add_usock 1 5 4, 0);
      (srt_epoll_wait 1 true 100, 1); (srt_epoll_remove_usock 1 5, 0);
      (srt_accept 5, 6);
      (srt_setsockopt 6 0 SRTO_SNDSYN (OptInt 1), 0);
      (srt_setsockopt 6 0 SRTO_RCVSYN (OptInt 1), 0); (freeaddrinfo, 0)]
  /\ SRTContext.fd (URLContext.priv_data (h (snd run))) = 6.
Proof. repeat split; reflexivity. Qed.

Example close_releases :
  trace (snd (libsrt_close
                (scenario always_ready (candidate_a, []) "srt" 9000 [])
                fresh_state)) =
    [(srt_close 0, 0); (srt_epoll_release 0, 0); (srt_cleanup, 0)].
Proof. reflexivity. Qed.

(** ** Basic facts about runs *)

Lemma add_trace_nil (s : state) : add_trace s [] = s.
Proof. destruct s; unfold add_trace; simpl. by rewrite app_nil_r. Qed.

Lemma add_trace_app (s : state) (t1 t2 : list event) :
  add_trace (add_trace s t1) t2 = add_trace s (t1 ++ t2).
Proof. unfold add_trace; simpl. by rewrite app_assoc. Qed.

Lemma trace_add_trace (s : state) (t : list event) :
  trace (add_trace s t) = trace s ++ t.
Proof. reflexivity. Qed.

Lemma h_add_trace (s : state) (t : list event) : h (add_trace s t) = h s.
Proof. reflexivity. Qed.

Section Emits.

Variable E : env.
Variable ok : extcall -> bool.

Lemma emits_Ret {A : Type} (a : A) : emits ok (Ret a).
Proof. intros s. exists a, []. by rewrite add_trace_nil. Qed.

Lemma emits_ext (c : extcall) : ok c = true -> emits ok (ext E c).
Proof.
  intros Hc s. exists (respond E (trace s) c), [(c, respond E (trace s) c)].
  split; [reflexivity | simpl; by rewrite Hc].
Qed.

Lemma emits_bind {A B : Type} (m : M A) (k : A -> M B) :
  emits ok m -> (forall a, emits ok (k a)) -> emits ok (bind m k).
Proof.
  intros Hm Hk s. destruct (Hm s) as (a & t1 & Hrun & Ht1).
  destruct (Hk a (add_trace s t1)) as (b & t2 & Hrun2 & Ht2).
  exists b, (t1 ++ t2). unfold bind. rewrite Hrun, Hrun2, add_trace_app.
  split; [reflexivity |].
  rewrite forallb_app. apply andb_true_intro. by split.
Qed.

Lemma emits_if {A : Type} (b : bool) (m1 m2 : M A) :
  emits ok m1 -> emits ok m2 -> emits ok (if b then m1 else m2).
Proof. by destruct b. Qed.

Lemma emits_get_s : emits ok get_s.
Proof. intros s. exists (URLContext.priv_data (h s)), []. by rewrite add_trace_nil. Qed.

Lemma emits_get_h : emits ok get_h.
Proof. intros s. exists (h s), []. by rewrite add_trace_nil. Qed.

End Emits.

Lemma bind_Some {A B : Type} (m : M A) (k : A -> M B) (s s' : state) (a : A) :
  m s = (Some a, s') -> bind m k s = k a s'.
Proof. unfold bind. by intros ->. Qed.

Lemma bind_Ret {A B : Type} (a : A) (k : A -> M B) (s : state) :
  bind (Ret a) k s = k a s.
Proof. reflexivity. Qed.

Lemma bind_get_s {B : Type} (k : SRTContext.t -> M B) (s : state) :
  bind get_s k s = k (URLContext.priv_data (h s)) s.
Proof. reflexivity. Qed.

Lemma bind_get_h {B : Type} (k : URLContext.t -> M B) (s : state) :
  bind get_h k s = k (h s) s.
Proof. reflexivity. Qed.

Lemma bind_None {A B : Type} (m : M A) (k : A -> M B) (s s' : state) :
  m s = (None, s') -> bind m k s = (None, s').
Proof. unfold bind. by intros ->. Qed.

Lemma neterrno_of_cases (err : Z) :
  neterrno_of err = AVERROR EAGAIN \/ neterrno_of err = AVERROR_UNKNOWN.
Proof. unfold neterrno_of. destruct (err =? SRT_EASYNCRCV); auto. Qed.

Lemma neterrno_of_neg (err : Z) : neterrno_of err < 0.
Proof. by destruct (neterrno_of_cases err) as [-> | ->]. Qed.

(** Turn the boolean tests of the code into facts of [Z]. *)
Ltac z_facts :=
  repeat match goal with
    | H : (_ <? _) = true |- _ => apply Z.ltb_lt in H
    | H : (_ <? _) = false |- _ => apply Z.ltb_ge in H
    | H : (_ <=? _) = true |- _ => apply Z.leb_le in H
    | H : (_ <=? _) = false |- _ => apply Z.leb_gt in H
    | H : (_ =? _) = true |- _ => apply Z.eqb_eq in H
    | H : (_ =? _) = false |- _ => apply Z.eqb_neq in H
    end.

Ltac split_tests :=
  repeat (match goal with
          | |- context [if ?b then _ else _] => destruct b eqn:?
          end; cbn).

(** ** The readiness waiter *)

Section WaitFd.

Variable E : env.

Lemma libsrt_neterrno_run (s : state) :
  libsrt_neterrno E s =
    (Some (neterrno_of (respond E (trace s) srt_getlasterror)),
     add_trace s [(srt_getlasterror, respond E (trace s) srt_getlasterror)]).
Proof.
  unfold libsrt_neterrno, neterrno_of, bind, ext, Ret. cbn.
  by destruct (_ =? SRT_EASYNCRCV).
Qed.

Lemma bind_ext {B : Type} (c : extcall) (k : Z -> M B) (s : state) :
  bind (ext E c) k s =
    k (respond E (trace s) c) (add_trace s [(c, respond E (trace s) c)]).
Proof. reflexivity. Qed.

Lemma ext_run (c : extcall) (s : state) :
  ext E c s =
    (Some (respond E (trace s) c), add_trace s [(c, respond E (trace s) c)]).
Proof. reflexivity. Qed.

(** One call, its answer abstracted to a fresh variable. *)
Ltac call :=
  first [rewrite bind_ext | rewrite ext_run | rewrite libsrt_neterrno_run];
  match goal with
  | |- context [respond E ?hist ?c] =>
    let r := fresh "r" in generalize (respond E hist c); intro r
  end;
  rewrite ?add_trace_app; cbn [app].

(** Every run of [libsrt_network_wait_fd] returns and follows one of the
    paths of [wait_fd_path]. *)
Lemma wait_fd_run (eid fd write : Z) (s : state) :
  exists r t,
    libsrt_network_wait_fd E eid fd write s = (Some r, add_trace s t)
    /\ wait_fd_path eid fd write t r.
Proof.
  unfold libsrt_network_wait_fd. call.
  destruct (r <? 0) eqn:Hr; z_facts.
  { call. eexists _, _. split; [reflexivity | by constructor]. }
  call.
  assert (exists diag ret,
    (if r0 <? 0
     then e <- ext E srt_getlasterror ;;
          if e =? SRT_ETIMEOUT then Ret (AVERROR EAGAIN) else libsrt_neterrno E
     else Ret 0)
      (add_trace s
         [(srt_epoll_add_usock eid fd
             (if truthy write then SRT_EPOLL_OUT else SRT_EPOLL_IN), r);
          (srt_epoll_wait eid (truthy write) POLLING_TIME, r0)])
    = (Some ret,
       add_trace s
         ((srt_epoll_add_usock eid fd
             (if truthy write then SRT_EPOLL_OUT else SRT_EPOLL_IN), r)
          :: (srt_epoll_wait eid (truthy write) POLLING_TIME, r0) :: diag))
    /\ poll_outcome r0 diag ret) as (diag & ret & Hpoll & Hout).
  { destruct (r0 <? 0) eqn:Hr0; z_facts.
    - call. destruct (r1 =? SRT_ETIMEOUT) eqn:Hr1; z_facts.
      + subst r1. eexists _, _. split; [reflexivity | by constructor].
      + call. eexists _, _. split; [reflexivity | by constructor].
    - exists [], 0. split; [reflexivity | by constructor]. }
  rewrite (bind_Some _ _ _ _ _ Hpoll). call.
  destruct (r1 <? 0) eqn:Hr1; z_facts.
  - call. eexists _, _. split.
    + rewrite <- app_assoc. cbn [app]. reflexivity.
    + econstructor; [done | done | by constructor].
  - eexists _, _. split; [reflexivity |].
    econstructor; [done | done | constructor; lia].
Qed.

End WaitFd.

Section WaitFdProperties.

Variable E : env.

Lemma wait_fd_inv (eid fd write : Z) (s s' : state) (r : option Z)
  (t : list event) :
  libsrt_network_wait_fd E eid fd write s = (r, s') ->
  trace s' = trace s ++ t ->
  exists r0, r = Some r0 /\ s' = add_trace s t /\ wait_fd_path eid fd write t r0.
Proof.
  intros Hrun Ht. destruct (wait_fd_run E eid fd write s) as (r0 & t0 & H0 & Hp).
  rewrite H0 in Hrun. injection Hrun as <- <-.
  rewrite trace_add_trace in Ht. apply app_inv_head in Ht. subst t0. eauto.
Qed.

Lemma poll_outcome_diag (r2 ret : Z) (diag : list event) :
  poll_outcome r2 diag ret ->
  Forall (fun e => fst e = srt_getlasterror) diag.
Proof. intros H. inversion H; subst; repeat constructor. Qed.

Lemma deregister_outcome_diag (r3 ret r : Z) (diag : list event) :
  deregister_outcome r3 diag ret r ->
  Forall (fun e => fst e = srt_getlasterror) diag.
Proof. intros H. inversion H; subst; repeat constructor. Qed.

Lemma filter_epoll_diag (diag : list event) :
  Forall (fun e => fst e = srt_getlasterror) diag ->
  List.filter (fun e => is_epoll_call (fst e)) diag = [].
Proof.
  induction 1 as [| [c v] l Hc _ IH]; [reflexivity |].
  cbn in Hc. subst c. cbn. exact IH.
Qed.

Lemma fold_registration_diag (diag : list event) (g : gmap (Z * Z) Z) :
  Forall (fun e => fst e = srt_getlasterror) diag ->
  fold_left apply_registration diag g = g.
Proof.
  induction 1 as [| [c v] l Hc _ IH]; [reflexivity |].
  cbn in Hc. subst c. cbn. exact IH.
Qed.

(** C9, as amended (the registration is scoped to one wait call when the
    deregistration succeeds): the call always returns; its first event
    registers the socket in the group with the mask of the requested
    direction; when that registration fails nothing is polled; when it
    succeeds the group calls of the run are exactly the registration, one
    poll of one polling slice and the deregistration, in this order and
    whatever the poll returned; when the deregistration succeeds, on a
    socket that was not registered on entry, the registration set of the
    history is the same after the call as before; and when the
    deregistration fails the socket stays registered with the mask of the
    call. *)
Theorem wait_fd_registration_scoped (eid fd write : Z) (s : state) :
  exists (r r1 : Z) (t : list event),
    libsrt_network_wait_fd E eid fd write s =
      (Some r,
       add_trace s
         ((srt_epoll_add_usock eid fd
             (if truthy write then SRT_EPOLL_OUT else SRT_EPOLL_IN), r1) :: t))
    /\ (r1 < 0 -> List.filter (fun e => is_epoll_call (fst e)) t = [])
    /\ (0 <= r1 ->
        exists r2 r3,
          List.filter (fun e => is_epoll_call (fst e)) t =
            [(srt_epoll_wait eid (truthy write) POLLING_TIME, r2);
             (srt_epoll_remove_usock eid fd, r3)]
          /\ (0 <= r3 ->
              registrations (trace s) !! (eid, fd) = None ->
              registrations
                (trace (snd (libsrt_network_wait_fd E eid fd write s))) =
                registrations (trace s))
          /\ (r3 < 0 ->
              registrations
                (trace (snd (libsrt_network_wait_fd E eid fd write s))) =
                <[(eid, fd) :=
                    if truthy write then SRT_EPOLL_OUT else SRT_EPOLL_IN]>
                  (registrations (trace s)))).
Proof.
  destruct (wait_fd_run E eid fd write s) as (r & t & Hrun & Hp).
  rewrite Hrun. inversion Hp as [r1 err Hr1 | r1 r2 r3 ret r' diag diag' Hr1 Hpo Hde];
    subst.
  - exists (neterrno_of err), r1, [(srt_getlasterror, err)].
    split; [reflexivity |]. split; [reflexivity | lia].
  - pose proof (poll_outcome_diag _ _ _ Hpo) as Hd.
    pose proof (deregister_outcome_diag _ _ _ _ Hde) as Hd'.
    eexists r, r1, _. split; [reflexivity |]. split; [lia |].
    intros _. exists r2, r3. split.
    + cbn. rewrite List.filter_app, (filter_epoll_diag _ Hd). cbn.
      by rewrite (filter_epoll_diag _ Hd').
    + split.
      * intros Hr3 Hfresh. cbn [snd]. rewrite trace_add_trace.
        unfold registrations. rewrite fold_left_app. cbn.
        apply Z.leb_le in Hr1 as ->. rewrite fold_left_app. cbn.
        rewrite (fold_registration_diag _ _ Hd).
        apply Z.leb_le in Hr3 as ->.
        rewrite (fold_registration_diag _ _ Hd').
        by apply delete_insert_id.
      * intros Hr3. cbn [snd]. rewrite trace_add_trace.
        unfold registrations. rewrite fold_left_app. cbn.
        apply Z.leb_le in Hr1 as ->. rewrite fold_left_app. cbn.
        rewrite (fold_registration_diag _ _ Hd).
        apply Z.leb_gt in Hr3 as ->.
        by rewrite (fold_registration_diag _ _ Hd').
Qed.

(** C10 (a ready socket can surface as an error): in a run of the readiness
    waiter in which the poll reported readiness (a non-negative
    [srt_epoll_wait]) and the deregistration that follows failed (a negative
    [srt_epoll_remove_usock]), the last two events are that deregistration
    and the reading of the last error, and the call returns the error
    [libsrt_neterrno] makes of it, which is negative, not the 0 of Ready. *)
Theorem wait_fd_ready_but_deregistration_fails (eid fd write : Z)
  (s s' : state) (r : option Z) (t : list event) (r2 r3 : Z) :
  libsrt_network_wait_fd E eid fd write s = (r, s') ->
  trace s' = trace s ++ t ->
  In (srt_epoll_wait eid (truthy write) POLLING_TIME, r2) t -> 0 <= r2 ->
  In (srt_epoll_remove_usock eid fd, r3) t -> r3 < 0 ->
  exists pre err,
    t = pre ++ [(srt_epoll_remove_usock eid fd, r3); (srt_getlasterror, err)]
    /\ r = Some (neterrno_of err)
    /\ neterrno_of err < 0.
Proof.
  intros Hrun Ht Hw Hr2 Hrm Hr3.
  destruct (wait_fd_inv _ _ _ _ _ _ _ Hrun Ht) as (r0 & -> & -> & Hp).
  inversion Hp as [r1 err Hr1 | r1 r2' r3' ret r' diag diag' Hr1 Hpo Hde]; subst.
  { cbn in Hw. destruct Hw as [Hw | [Hw | []]]; discriminate Hw. }
  pose proof (poll_outcome_diag _ _ _ Hpo) as Hd.
  pose proof (deregister_outcome_diag _ _ _ _ Hde) as Hd'.
  assert (Hnot : forall (c : extcall) (v : Z) (l : list event),
             Forall (fun e => fst e = srt_getlasterror) l ->
             c <> srt_getlasterror -> ~ In (c, v) l).
  { intros c v l Hl Hc Hin. rewrite List.Forall_forall in Hl.
    apply Hl in Hin. cbn in Hin. contradiction. }
  assert (r2' = r2) as ->.
  { cbn in Hw. destruct Hw as [Hw | [Hw | Hw]]; [discriminate | congruence |].
    apply in_app_or in Hw as [Hw | [Hw | Hw]]; [| discriminate |];
      by apply Hnot in Hw. }
  assert (r3' = r3) as ->.
  { cbn in Hrm. destruct Hrm as [Hrm | [Hrm | Hrm]]; [discriminate.. |].
    apply in_app_or in Hrm as [Hrm | [Hrm | Hrm]]; [| congruence |];
      by apply Hnot in Hrm. }
  inversion Hde as [? ? Hok | ? err ? Hfail]; subst; [lia |].
  exists ((srt_epoll_add_usock eid fd
             (if truthy write then SRT_EPOLL_OUT else SRT_EPOLL_IN), r1)
          :: (srt_epoll_wait eid (truthy write) POLLING_TIME, r2) :: diag), err.
  split; [reflexivity |]. split; [reflexivity | apply neterrno_of_neg].
Qed.

End WaitFdProperties.

(** ** The deadline loop *)

Section DeadlineLoop.

Variable E : env.

Ltac call :=
  first [rewrite bind_ext | rewrite ext_run | rewrite libsrt_neterrno_run];
  match goal with
  | |- context [respond E ?hist ?c] =>
    let r := fresh "r" in generalize (respond E hist c); intro r
  end;
  rewrite ?add_trace_app; cbn [app].

(** Every run of the loop follows a path of [wait_loop_path]. *)
Lemma wait_loop_run (fuel : nat) (eid fd write timeout ws : Z) (s : state) :
  exists r t,
    wait_fd_timeout_loop E fuel eid fd write timeout ws s = (r, add_trace s t)
    /\ wait_loop_path eid fd write timeout fuel ws t r.
Proof.
  revert ws s. induction fuel as [| n IH]; intros ws s.
  { exists None, []. rewrite add_trace_nil. split; [reflexivity | constructor]. }
  cbn [wait_fd_timeout_loop]. call.
  destruct (truthy r) eqn:Hint.
  { eexists _, _. split; [reflexivity | by constructor]. }
  destruct (wait_fd_run E eid fd write (add_trace s [(ff_check_interrupt, r)]))
    as (ret & tp & Hrun & Hp).
  rewrite (bind_Some _ _ _ _ _ Hrun), add_trace_app. cbn [app].
  destruct (ret =? AVERROR EAGAIN) eqn:Hret; z_facts; cbn [negb].
  2:{ eexists _, _. split; [reflexivity | by constructor]. }
  subst ret. destruct (0 <? timeout) eqn:Hto; z_facts.
  2:{ destruct (IH ws (add_trace s ((ff_check_interrupt, r) :: tp)))
        as (r' & t' & Hrun' & Hp').
      rewrite Hrun', add_trace_app. eexists _, _.
      split; [reflexivity | by apply loop_untimed]. }
  destruct (truthy ws) eqn:Hws; cbn [negb].
  - call.
    assert (ws <> 0) as Hws0.
    { unfold truthy in Hws. destruct (ws =? 0) eqn:Hz; [discriminate |].
      by z_facts. }
    destruct (timeout <? r0 - ws) eqn:Hdl; z_facts.
    + eexists _, _. split; [reflexivity |]. by apply loop_deadline.
    + destruct (IH ws (add_trace s
                 ((ff_check_interrupt, r) :: tp ++ [(av_gettime_relative, r0)])))
        as (r' & t' & Hrun' & Hp').
      rewrite Hrun', add_trace_app. eexists _, _. split.
      * cbn [app]. rewrite <- app_assoc. cbn [app]. reflexivity.
      * by apply loop_again.
  - call.
    assert (ws = 0) as ->.
    { unfold truthy in Hws. destruct (ws =? 0) eqn:Hz; [by z_facts | discriminate]. }
    destruct (IH r0 (add_trace s
                 ((ff_check_interrupt, r) :: tp ++ [(av_gettime_relative, r0)])))
      as (r' & t' & Hrun' & Hp').
    rewrite Hrun', add_trace_app. eexists _, _. split.
    + cbn [app]. rewrite <- app_assoc. cbn [app]. reflexivity.
    + by apply loop_start.
Qed.

End DeadlineLoop.

(** ** Facts about paths *)

Ltac consts :=
  unfold AVERROR, AVERROR_EXIT, AVERROR_UNKNOWN, EAGAIN, ETIMEDOUT, EIO,
    EINVAL, EINTR, EINPROGRESS, SRT_EASYNCRCV, SRT_ETIMEOUT in *.

Lemma wait_fd_path_result (eid fd write r : Z) (t : list event) :
  wait_fd_path eid fd write t r ->
  r = 0 \/ r = AVERROR EAGAIN \/ r = AVERROR_UNKNOWN.
Proof.
  intros Hp. inversion Hp as [? err ? | ? ? ? ret ? ? ? ? Hpo Hde]; subst.
  - destruct (neterrno_of_cases err); auto.
  - assert (ret = 0 \/ ret = AVERROR EAGAIN \/ ret = AVERROR_UNKNOWN) as Hret.
    { inversion Hpo as [| | ? ? e2]; subst; auto.
      destruct (neterrno_of_cases e2); auto. }
    inversion Hde as [| ? err ? ?]; subst; auto.
    destruct (neterrno_of_cases err); auto.
Qed.

Lemma wait_fd_path_lib (eid fd write r : Z) (t : list event) :
  wait_fd_path eid fd write t r ->
  forallb (fun e => is_lib_call (fst e)) t = true.
Proof.
  intros Hp. inversion Hp as [| ? ? ? ? ? ? ? ? Hpo Hde]; subst; [reflexivity |].
  cbn. rewrite forallb_app. cbn.
  inversion Hpo; subst; inversion Hde; subst; reflexivity.
Qed.



Lemma lib_no_cancel (t : list event) :
  forallb (fun e => is_lib_call (fst e)) t = true -> no_cancel t = true.
Proof.
  unfold no_cancel.
  induction t as [| [c v] t IH]; [reflexivity |]. cbn.
  intros [Hc Ht]%andb_prop. rewrite (IH Ht). by destruct c.
Qed.



Lemma no_cancel_app (t1 t2 : list event) :
  no_cancel (t1 ++ t2) = no_cancel t1 && no_cancel t2.
Proof. apply forallb_app. Qed.

Section LoopPaths.

Variables eid fd write timeout : Z.




Lemma started_nonzero (readings : list Z) :
  Forall (fun now => now <> 0) readings -> started readings = readings.
Proof.
  intros [| now later Hnow _]; [reflexivity |].
  cbn. by apply Z.eqb_neq in Hnow as ->.
Qed.





End LoopPaths.

Section DeadlineLoopProperties.

Variable E : env.



End DeadlineLoopProperties.


(** ** Cancellation *)

Section CancelCalculus.

Context {A B : Type}.
Variable after : event -> bool.
Variables (exit_a : A -> Prop) (exit_b : B -> Prop).

Lemma cancels_emits (m : M A) : emits is_lib_call m -> cancels after exit_a m.
Proof.
  intros Hm s. destruct (Hm s) as (a & t & -> & Ht). exists t.
  split; [reflexivity |]. left. by apply lib_no_cancel.
Qed.

Lemma cancels_Ret (a : A) : cancels after exit_a (Ret a).
Proof. intros s. exists []. split; [by rewrite app_nil_r | by left]. Qed.

Lemma cancels_out_of_fuel : cancels after exit_a out_of_fuel.
Proof. intros s. exists []. split; [by rewrite app_nil_r | by left]. Qed.

Lemma cancels_if (b : bool) (m1 m2 : M A) :
  cancels after exit_a m1 -> cancels after exit_a m2 ->
  cancels after exit_a (if b then m1 else m2).
Proof. by destruct b. Qed.

(** Sequencing: the continuation keeps the shape after a clean first part,
    and after a cancelled first part it only releases and hands the
    cancellation on. *)
Lemma cancels_bind (m : M A) (k : A -> M B) :
  cancels after exit_a m ->
  (forall a, cancels after exit_b (k a)) ->
  (forall a, exit_a a -> releases after exit_b (k a)) ->
  cancels after exit_b (bind m k).
Proof.
  intros Hm Hk Hrel s. destruct (Hm s) as (t1 & Ht1 & Hshape).
  unfold bind. destruct (m s) as [[a |] s1]; cbn [fst snd] in *.
  - destruct Hshape as [Hclean | (u1 & v & u2 & -> & Hv & Hu1 & Hu2 & a' & [= <-] & Hex)].
    + destruct (Hk a s1) as (t2 & Ht2 & Hshape2). exists (t1 ++ t2).
      split; [by rewrite Ht2, Ht1, <- !app_assoc |].
      destruct Hshape2 as [Hclean2 | (u1 & v & u2 & -> & Hv & Hu1 & Hu2 & Hr)].
      * left. by rewrite no_cancel_app, Hclean, Hclean2.
      * right. exists (t1 ++ u1), v, u2. rewrite <- app_assoc.
        split; [done |]. split; [done |].
        split; [by rewrite no_cancel_app, Hclean, Hu1 | done].
    + destruct (Hrel a Hex s1) as (b & t2 & Hb & Hexb & Ht2 & Hrel2).
      exists ((u1 ++ (ff_check_interrupt, v) :: u2) ++ t2).
      split; [by rewrite Ht2, Ht1, <- !app_assoc |].
      right. exists u1, v, (u2 ++ t2). rewrite <- app_assoc.
      split; [done |]. split; [done |]. split; [done |].
      split; [by rewrite forallb_app, Hu2, Hrel2 | eauto].
  - exists t1. split; [done |]. destruct Hshape as [Hclean | Hc]; [by left |].
    destruct Hc as (? & ? & ? & _ & _ & _ & _ & ? & [=] & _).
Qed.

Lemma releases_Ret (b : B) : exit_b b -> releases after exit_b (Ret b).
Proof.
  intros Hb s. exists b, []. cbn. by rewrite app_nil_r.
Qed.

End CancelCalculus.

Section LibOnly.

Context {A B : Type}.
Variable after : event -> bool.

Lemma emits_lib_only (m : M A) : emits is_lib_call m -> lib_only m.
Proof.
  intros Hm s. destruct (Hm s) as (a & t & -> & Ht). by exists a, t.
Qed.

Lemma lib_only_put_h (v : URLContext.t) : lib_only (put_h v).
Proof. intros s. exists tt, []. cbn. by rewrite app_nil_r. Qed.

Lemma lib_only_modify_s (f : SRTContext.t -> SRTContext.t) :
  lib_only (modify_s f).
Proof. intros s. exists tt, []. cbn. by rewrite app_nil_r. Qed.

Lemma lib_only_Ret (a : A) : lib_only (Ret a).
Proof. intros s. exists a, []. cbn. by rewrite app_nil_r. Qed.

Lemma lib_only_if (b : bool) (m1 m2 : M A) :
  lib_only m1 -> lib_only m2 -> lib_only (if b then m1 else m2).
Proof. by destruct b. Qed.

Lemma lib_only_bind (m : M A) (k : A -> M B) :
  lib_only m -> (forall a, lib_only (k a)) -> lib_only (bind m k).
Proof.
  intros Hm Hk s. destruct (Hm s) as (a & t1 & Ha & Ht1 & Hl1).
  unfold bind. destruct (m s) as [[a' |] s1]; cbn [fst snd] in *; [| done].
  injection Ha as ->.
  destruct (Hk a s1) as (b & t2 & Hb & Ht2 & Hl2). exists b, (t1 ++ t2).
  split; [done |]. split; [by rewrite Ht2, Ht1, <- !app_assoc |].
  by rewrite forallb_app, Hl1, Hl2.
Qed.

(** Sequencing after a part that performs library calls only. *)
Lemma cancels_bind_lib (exit_b : B -> Prop) (m : M A) (k : A -> M B) :
  lib_only m ->
  (forall a, cancels after exit_b (k a)) ->
  cancels after exit_b (bind m k).
Proof.
  intros Hm Hk s. destruct (Hm s) as (a & t1 & Ha & Ht1 & Hl1).
  unfold bind. destruct (m s) as [[a' |] s1]; cbn [fst snd] in *; [| done].
  injection Ha as ->.
  destruct (Hk a s1) as (t2 & Ht2 & Hshape2). exists (t1 ++ t2).
  split; [by rewrite Ht2, Ht1, <- !app_assoc |].
  pose proof (lib_no_cancel _ Hl1) as Hclean.
  destruct Hshape2 as [Hclean2 | (u1 & v & u2 & -> & Hv & Hu1 & Hu2 & Hr)].
  - left. by rewrite no_cancel_app, Hclean, Hclean2.
  - right. exists (t1 ++ u1), v, u2. rewrite <- app_assoc.
    split; [done |]. split; [done |].
    split; [by rewrite no_cancel_app, Hclean, Hu1 | done].
Qed.

Lemma cancels_lib_only (exit_a : A -> Prop) (m : M A) :
  lib_only m -> cancels after exit_a m.
Proof.
  intros Hm s. destruct (Hm s) as (a & t & Ha & Ht & Hl). exists t.
  split; [done |]. left. by apply lib_no_cancel.
Qed.

End LibOnly.

(** ** Functions that only call the library *)

Section LibraryCalls.

Variable E : env.

Ltac emits_step :=
  first
    [ apply emits_Ret
    | apply emits_get_s
    | apply emits_get_h
    | apply emits_ext; reflexivity
    | apply emits_if
    | apply emits_bind; [| intros ?] ].

Lemma emits_neterrno : emits is_lib_call (libsrt_neterrno E).
Proof. unfold libsrt_neterrno. repeat emits_step. Qed.

Lemma emits_socket_nonblock (socket enable : Z) :
  emits is_lib_call (libsrt_socket_nonblock E socket enable).
Proof. unfold libsrt_socket_nonblock. repeat emits_step. Qed.

Lemma emits_wait_fd (eid fd write : Z) :
  emits is_lib_call (libsrt_network_wait_fd E eid fd write).
Proof.
  intros s. destruct (wait_fd_run E eid fd write s) as (r & t & Hrun & Hp).
  exists r, t. split; [done |]. by apply (wait_fd_path_lib _ _ _ _ _ Hp).
Qed.

Lemma emits_setsockopt (fd : Z) (optname : SRT_SOCKOPT) (v : optval) :
  emits is_lib_call (libsrt_setsockopt E fd optname v).
Proof. unfold libsrt_setsockopt. repeat emits_step. Qed.

Lemma emits_and_fails (c : bool) (m : M Z) :
  emits is_lib_call m -> emits is_lib_call (and_fails c m).
Proof. intros Hm. unfold and_fails. repeat emits_step. exact Hm. Qed.

Lemma emits_or_else (a b : M bool) :
  emits is_lib_call a -> emits is_lib_call b -> emits is_lib_call (or_else a b).
Proof.
  intros Ha Hb. unfold or_else. apply emits_bind; [exact Ha |].
  intros x. apply emits_if; [apply emits_Ret | exact Hb].
Qed.

Lemma emits_set_options_post (fd : Z) :
  emits is_lib_call (libsrt_set_options_post E fd).
Proof.
  unfold libsrt_set_options_post.
  apply emits_bind; [apply emits_get_s | intros s].
  apply emits_bind; [| intros ?; repeat emits_step].
  repeat first [apply emits_or_else | apply emits_and_fails
               | apply emits_setsockopt].
Qed.

Lemma emits_set_options_pre (fd : Z) :
  emits is_lib_call (libsrt_set_options_pre E fd).
Proof.
  unfold libsrt_set_options_pre.
  apply emits_bind; [apply emits_get_s | intros s].
  apply emits_bind; [| intros ?; repeat emits_step].
  repeat first [apply emits_or_else | apply emits_and_fails
               | apply emits_setsockopt].
Qed.

Lemma emits_setup_post (fd : Z) : emits is_lib_call (setup_post E fd).
Proof.
  unfold setup_post.
  apply emits_bind; [apply emits_set_options_post | intros ?].
  repeat emits_step.
Qed.

Lemma lib_only_parse_tag (tag p : string) (conv : string -> Z)
  (set : Z -> SRTContext.t -> SRTContext.t) :
  lib_only (parse_tag E tag p conv set).
Proof.
  unfold parse_tag. destruct (av_find_info_tag E tag p);
    [apply lib_only_modify_s | apply lib_only_Ret].
Qed.

End LibraryCalls.

(** ** Cancellation, function by function *)

Lemma truthy_exit : truthy AVERROR_EXIT = true.
Proof. reflexivity. Qed.

Lemma exit_negative : (AVERROR_EXIT <? 0) = true.
Proof. reflexivity. Qed.

Lemma exit_not_timedout : (AVERROR_EXIT =? AVERROR ETIMEDOUT) = false.
Proof. reflexivity. Qed.

Lemma wait_loop_path_cancel (after : event -> bool)
  (eid fd write timeout : Z) (fuel : nat) (ws : Z) (t : list event)
  (r : option Z) :
  wait_loop_path eid fd write timeout fuel ws t r ->
  cancel_shape after is_exit_code t r.
Proof.
  assert (Hiter : forall v tp rest r0 ret,
    truthy v = false -> wait_fd_path eid fd write tp ret ->
    cancel_shape after is_exit_code rest r0 ->
    cancel_shape after is_exit_code ((ff_check_interrupt, v) :: tp ++ rest) r0).
  { intros v tp rest r0 ret Hv Hwp Hrest.
    assert (no_cancel ((ff_check_interrupt, v) :: tp) = true) as Hhead.
    { cbn. rewrite Hv. cbn.
      apply (lib_no_cancel _ (wait_fd_path_lib _ _ _ _ _ Hwp)). }
    change ((ff_check_interrupt, v) :: tp ++ rest)
      with (((ff_check_interrupt, v) :: tp) ++ rest).
    destruct Hrest as [Hclean | (u1 & v' & u2 & -> & Hv' & Hu1 & Hu2 & Hr)].
    - left. by rewrite no_cancel_app, Hhead, Hclean.
    - right. exists (((ff_check_interrupt, v) :: tp) ++ u1), v', u2.
      rewrite <- app_assoc. split; [done |]. split; [done |].
      split; [by rewrite no_cancel_app, Hhead, Hu1 | done]. }
  assert (Hclock : forall now rest r0,
    cancel_shape after is_exit_code rest r0 ->
    cancel_shape after is_exit_code ((av_gettime_relative, now) :: rest) r0).
  { intros now rest r0 [Hclean | (u1 & v' & u2 & -> & Hv' & Hu1 & Hu2 & Hr)].
    - by left.
    - right. by exists ((av_gettime_relative, now) :: u1), v', u2. }
  induction 1 as
    [ ws | n ws v Hv | n ws v r tp Hv Hwp Hr | n ws v tp t r Hv Hwp Hle Hp IH
    | n v now tp t r Hv Hwp ? Hp IH | n ws v now tp Hv Hwp ? Hws Hdl
    | n ws v now tp t r Hv Hwp ? Hws Hdl Hp IH ].
  - by left.
  - right. exists [], v, []. repeat split; try done. by exists AVERROR_EXIT.
  - rewrite <- (app_nil_r tp). eapply Hiter; [done | done | by left].
  - by eapply Hiter.
  - eapply Hiter; [done | done |]. by apply Hclock.
  - eapply Hiter; [done | done |]. by left.
  - eapply Hiter; [done | done |]. by apply Hclock.
Qed.

Section CancelFunctions.

Variable E : env.
Variable after : event -> bool.

Ltac exit_code :=
  let a := fresh "a" in
  intros a ->;
  rewrite ?truthy_exit, ?exit_negative, ?exit_not_timedout, ?Z.eqb_refl.

Lemma cancels_wait_fd_timeout (fuel : nat) (eid fd write timeout : Z) :
  cancels after is_exit_code
    (libsrt_network_wait_fd_timeout E fuel eid fd write timeout).
Proof.
  intros s. unfold libsrt_network_wait_fd_timeout.
  destruct (wait_loop_run E fuel eid fd write timeout 0 s) as (r & t & -> & Hp).
  exists t. split; [done |]. by apply (wait_loop_path_cancel _ _ _ _ _ _ _ _ _ Hp).
Qed.

Lemma cancels_listen_wait_loop (fuel : nat) (eid fd timeout : Z) :
  cancels after is_exit_code (listen_wait_loop E fuel eid fd timeout).
Proof.
  induction fuel as [| n IH]; [apply cancels_out_of_fuel |].
  cbn [listen_wait_loop].
  apply (cancels_bind after is_exit_code); [apply cancels_wait_fd_timeout | |].
  - intros ret. repeat apply cancels_if; try apply cancels_Ret. exact IH.
  - exit_code. by apply releases_Ret.
Qed.

Lemma cancels_listen (fuel : nat) (eid fd addr timeout : Z) :
  cancels after is_exit_code (libsrt_listen E fuel eid fd addr timeout).
Proof.
  unfold libsrt_listen.
  apply cancels_bind_lib;
    [apply emits_lib_only, emits_ext; reflexivity | intros _].
  apply cancels_bind_lib;
    [apply emits_lib_only, emits_ext; reflexivity | intros ret].
  apply cancels_if; [apply cancels_emits, emits_neterrno |].
  apply cancels_bind_lib;
    [apply emits_lib_only, emits_ext; reflexivity | intros ret'].
  apply cancels_if; [apply cancels_emits, emits_neterrno |].
  apply (cancels_bind after is_exit_code); [apply cancels_listen_wait_loop | |].
  - intros ret''. apply cancels_if; [apply cancels_Ret |].
    apply cancels_bind_lib;
      [apply emits_lib_only, emits_ext; reflexivity | intros acc].
    apply cancels_if; [apply cancels_emits, emits_neterrno |].
    apply cancels_bind_lib;
      [apply emits_lib_only, emits_socket_nonblock | intros _].
    apply cancels_Ret.
  - exit_code. by apply releases_Ret.
Qed.

Lemma cancels_listen_connect_loop (fuel : nat) (eid fd addr timeout : Z)
  (will_try_next : bool) :
  cancels after is_exit_code
    (listen_connect_loop E fuel eid fd addr timeout will_try_next).
Proof.
  induction fuel as [| n IH]; [apply cancels_out_of_fuel |].
  cbn [listen_connect_loop].
  apply cancels_bind_lib;
    [apply emits_lib_only, emits_ext; reflexivity | intros ret].
  apply cancels_if; [| apply cancels_Ret].
  apply cancels_bind_lib; [apply emits_lib_only, emits_neterrno | intros err].
  apply cancels_if; [| apply cancels_if; [| apply cancels_Ret]].
  - (* EINTR: the interrupt check of line 205 *)
    intros s. rewrite bind_ext.
    destruct (truthy (respond E (trace s) ff_check_interrupt)) eqn:Hv.
    + exists [(ff_check_interrupt, respond E (trace s) ff_check_interrupt)].
      split; [reflexivity |]. right.
      exists [], (respond E (trace s) ff_check_interrupt), [].
      repeat split; try done. by exists AVERROR_EXIT.
    + destruct (IH (add_trace s
                [(ff_check_interrupt, respond E (trace s) ff_check_interrupt)]))
        as (t & Ht & Hshape).
      exists ((ff_check_interrupt, respond E (trace s) ff_check_interrupt) :: t).
      split; [by rewrite Ht, trace_add_trace, <- app_assoc |].
      destruct Hshape as [Hclean | (u1 & v' & u2 & -> & Hv' & Hu1 & Hu2 & Hr)].
      * left. cbn. by rewrite Hv.
      * right.
        exists ((ff_check_interrupt, respond E (trace s) ff_check_interrupt)
                :: u1), v', u2.
        repeat split; try done. cbn. by rewrite Hv.
  - apply (cancels_bind after is_exit_code); [apply cancels_wait_fd_timeout | |].
    + intros ret'. apply cancels_if; [apply cancels_Ret |].
      apply cancels_bind_lib;
        [apply emits_lib_only, emits_ext; reflexivity | intros e].
      apply cancels_bind_lib;
        [apply emits_lib_only, emits_ext; reflexivity | intros _].
      apply cancels_if; apply cancels_Ret.
    + exit_code. by apply releases_Ret.
Qed.

Lemma cancels_listen_connect (fuel : nat) (eid fd addr timeout : Z)
  (will_try_next : bool) :
  cancels after is_exit_code
    (libsrt_listen_connect E fuel eid fd addr timeout will_try_next).
Proof.
  unfold libsrt_listen_connect.
  apply cancels_bind_lib;
    [apply emits_lib_only, emits_socket_nonblock | intros _].
  apply cancels_listen_connect_loop.
Qed.

End CancelFunctions.

Section CancelSetup.

Variable E : env.

Ltac lib_call := apply emits_lib_only, emits_ext; reflexivity.

Lemma lib_only_setup_socket (cur_ai : addrinfo) :
  lib_only (setup_socket E cur_ai).
Proof.
  unfold setup_socket.
  apply lib_only_bind; [lib_call | intros fd].
  apply lib_only_if.
  { apply lib_only_bind; [apply emits_lib_only, emits_neterrno | intros ?].
    apply lib_only_Ret. }
  apply lib_only_bind;
    [apply emits_lib_only, emits_set_options_pre | intros ret].
  apply lib_only_if; [apply lib_only_Ret |].
  apply lib_only_bind; [apply emits_lib_only, emits_get_s | intros s].
  apply lib_only_bind.
  { apply lib_only_if; [lib_call | apply lib_only_Ret]. }
  intros _. apply lib_only_bind.
  { apply lib_only_if; [lib_call | apply lib_only_Ret]. }
  intros _. apply lib_only_Ret.
Qed.

Lemma cancels_setup_connect (fuel : nat) (open_timeout : Z)
  (cur_ai : addrinfo) (has_next : bool) (fd : Z) :
  cancels is_release is_exit_jump
    (setup_connect E fuel open_timeout cur_ai has_next fd).
Proof.
  unfold setup_connect.
  apply cancels_bind_lib; [apply emits_lib_only, emits_get_s | intros s].
  apply cancels_if.
  - apply (cancels_bind is_release is_exit_code); [apply cancels_listen | |].
    + intros ret'. apply cancels_if; [apply cancels_Ret |].
      apply cancels_emits, emits_setup_post.
    + intros a ->. rewrite exit_negative. apply releases_Ret. by exists fd.
  - apply cancels_bind_lib.
    { apply lib_only_if; [lib_call | apply lib_only_Ret]. }
    intros bound. apply cancels_if; [apply cancels_Ret |].
    apply (cancels_bind is_release is_exit_code); [apply cancels_listen_connect | |].
    + intros ret'. apply cancels_if;
        [apply cancels_if; apply cancels_Ret |].
      apply cancels_emits, emits_setup_post.
    + intros a ->. rewrite exit_negative, Z.eqb_refl.
      apply releases_Ret. by exists fd.
Qed.

Lemma cancels_setup_candidate (fuel : nat) (open_timeout : Z)
  (cur_ai : addrinfo) (has_next : bool) :
  cancels is_release is_exit_jump (setup_candidate E fuel open_timeout cur_ai has_next).
Proof.
  unfold setup_candidate.
  apply cancels_bind_lib; [apply lib_only_setup_socket |].
  intros [j | fd]; [apply cancels_Ret | apply cancels_setup_connect].
Qed.

Lemma releases_setup_fail1 (fd : Z) :
  releases is_release is_exit_code (setup_fail1 E AVERROR_EXIT fd).
Proof.
  intros s. unfold setup_fail1. destruct (0 <=? fd).
  - rewrite bind_ext, bind_ext. cbn [Ret fst snd].
    set (r1 := respond E (trace s) (srt_close fd)).
    set (r2 := respond E (trace (add_trace s [(srt_close fd, r1)])) freeaddrinfo).
    clearbody r2. clearbody r1.
    exists AVERROR_EXIT, [(srt_close fd, r1); (freeaddrinfo, r2)].
    split; [done |]. split; [done |].
    split; [| reflexivity]. by rewrite !trace_add_trace, <- app_assoc.
  - rewrite bind_Ret, bind_ext. cbn [Ret fst snd].
    set (r2 := respond E (trace s) freeaddrinfo). clearbody r2.
    exists AVERROR_EXIT, [(freeaddrinfo, r2)].
    split; [done |]. split; [done |].
    split; [| reflexivity]. by rewrite !trace_add_trace.
Qed.

Lemma lib_only_setup_fail1 (ret fd : Z) : lib_only (setup_fail1 E ret fd).
Proof.
  unfold setup_fail1. apply lib_only_bind.
  { apply lib_only_if; [lib_call | apply lib_only_Ret]. }
  intros _. apply lib_only_bind; [lib_call | intros _; apply lib_only_Ret].
Qed.

Lemma cancels_setup_restart (fuel : nat) (open_timeout : Z) (cur_ai : addrinfo)
  (next : list addrinfo) :
  cancels is_release is_exit_code (setup_restart E fuel open_timeout cur_ai next).
Proof.
  revert cur_ai. induction next as [| ai_next rest IH]; intros cur_ai;
    cbn [setup_restart];
    (apply (cancels_bind is_release is_exit_jump); [apply cancels_setup_candidate | |]).
  - intros [fd | ret fd | ret fd].
    + apply cancels_lib_only.
      apply lib_only_bind; [apply emits_lib_only, emits_get_h | intros hd].
      apply lib_only_bind; [apply lib_only_put_h | intros _].
      apply lib_only_bind; [apply lib_only_modify_s | intros _].
      apply lib_only_bind; [lib_call | intros _; apply lib_only_Ret].
    + apply cancels_lib_only, lib_only_setup_fail1.
    + apply cancels_lib_only, lib_only_setup_fail1.
  - intros j [fd ->]. apply releases_setup_fail1.
  - intros [fd | ret fd | ret fd].
    + apply cancels_lib_only.
      apply lib_only_bind; [apply emits_lib_only, emits_get_h | intros hd].
      apply lib_only_bind; [apply lib_only_put_h | intros _].
      apply lib_only_bind; [apply lib_only_modify_s | intros _].
      apply lib_only_bind; [lib_call | intros _; apply lib_only_Ret].
    + apply cancels_bind_lib; [| intros _; apply IH].
      apply lib_only_if; [lib_call | apply lib_only_Ret].
    + apply cancels_lib_only, lib_only_setup_fail1.
  - intros j [fd ->]. apply releases_setup_fail1.
Qed.

Lemma cancels_setup (fuel : nat) (uri : string) (flags : Z) :
  cancels is_release is_exit_code (libsrt_setup E fuel uri flags).
Proof.
  unfold libsrt_setup.
  apply cancels_bind_lib; [lib_call | intros eid].
  apply cancels_if; [apply cancels_emits, emits_neterrno |].
  apply cancels_bind_lib; [apply lib_only_modify_s | intros _].
  destruct (av_url_split E uri) as [[proto hostname] port].
  apply cancels_if; [apply cancels_Ret |].
  apply cancels_if; [apply cancels_Ret |].
  apply cancels_bind_lib.
  { destruct (strchr uri "?"); [| apply lib_only_Ret].
    apply lib_only_bind; [apply lib_only_parse_tag | intros _].
    apply lib_only_parse_tag. }
  intros _.
  apply cancels_bind_lib; [apply emits_lib_only, emits_get_s | intros s].
  apply cancels_bind_lib; [apply emits_lib_only, emits_get_h | intros hd].
  apply cancels_bind_lib.
  { apply lib_only_if; [apply lib_only_put_h | apply lib_only_Ret]. }
  intros _. cbv zeta.
  apply cancels_bind_lib; [lib_call | intros ret].
  apply cancels_if; [apply cancels_Ret |].
  destruct (resolved E _ _ _) as [ai ai_rest].
  apply cancels_setup_restart.
Qed.

Lemma lib_only_open_options (p : string) : lib_only (open_options E p).
Proof.
  unfold open_options.
  repeat (apply lib_only_bind;
          [first [apply lib_only_parse_tag
                 | destruct (av_find_info_tag E _ p);
                   [apply lib_only_modify_s | apply lib_only_Ret]]
          | intros _]).
  destruct (av_find_info_tag E "mode" p) as [buf |]; [| apply lib_only_Ret].
  repeat (apply lib_only_if;
          [apply lib_only_bind;
           [apply lib_only_modify_s | intros _; apply lib_only_Ret] |]).
  apply lib_only_Ret.
Qed.

Lemma cancels_open (fuel : nat) (uri : string) (flags : Z) :
  cancels is_release is_exit_code (libsrt_open E fuel uri flags).
Proof.
  unfold libsrt_open.
  apply cancels_bind_lib; [lib_call | intros r].
  apply cancels_if; [apply cancels_Ret |].
  apply cancels_bind_lib.
  { destruct (strchr uri "?");
      [apply lib_only_open_options | apply lib_only_Ret]. }
  intros [e |]; [apply cancels_Ret | apply cancels_setup].
Qed.

End CancelSetup.

Section CancelIO.

Variable E : env.
Variable after : event -> bool.

Lemma cancels_read (fuel : nat) (size : Z) :
  cancels after is_exit_code (libsrt_read E fuel size).
Proof.
  unfold libsrt_read.
  apply cancels_bind_lib; [apply emits_lib_only, emits_get_h | intros hd].
  apply cancels_bind_lib; [apply emits_lib_only, emits_get_s | intros s].
  apply (cancels_bind after is_exit_code).
  - apply cancels_if; [apply cancels_wait_fd_timeout | apply cancels_Ret].
  - intros ret. apply cancels_if; [apply cancels_Ret |].
    apply cancels_bind_lib;
      [apply emits_lib_only, emits_ext; reflexivity | intros n].
    apply cancels_if; [apply cancels_emits, emits_neterrno | apply cancels_Ret].
  - intros a ->. rewrite truthy_exit. by apply releases_Ret.
Qed.

Lemma cancels_write (fuel : nat) (size : Z) :
  cancels after is_exit_code (libsrt_write E fuel size).
Proof.
  unfold libsrt_write.
  apply cancels_bind_lib; [apply emits_lib_only, emits_get_h | intros hd].
  apply cancels_bind_lib; [apply emits_lib_only, emits_get_s | intros s].
  apply (cancels_bind after is_exit_code).
  - apply cancels_if; [apply cancels_wait_fd_timeout | apply cancels_Ret].
  - intros ret. apply cancels_if; [apply cancels_Ret |].
    apply cancels_bind_lib;
      [apply emits_lib_only, emits_ext; reflexivity | intros n].
    apply cancels_if; [apply cancels_emits, emits_neterrno | apply cancels_Ret].
  - intros a ->. rewrite truthy_exit. by apply releases_Ret.
Qed.

End CancelIO.

(** A trace with the shape [cancel_shape] splits at a cancellation in one
    way only. *)
Lemma cancel_shape_split (after : event -> bool) (t t1 t2 : list event)
  (e : event) (r : option Z) :
  (forall x, after x = true -> is_cancel x = false) ->
  cancel_shape after is_exit_code t r ->
  t = t1 ++ e :: t2 ->
  is_cancel e = true ->
  r = Some AVERROR_EXIT /\ forallb after t2 = true.
Proof.
  intros Hafter [Hclean | (u1 & v & u2 & -> & Hv & Hu1 & Hu2 & a & -> & ->)]
    Ht He.
  { subst t. rewrite no_cancel_app in Hclean.
    apply andb_prop in Hclean as [_ Hclean]. cbn in Hclean.
    rewrite He in Hclean. discriminate. }
  split; [reflexivity |].
  assert (Hin : forall x, In x u2 -> is_cancel x = false).
  { intros x Hx. rewrite forallb_forall in Hu2. by apply Hafter, Hu2. }
  clear Hafter. revert t1 Ht. induction u1 as [| y u1 IH]; intros t1 Ht.
  - destruct t1 as [| x t1]; cbn in Ht.
    + by injection Ht as <- <-.
    + injection Ht as <- ->.
      rewrite (Hin e) in He; [discriminate | apply in_elt].
  - cbn in Hu1. apply andb_prop in Hu1 as [Hy Hu1].
    destruct t1 as [| x t1]; cbn in Ht.
    + injection Ht as <- _. rewrite He in Hy. discriminate.
    + injection Ht as _ Ht. by apply (IH Hu1 t1).
Qed.

Lemma cancels_final (after : event -> bool) (m : M Z) :
  cancels after is_exit_code m ->
  (forall x, after x = true -> is_cancel x = false) ->
  forall s r s' t1 e t2,
    m s = (r, s') ->
    trace s' = trace s ++ t1 ++ e :: t2 ->
    is_cancel e = true ->
    r = Some AVERROR_EXIT /\ forallb after t2 = true.
Proof.
  intros Hm Hafter s r s' t1 e t2 Hrun Ht He.
  destruct (Hm s) as (t & Ht' & Hshape). rewrite Hrun in Ht', Hshape.
  cbn [fst snd] in *. rewrite Ht in Ht'. apply app_inv_head in Ht'.
  by apply (cancel_shape_split after t t1 t2 e r Hafter).
Qed.

Lemma release_not_cancel (x : event) : is_release x = true -> is_cancel x = false.
Proof. destruct x as [c v]. by destruct c. Qed.

Lemma forallb_false_nil (t : list event) :
  forallb (fun _ => false) t = true -> t = [].
Proof. by destruct t. Qed.

(** One wait for writability on a transport that is ready: the socket is
    registered with the write mask, polled and deregistered, and the
    registration set is empty again afterwards. *)
Lemma wait_fd_registration_scoped_witness :
  let E := scenario always_ready (candidate_a, []) "srt" 9000 [] in
  List.filter (fun e => is_epoll_call (fst e))
    (trace (snd (libsrt_network_wait_fd E 1 5 1 fresh_state))) =
    [(srt_epoll_add_usock 1 5 SRT_EPOLL_OUT, 0);
     (srt_epoll_wait 1 true POLLING_TIME, 1);
     (srt_epoll_remove_usock 1 5, 0)]
  /\ registrations (trace (snd (libsrt_network_wait_fd E 1 5 1 fresh_state))) =
     registrations (trace fresh_state).
Proof.
  intros E. split; [reflexivity |].
  destruct (wait_fd_registration_scoped E 1 5 1 fresh_state)
    as (r & r1 & t & Hrun & _ & Hpos).
  vm_compute in Hrun. injection Hrun as _ Hr1 Ht. subst r1 t.
  destruct (Hpos ltac:(lia)) as (r2 & r3 & Hf & Hreg & _).
  vm_compute in Hf. injection Hf as Hr2 Hr3. subst r2 r3.
  apply Hreg; [lia | apply lookup_empty].
Defined.

(** C9 fails as stated: on a transport that reports the socket ready and
    then fails to take it out of the group, the registration of the call
    succeeded, and the socket, which was not registered before the call, is
    registered after it. *)
Lemma failed_deregistration_leaves_registration :
  let E := scenario deregistration_fails (candidate_a, []) "srt" 9000 [] in
  let run := libsrt_network_wait_fd E 1 5 1 fresh_state in
  trace (snd run) =
    [(srt_epoll_add_usock 1 5 SRT_EPOLL_OUT, 0);
     (srt_epoll_wait 1 true POLLING_TIME, 1);
     (srt_epoll_remove_usock 1 5, -1); (srt_getlasterror, 5004)]
  /\ registrations (trace fresh_state) !! (1, 5) = None
  /\ registrations (trace (snd run)) !! (1, 5) = Some SRT_EPOLL_OUT.
Proof.
  intros E run.
  assert (Ht : trace (snd run) =
    [(srt_epoll_add_usock 1 5 SRT_EPOLL_OUT, 0);
     (srt_epoll_wait 1 true POLLING_TIME, 1);
     (srt_epoll_remove_usock 1 5, -1); (srt_getlasterror, 5004)])
    by reflexivity.
  split; [exact Ht |]. split; [apply lookup_empty |].
  rewrite Ht. unfold registrations. cbn [fold_left apply_registration].
  change (0 <=? 0) with true. change (0 <=? -1) with false. cbn iota.
  apply lookup_insert_eq.
Qed.

(** One wait on a transport that reports readiness and then fails the
    deregistration: the call returns [AVERROR_UNKNOWN]. *)
Lemma wait_fd_ready_but_deregistration_fails_witness :
  let E := scenario deregistration_fails (candidate_a, []) "srt" 9000 [] in
  let run := libsrt_network_wait_fd E 1 5 1 fresh_state in
  0 <= 1 /\ -1 < 0
  /\ exists pre err,
       trace (snd run) =
         pre ++ [(srt_epoll_remove_usock 1 5, -1); (srt_getlasterror, err)]
       /\ fst run = Some (neterrno_of err)
       /\ neterrno_of err < 0.
Proof.
  intros E run. split; [lia |]. split; [lia |].
  apply (wait_fd_ready_but_deregistration_fails E 1 5 1 fresh_state (snd run)
           (fst run) (trace (snd run)) 1 (-1)).
  - apply surjective_pairing.
  - reflexivity.
  - vm_compute. right. left. reflexivity.
  - lia.
  - vm_compute. right. right. left. reflexivity.
  - lia.
Defined.

(** ** The candidate loop *)

Lemma bind_assoc {A B C : Type} (m : M A) (k1 : A -> M B) (k2 : B -> M C)
  (s : state) :
  bind (bind m k1) k2 s = bind m (fun a => bind (k1 a) k2) s.
Proof. unfold bind. by destruct (m s) as [[a |] s1]. Qed.

Section CandidateLoop.

Variable E : env.

Lemma setup_restart_unfold (fuel : nat) (open_timeout : Z) (cur_ai : addrinfo)
  (next : list addrinfo) :
  setup_restart E fuel open_timeout cur_ai next =
    (j <- setup_candidate E fuel open_timeout cur_ai
            (match next with [] => false | _ => true end) ;;
     match j with
     | connected fd =>
       hd <- get_h ;;
       put_h (URLContext.set_is_streamed 1 hd) ;;
       modify_s (SRTContext.set_fd fd) ;;
       ext E freeaddrinfo ;;
       Ret 0
     | goto_fail ret fd =>
       match next with
       | ai_next :: rest =>
         (if 0 <=? fd then ext E (srt_close fd) else Ret 0) ;;
         setup_restart E fuel open_timeout ai_next rest
       | [] => setup_fail1 E ret fd
       end
     | goto_fail1 ret fd => setup_fail1 E ret fd
     end).
Proof. by destruct next. Qed.

(** The pre-options return 0 or [AVERROR(EIO)]. *)
Lemma set_options_pre_result (fd ret : Z) (s s' : state) :
  libsrt_set_options_pre E fd s = (Some ret, s') ->
  ret = 0 \/ ret = AVERROR EIO.
Proof.
  unfold libsrt_set_options_pre. rewrite bind_get_s.
  match goal with
  | |- bind ?chain _ _ = _ -> _ =>
    assert (emits is_lib_call chain) as Hchain
      by (repeat first [apply emits_or_else | apply emits_and_fails
                       | apply emits_setsockopt]);
    destruct (Hchain s) as ([|] & t & Hrun & _);
    rewrite (bind_Some _ _ _ _ _ Hrun)
  end; intros [= <- _]; auto.
Qed.

Lemma setup_restart_goto_fail (fuel : nat) (open_timeout : Z)
  (cur_ai : addrinfo) (next : list addrinfo) (ret fd : Z) (s s1 : state) :
  setup_candidate E fuel open_timeout cur_ai
    (match next with [] => false | _ => true end) s =
    (Some (goto_fail ret fd), s1) ->
  0 <= fd ->
  setup_restart E fuel open_timeout cur_ai next s =
    after_fail E fuel open_timeout next ret fd s1.
Proof.
  intros Hcand Hfd. rewrite setup_restart_unfold.
  rewrite (bind_Some _ _ _ _ _ Hcand). unfold after_fail, setup_fail1.
  apply Z.leb_le in Hfd. rewrite Hfd. destruct next as [| ai_next rest].
  - by rewrite !bind_ext.
  - by rewrite bind_ext.
Qed.

End CandidateLoop.

Section Fallback.

Variable E : env.

Lemma setup_socket_fd (cur_ai : addrinfo) (fd : Z) (s s0 : state) :
  setup_socket E cur_ai s = (Some (inr fd), s0) -> 0 <= fd.
Proof.
  unfold setup_socket. rewrite bind_ext.
  set (fd' := respond E (trace s) _). destruct (fd' <? 0) eqn:Hfd; z_facts.
  { rewrite (bind_Some _ _ _ _ _ (libsrt_neterrno_run E _)). discriminate. }
  destruct (emits_set_options_pre E fd' (add_trace s
              [(srt_socket (ai_family cur_ai) (ai_socktype cur_ai) 0, fd')]))
    as (ret & t & Hpre & _).
  rewrite (bind_Some _ _ _ _ _ Hpre). destruct (ret <? 0); [discriminate |].
  rewrite bind_get_s.
  destruct (0 <? SRTContext.recv_buffer_size _);
    destruct (0 <? SRTContext.send_buffer_size _);
    rewrite ?bind_ext, ?bind_Ret; by intros [= <- _].
Qed.

(** C4, as amended (a pre-option failure falls back like any other failure
    of the candidate): when the socket of the current candidate was created
    and [libsrt_set_options_pre] fails on it, the error is [AVERROR(EIO)],
    the socket is closed and setup goes on with the next candidate; only on
    the last candidate does setup return [AVERROR(EIO)], after freeing the
    address list. *)
Theorem pre_option_failure_falls_back (fuel : nat) (open_timeout : Z)
  (cur_ai : addrinfo) (next : list addrinfo) (s s2 : state) (ret : Z) :
  let socket := srt_socket (ai_family cur_ai) (ai_socktype cur_ai) 0 in
  let fd := respond E (trace s) socket in
  0 <= fd ->
  libsrt_set_options_pre E fd (add_trace s [(socket, fd)]) = (Some ret, s2) ->
  ret < 0 ->
  ret = AVERROR EIO
  /\ setup_restart E fuel open_timeout cur_ai next s =
     let closed :=
       add_trace s2 [(srt_close fd, respond E (trace s2) (srt_close fd))] in
     match next with
     | ai_next :: rest => setup_restart E fuel open_timeout ai_next rest closed
     | [] =>
       (Some (AVERROR EIO),
        add_trace closed
          [(freeaddrinfo, respond E (trace closed) freeaddrinfo)])
     end.
Proof.
  intros socket fd Hfd Hpre Hret.
  destruct (set_options_pre_result E _ _ _ _ Hpre) as [-> | ->]; [lia |].
  split; [reflexivity |].
  apply (setup_restart_goto_fail E fuel open_timeout cur_ai next
           (AVERROR EIO) fd s s2); [| exact Hfd].
  unfold setup_candidate, setup_socket. rewrite !bind_assoc, bind_ext.
  fold socket fd. apply Z.ltb_ge in Hfd as ->.
  rewrite bind_assoc, (bind_Some _ _ _ _ _ Hpre). reflexivity.
Qed.

(** C3, as amended (which failures fall back and which end setup).
    In caller and rendezvous mode a failure of [libsrt_listen_connect] other
    than cancellation closes the socket of the candidate and setup goes on
    with the next candidate; on the last candidate setup returns that
    failure, the error of the last candidate.  A failure of [libsrt_listen]
    (bind, listen, wait or accept in listener mode) and a failure of the
    rendezvous bind end setup at once with the error of the current
    candidate, whatever candidates are left. *)
Theorem candidate_failure_policy (fuel : nat) (open_timeout : Z)
  (cur_ai : addrinfo) (next : list addrinfo) (s s0 : state) (fd : Z) :
  setup_socket E cur_ai s = (Some (inr fd), s0) ->
  let ctx := URLContext.priv_data (h s0) in
  let rendezvous := SRTMode_eqb (SRTContext.mode ctx) SRT_MODE_RENDEZVOUS in
  let bound :=
    if rendezvous then respond E (trace s0) (srt_bind fd (ai_addr cur_ai))
    else 0 in
  let s0' :=
    if rendezvous then add_trace s0 [(srt_bind fd (ai_addr cur_ai), bound)]
    else s0 in
  (forall ret s1,
      SRTContext.mode ctx <> SRT_MODE_LISTENER ->
      bound = 0 ->
      libsrt_listen_connect E fuel (SRTContext.eid ctx) fd (ai_addr cur_ai)
        (Z.quot open_timeout 1000)
        (match next with [] => false | _ => true end) s0' = (Some ret, s1) ->
      ret < 0 -> ret <> AVERROR_EXIT ->
      setup_restart E fuel open_timeout cur_ai next s =
        after_fail E fuel open_timeout next ret fd s1)
  /\ (forall ret s1,
      SRTContext.mode ctx = SRT_MODE_LISTENER ->
      libsrt_listen E fuel (SRTContext.eid ctx) fd (ai_addr cur_ai)
        (Z.quot open_timeout 1000) s0 = (Some ret, s1) ->
      ret < 0 ->
      setup_restart E fuel open_timeout cur_ai next s =
        after_fail1 E ret fd s1)
  /\ (SRTContext.mode ctx = SRT_MODE_RENDEZVOUS ->
      bound <> 0 ->
      setup_restart E fuel open_timeout cur_ai next s =
        after_fail1 E bound fd s0').
Proof.
  intros Hsock ctx rendezvous bound s0'.
  pose proof (setup_socket_fd _ _ _ _ Hsock) as Hfd.
  assert (Hfail1 : forall ret s1,
    setup_candidate E fuel open_timeout cur_ai
      (match next with [] => false | _ => true end) s =
      (Some (goto_fail1 ret fd), s1) ->
    setup_restart E fuel open_timeout cur_ai next s = after_fail1 E ret fd s1).
  { intros ret s1 Hcand. rewrite setup_restart_unfold.
    rewrite (bind_Some _ _ _ _ _ Hcand). unfold after_fail1, setup_fail1.
    apply Z.leb_le in Hfd. rewrite Hfd. by rewrite !bind_ext. }
  split; [| split].
  - intros ret s1 Hmode Hbound Hconn Hneg Hexit.
    apply setup_restart_goto_fail; [| exact Hfd].
    unfold setup_candidate. rewrite (bind_Some _ _ _ _ _ Hsock).
    unfold setup_connect. rewrite bind_get_s. fold ctx.
    assert (SRTMode_eqb (SRTContext.mode ctx) SRT_MODE_LISTENER = false) as ->
      by (by destruct (SRTContext.mode ctx)).
    fold rendezvous. subst bound s0'. destruct rendezvous.
    + rewrite bind_ext, Hbound. cbn [truthy Z.eqb negb].
      rewrite Hbound in Hconn. rewrite (bind_Some _ _ _ _ _ Hconn).
      apply Z.ltb_lt in Hneg as ->. by apply Z.eqb_neq in Hexit as ->.
    + rewrite bind_Ret. cbn [truthy Z.eqb negb].
      rewrite (bind_Some _ _ _ _ _ Hconn).
      apply Z.ltb_lt in Hneg as ->. by apply Z.eqb_neq in Hexit as ->.
  - intros ret s1 Hmode Hlisten Hneg. apply Hfail1.
    unfold setup_candidate. rewrite (bind_Some _ _ _ _ _ Hsock).
    unfold setup_connect. rewrite bind_get_s. fold ctx. rewrite Hmode.
    cbn [SRTMode_eqb]. rewrite (bind_Some _ _ _ _ _ Hlisten).
    by apply Z.ltb_lt in Hneg as ->.
  - intros Hmode Hbound. apply Hfail1.
    unfold setup_candidate. rewrite (bind_Some _ _ _ _ _ Hsock).
    unfold setup_connect. rewrite bind_get_s. fold ctx.
    subst bound s0' rendezvous. rewrite Hmode in *. cbn [SRTMode_eqb] in *.
    rewrite bind_ext. unfold truthy. by apply Z.eqb_neq in Hbound as ->.
Qed.

End Fallback.

(** C4 fails as stated: on a transport that rejects the first option,
    caller-mode setup with two candidates sees the pre-options fail on the
    socket of the first candidate (socket 7), closes it, and succeeds on the
    second candidate (address 102). *)
Lemma pre_option_failure_is_retried :
  let run :=
    libsrt_setup
      (scenario first_option_rejected (candidate_a, [candidate_b]) "srt" 9000 [])
      3 "srt://host:9000" 0 fresh_state in
  fst run = Some 0
  /\ trace (snd run) =
     [(srt_epoll_create, 1); (getaddrinfo (Some "host") 9000 0, 0);
      (srt_socket 2 2 0, 7);
      (srt_setsockopt 7 0 SRTO_TSBPDDELAY (OptInt 0), -1);
      (srt_close 7, 0);
      (srt_socket 2 2 0, 10);
      (srt_setsockopt 10 0 SRTO_TSBPDDELAY (OptInt 0), 0);
      (srt_setsockopt 10 0 SRTO_SNDSYN (OptInt 1), 0);
      (srt_setsockopt 10 0 SRTO_RCVSYN (OptInt 1), 0);
      (srt_connect 10 102, 0); (freeaddrinfo, 0)].
Proof. split; reflexivity. Qed.

(** The candidate loop entered on the transport that rejects the first
    option: after the failed pre-option socket 5 is closed and the loop
    restarts on the second candidate. *)
Lemma pre_option_failure_falls_back_witness :
  let E :=
    scenario first_option_rejected (candidate_a, [candidate_b]) "srt" 9000 [] in
  let s2 :=
    add_trace fresh_state
      [(srt_socket 2 2 0, 5);
       (srt_setsockopt 5 0 SRTO_TSBPDDELAY (OptInt 0), -1)] in
  0 <= 5 /\ AVERROR EIO < 0
  /\ setup_restart E 3 5000000 candidate_a [candidate_b] fresh_state =
     setup_restart E 3 5000000 candidate_b [] (add_trace s2 [(srt_close 5, 0)]).
Proof.
  intros E s2. split; [lia |]. split; [reflexivity |].
  apply (pre_option_failure_falls_back E 3 5000000 candidate_a [candidate_b]
           fresh_state s2 (AVERROR EIO)).
  - vm_compute. discriminate.
  - vm_compute. reflexivity.
  - reflexivity.
Defined.

(** C3 fails as stated: in listener mode with two candidates, a bind
    failure on the first candidate ends setup with [AVERROR_UNKNOWN]; the
    second candidate is never tried. *)
Lemma listener_bind_failure_is_final :
  let E :=
    scenario bind_refused (candidate_a, [candidate_b]) "srt" 9000
      [("mode", "listener")] in
  let run := libsrt_open E 3 "srt://:9000?mode=listener" 0 fresh_state in
  resolved E None 9000 AI_PASSIVE = (candidate_a, [candidate_b])
  /\ fst run = Some AVERROR_UNKNOWN
  /\ trace (snd run) =
     [(srt_startup, 0); (srt_epoll_create, 1);
      (getaddrinfo None 9000 1, 0);
      (srt_socket 2 2 0, 8);
      (srt_setsockopt 8 0 SRTO_TSBPDDELAY (OptInt 0), 0);
      (srt_setsockopt 8 1 SRTO_REUSEADDR (OptInt 1), 0);
      (srt_bind 8 101, -1); (srt_getlasterror, 5011);
      (srt_close 8, 0); (freeaddrinfo, 0)].
Proof. repeat split; reflexivity. Qed.

(** Caller mode on a transport that refuses every connect: the refusal of
    the first candidate makes the loop close socket 5 and go on with the
    second candidate, and the whole loop returns the refusal of the last
    candidate. *)
Lemma candidate_failure_policy_witness :
  let E := scenario connect_refused (candidate_a, [candidate_b]) "srt" 9000 [] in
  let s0 := snd (setup_socket E candidate_a fresh_state) in
  let s1 := snd (libsrt_listen_connect E 3 0 5 101 5000 true s0) in
  AVERROR_UNKNOWN < 0
  /\ setup_restart E 3 5000000 candidate_a [candidate_b] fresh_state =
     after_fail E 3 5000000 [candidate_b] AVERROR_UNKNOWN 5 s1
  /\ fst (setup_restart E 3 5000000 candidate_a [candidate_b] fresh_state) =
     Some AVERROR_UNKNOWN.
Proof.
  intros E s0 s1. split; [reflexivity |]. split; [| reflexivity].
  assert (Hsock : setup_socket E candidate_a fresh_state = (Some (inr 5), s0))
    by reflexivity.
  pose proof (candidate_failure_policy E 3 5000000 candidate_a [candidate_b]
                fresh_state s0 5 Hsock) as Hpolicy.
  cbv zeta in Hpolicy. destruct Hpolicy as [Hconnect _].
  apply (Hconnect AVERROR_UNKNOWN s1).
  - vm_compute. discriminate.
  - reflexivity.
  - reflexivity.
  - reflexivity.
  - vm_compute. discriminate.
Defined.

(** ** Parsing the options of the URI *)

Section OpenOptions.

Variable E : env.

Lemma silent_modify_s (f : SRTContext.t -> SRTContext.t) : silent (modify_s f).
Proof. intros s. by eexists tt, _. Qed.

Lemma silent_Ret {A : Type} (a : A) : silent (Ret a).
Proof. intros s. by exists a, s. Qed.

Lemma silent_parse_tag (tag p : string) (conv : string -> Z)
  (set : Z -> SRTContext.t -> SRTContext.t) :
  silent (parse_tag E tag p conv set).
Proof.
  unfold parse_tag. destruct (av_find_info_tag E tag p);
    [apply silent_modify_s | apply silent_Ret].
Qed.

Lemma yields_Ret {A : Type} (a : A) : yields a (Ret a).
Proof. intros s. by exists s. Qed.

Lemma yields_bind {A B : Type} (m : M A) (k : A -> M B) (v : B) :
  silent m -> (forall a, yields v (k a)) -> yields v (bind m k).
Proof.
  intros Hm Hk s. destruct (Hm s) as (a & s1 & Hrun & Ht1).
  destruct (Hk a s1) as (s2 & Hrun2 & Ht2). exists s2.
  split; [by rewrite (bind_Some _ _ _ _ _ Hrun) | by rewrite Ht2].
Qed.

(** A mode that is none of the three names makes the option block of
    [libsrt_open] return [AVERROR(EIO)] early. *)
Lemma open_options_unknown_mode (p buf : string) :
  av_find_info_tag E "mode" p = Some buf ->
  buf <> "caller" -> buf <> "listener" -> buf <> "rendezvous" ->
  yields (Some (AVERROR EIO)) (open_options E p).
Proof.
  intros Hmode Hc Hl Hr. unfold open_options.
  repeat (apply yields_bind;
          [first [apply silent_parse_tag
                 | match goal with
                   | |- silent (match ?x with _ => _ end) => destruct x
                   end;
                   [apply silent_modify_s | apply silent_Ret]]
          | intros _]).
  rewrite Hmode.
  apply String.eqb_neq in Hc as ->. apply String.eqb_neq in Hl as ->.
  apply String.eqb_neq in Hr as ->. apply yields_Ret.
Qed.

(** C8, as amended (an unknown mode is an I/O error): when the query of the
    URI gives a mode that is none of caller, listener and rendezvous, open
    returns right after the startup of the transport library, with
    [AVERROR(EIO)] (with [AVERROR_UNKNOWN] if that startup failed); setup is
    not entered: [srt_startup] is the only call of the run. *)
Theorem unknown_mode_is_io_error (fuel : nat) (uri : string) (flags : Z)
  (s : state) (p buf : string) :
  strchr uri "?" = Some p ->
  av_find_info_tag E "mode" p = Some buf ->
  buf <> "caller" -> buf <> "listener" -> buf <> "rendezvous" ->
  let started := respond E (trace s) srt_startup in
  fst (libsrt_open E fuel uri flags s) =
    Some (if started <? 0 then AVERROR_UNKNOWN else AVERROR EIO)
  /\ trace (snd (libsrt_open E fuel uri flags s)) =
     trace s ++ [(srt_startup, started)].
Proof.
  intros Hp Hmode Hc Hl Hr started. unfold libsrt_open.
  rewrite bind_ext. fold started. destruct (started <? 0); [done |].
  rewrite Hp.
  destruct (open_options_unknown_mode p buf Hmode Hc Hl Hr
              (add_trace s [(srt_startup, started)])) as (s' & Hrun & Ht).
  rewrite (bind_Some _ _ _ _ _ Hrun). cbn [Ret fst snd]. by rewrite Ht.
Qed.

End OpenOptions.

(** C8 fails as stated: the mode "server" makes open return
    [AVERROR(EIO)], which is not the invalid-argument code
    [AVERROR(EINVAL)] that a wrong scheme or port yields. *)
Lemma unknown_mode_is_not_einval :
  let E :=
    scenario always_ready (candidate_a, []) "srt" 9000 [("mode", "server")] in
  let run := libsrt_open E 3 "srt://host:9000?mode=server" 0 fresh_state in
  fst run = Some (AVERROR EIO)
  /\ AVERROR EIO <> AVERROR EINVAL
  /\ trace (snd run) = [(srt_startup, 0)].
Proof. split; [reflexivity | split; [discriminate | reflexivity]]. Qed.

Lemma unknown_mode_is_io_error_witness :
  let E :=
    scenario always_ready (candidate_a, []) "srt" 9000 [("mode", "server")] in
  let run := libsrt_open E 3 "srt://host:9000?mode=server" 0 fresh_state in
  fst run = Some (AVERROR EIO) /\ trace (snd run) = [(srt_startup, 0)].
Proof.
  intros E run.
  apply (unknown_mode_is_io_error E 3 "srt://host:9000?mode=server" 0
           fresh_state "?mode=server" "server").
  - reflexivity.
  - reflexivity.
  - discriminate.
  - discriminate.
  - discriminate.
Defined.

(** ** A transport that is never ready *)

Lemma bind_fst_None {A B : Type} (m : M A) (k : A -> M B) (s : state) :
  fst (m s) = None -> fst (bind m k s) = None.
Proof. unfold bind. destruct (m s) as [[a |] s1]; [discriminate | done]. Qed.

Section NeverReady.

Variable E : env.

Hypothesis no_interrupt : forall hist, respond E hist ff_check_interrupt = 0.
Hypothesis add_succeeds : forall hist eid fd modes,
  0 <= respond E hist (srt_epoll_add_usock eid fd modes).
Hypothesis poll_fails : forall hist eid write ms,
  respond E hist (srt_epoll_wait eid write ms) < 0.
Hypothesis poll_timed_out : forall hist,
  respond E hist srt_getlasterror = SRT_ETIMEOUT.
Hypothesis remove_succeeds : forall hist eid fd,
  0 <= respond E hist (srt_epoll_remove_usock eid fd).

Lemma wait_fd_never_ready (eid fd write : Z) (s : state) :
  exists t,
    libsrt_network_wait_fd E eid fd write s = (Some (AVERROR EAGAIN), add_trace s t).
Proof.
  unfold libsrt_network_wait_fd. rewrite bind_ext.
  assert (forall x, 0 <= x -> (x <? 0) = false) as Hge
    by (intros x Hx; by apply Z.ltb_ge).
  assert (forall x, x < 0 -> (x <? 0) = true) as Hlt
    by (intros x Hx; by apply Z.ltb_lt).
  rewrite (Hge _ (add_succeeds _ _ _ _)), bind_ext.
  rewrite (Hlt _ (poll_fails _ _ _ _)).
  rewrite bind_assoc, bind_ext, poll_timed_out, Z.eqb_refl, bind_Ret, bind_ext.
  rewrite (Hge _ (remove_succeeds _ _ _)), !add_trace_app. by eexists.
Qed.

(** The deadline loop returns nothing but the timeout. *)
Lemma wait_loop_never_ready (fuel : nat) (eid fd write timeout ws : Z)
  (s : state) :
  fst (wait_fd_timeout_loop E fuel eid fd write timeout ws s) = None
  \/ fst (wait_fd_timeout_loop E fuel eid fd write timeout ws s) =
     Some (AVERROR ETIMEDOUT).
Proof.
  revert ws s. induction fuel as [| n IH]; intros ws s; [by left |].
  cbn [wait_fd_timeout_loop]. rewrite bind_ext, no_interrupt.
  cbn [truthy Z.eqb negb].
  destruct (wait_fd_never_ready eid fd write
              (add_trace s [(ff_check_interrupt, 0)])) as (t & Hrun).
  rewrite (bind_Some _ _ _ _ _ Hrun), Z.eqb_refl. cbn [negb].
  destruct (0 <? timeout); [| apply IH].
  destruct (negb (truthy ws)); rewrite bind_ext; [apply IH |].
  destruct (timeout <? _); [by right | apply IH].
Qed.

(** With a timeout that is not positive the deadline loop never returns. *)
Lemma wait_loop_untimed_never_returns (fuel : nat) (eid fd write timeout ws : Z)
  (s : state) :
  timeout <= 0 ->
  fst (wait_fd_timeout_loop E fuel eid fd write timeout ws s) = None.
Proof.
  intros Hto. revert ws s. induction fuel as [| n IH]; intros ws s; [done |].
  cbn [wait_fd_timeout_loop]. rewrite bind_ext, no_interrupt.
  cbn [truthy Z.eqb negb].
  destruct (wait_fd_never_ready eid fd write
              (add_trace s [(ff_check_interrupt, 0)])) as (t & Hrun).
  rewrite (bind_Some _ _ _ _ _ Hrun), Z.eqb_refl. cbn [negb].
  assert ((0 <? timeout) = false) as -> by (by apply Z.ltb_ge).
  apply IH.
Qed.

(** The wait of [libsrt_listen] starts over after every timeout: it never
    returns. *)
Lemma listen_wait_loop_never_returns (fuel : nat) (eid fd timeout : Z)
  (s : state) :
  fst (listen_wait_loop E fuel eid fd timeout s) = None.
Proof.
  revert s. induction fuel as [| n IH]; intros s; [done |].
  cbn [listen_wait_loop]. unfold libsrt_network_wait_fd_timeout, bind.
  destruct (wait_loop_never_ready n eid fd 1 timeout 0 s) as [Hr | Hr];
    destruct (wait_fd_timeout_loop E n eid fd 1 timeout 0 s) as [r s1];
    cbn [fst] in Hr; subst r; [done |].
  change (truthy (AVERROR ETIMEDOUT)) with true. rewrite Z.eqb_refl.
  apply IH.
Qed.

Hypothesis bind_succeeds : forall hist fd addr,
  respond E hist (srt_bind fd addr) = 0.
Hypothesis listen_succeeds : forall hist fd backlog,
  respond E hist (srt_listen fd backlog) = 0.

Lemma listen_never_returns (fuel : nat) (eid fd addr timeout : Z) (s : state) :
  fst (libsrt_listen E fuel eid fd addr timeout s) = None.
Proof.
  unfold libsrt_listen. rewrite !bind_ext, bind_succeeds.
  cbn [truthy Z.eqb negb]. rewrite bind_ext, listen_succeeds.
  cbn [truthy Z.eqb negb]. apply bind_fst_None, listen_wait_loop_never_returns.
Qed.

Lemma setup_connect_listener_never_returns (fuel : nat) (open_timeout : Z)
  (cur_ai : addrinfo) (has_next : bool) (fd : Z) (s : state) :
  SRTContext.mode (URLContext.priv_data (h s)) = SRT_MODE_LISTENER ->
  fst (setup_connect E fuel open_timeout cur_ai has_next fd s) = None.
Proof.
  intros Hmode. unfold setup_connect. rewrite bind_get_s, Hmode.
  cbn [SRTMode_eqb]. apply bind_fst_None, listen_never_returns.
Qed.

End NeverReady.

(** C1 (the code never reports the listen timeout): a listener is opened
    with [listen_timeout=2000000] on a transport on which no peer ever
    becomes acceptable and the application never interrupts.  The timeout is
    parsed and stored, but whatever the fuel, open has not returned: each
    [AVERROR(ETIMEDOUT)] of the deadline loop makes [libsrt_listen] wait
    again. *)
Theorem listener_never_times_out :
  let E :=
    scenario never_ready (candidate_a, []) "srt" 9000
      [("mode", "listener"); ("listen_timeout", "2000000")] in
  let uri := "srt://:9000?mode=listener&listen_timeout=2000000" in
  let ctx := URLContext.priv_data (h (snd (libsrt_open E 0 uri 0 fresh_state))) in
  SRTContext.mode ctx = SRT_MODE_LISTENER
  /\ SRTContext.listen_timeout ctx = 2000000
  /\ forall fuel, fst (libsrt_open E fuel uri 0 fresh_state) = None.
Proof.
  intros E uri ctx. split; [reflexivity |]. split; [reflexivity |].
  intros fuel. unfold libsrt_open.
  erewrite bind_Some; [| vm_compute; reflexivity].
  change (0 <? 0) with false. cbv iota.
  erewrite bind_Some; [| vm_compute; reflexivity].
  unfold libsrt_setup.
  erewrite bind_Some; [| vm_compute; reflexivity].
  change (1 <? 0) with false. cbv iota.
  erewrite bind_Some; [| vm_compute; reflexivity].
  change (av_url_split E uri) with ("srt", "", 9000). cbv iota beta.
  change (negb (String.eqb "srt" "srt")) with false.
  change ((9000 <=? 0) || (65536 <=? 9000)) with false. cbv iota.
  erewrite bind_Some; [| vm_compute; reflexivity].
  rewrite bind_get_s, bind_get_h.
  erewrite bind_Some; [| vm_compute; reflexivity].
  erewrite bind_Some; [| vm_compute; reflexivity].
  change (truthy 0) with false. cbv iota.
  change (resolved E _ _ _) with (candidate_a, @nil addrinfo). cbv iota beta.
  rewrite setup_restart_unfold. apply bind_fst_None.
  unfold setup_candidate.
  erewrite bind_Some; [| vm_compute; reflexivity].
  apply setup_connect_listener_never_returns; reflexivity.
Qed.

(** ** The sentinel of the burst-absorption delay *)

(** C5 (the unset delay is applied): on a handle with the option defaults
    (every numeric field -1, no passphrase, caller mode) the pre-options
    perform exactly one call: [SRTO_TSBPDDELAY] is set to 0, because the
    sentinel is tested after the division, and -1 / 1000 is 0 in C.  The
    other options are skipped. *)
Theorem unset_tsbpddelay_is_applied (E : env) (fd : Z) (hist : list event)
  (flags is_streamed rw_timeout : Z) :
  let s :=
    mk_state hist
      (URLContext.mk SRTContext_default flags is_streamed rw_timeout) in
  let delay := srt_setsockopt fd 0 SRTO_TSBPDDELAY (OptInt 0) in
  SRTContext.tsbpddelay (URLContext.priv_data (h s)) = -1
  /\ to_int (Z.quot (-1) 1000) = 0
  /\ trace (snd (libsrt_set_options_pre E fd s)) =
     hist ++ [(delay, respond E hist delay)].
Proof.
  intros s delay. split; [reflexivity |]. split; [reflexivity |].
  unfold libsrt_set_options_pre, or_else, and_fails, libsrt_setsockopt, bind,
    Ret, ext, get_s, add_trace.
  cbn. change (to_int (Z.quot (-1) 1000)) with 0.
  change (to_int (-1)) with (-1). cbn. fold delay.
  by destruct (respond E hist delay <? 0).
Qed.

(** ** Setup never releases the readiness group *)

Section Performs.

Context {A B : Type}.
Variable ok : extcall -> bool.

Lemma performs_Ret (a : A) : performs ok (Ret a).
Proof. intros s. exists []. by rewrite app_nil_r. Qed.

Lemma performs_out_of_fuel : performs ok (@out_of_fuel A).
Proof. intros s. exists []. by rewrite app_nil_r. Qed.

Lemma performs_if (b : bool) (m1 m2 : M A) :
  performs ok m1 -> performs ok m2 -> performs ok (if b then m1 else m2).
Proof. by destruct b. Qed.

Lemma performs_bind (m : M A) (k : A -> M B) :
  performs ok m -> (forall a, performs ok (k a)) -> performs ok (bind m k).
Proof.
  intros Hm Hk s. destruct (Hm s) as (t1 & Ht1 & Hok1). unfold bind.
  destruct (m s) as [[a |] s1]; cbn [fst snd] in *; [| by exists t1].
  destruct (Hk a s1) as (t2 & Ht2 & Hok2). exists (t1 ++ t2).
  split; [by rewrite Ht2, Ht1, <- !app_assoc |].
  by rewrite forallb_app, Hok1, Hok2.
Qed.

End Performs.

Section GroupKept.

Variable E : env.

Lemma performs_ext (c : extcall) :
  keeps_group c = true -> performs keeps_group (ext E c).
Proof.
  intros Hc s. exists [(c, respond E (trace s) c)].
  split; [reflexivity | cbn; by rewrite Hc].
Qed.

Lemma performs_silent {A : Type} (m : M A) :
  (forall s, trace (snd (m s)) = trace s) -> performs keeps_group m.
Proof. intros Hm s. exists []. by rewrite Hm, app_nil_r. Qed.

Ltac performs_step :=
  first
    [ apply performs_Ret
    | apply performs_out_of_fuel
    | apply performs_ext; reflexivity
    | apply performs_silent; reflexivity
    | apply performs_if
    | apply performs_bind; [| intros ?]
    | match goal with
      | |- performs _ (match ?x with _ => _ end) => destruct x
      end ].

Ltac unfold_program :=
  unfold libsrt_setup, setup_candidate, setup_socket, setup_connect,
    setup_post, setup_fail1, libsrt_listen, libsrt_listen_connect,
    libsrt_network_wait_fd_timeout, libsrt_network_wait_fd,
    libsrt_set_options_pre, libsrt_set_options_post, libsrt_setsockopt,
    libsrt_socket_nonblock, libsrt_neterrno, parse_tag, and_fails, or_else.

Lemma performs_wait_loop (fuel : nat) (eid fd write timeout ws : Z) :
  performs keeps_group (wait_fd_timeout_loop E fuel eid fd write timeout ws).
Proof.
  revert ws. induction fuel as [| n IH]; intros ws;
    cbn [wait_fd_timeout_loop]; unfold_program;
    repeat first [apply IH | performs_step].
Qed.

Lemma performs_listen_wait_loop (fuel : nat) (eid fd timeout : Z) :
  performs keeps_group (listen_wait_loop E fuel eid fd timeout).
Proof.
  induction fuel as [| n IH]; cbn [listen_wait_loop]; unfold_program;
    repeat first [apply IH | apply performs_wait_loop | performs_step].
Qed.

Lemma performs_listen_connect_loop (fuel : nat) (eid fd addr timeout : Z)
  (will_try_next : bool) :
  performs keeps_group
    (listen_connect_loop E fuel eid fd addr timeout will_try_next).
Proof.
  induction fuel as [| n IH]; cbn [listen_connect_loop]; unfold_program;
    repeat first [apply IH | apply performs_wait_loop | performs_step].
Qed.

Lemma performs_setup_candidate (fuel : nat) (open_timeout : Z)
  (cur_ai : addrinfo) (has_next : bool) :
  performs keeps_group (setup_candidate E fuel open_timeout cur_ai has_next).
Proof.
  unfold_program.
  repeat first [apply performs_listen_wait_loop
               | apply performs_listen_connect_loop | performs_step].
Qed.

Lemma performs_setup_restart (fuel : nat) (open_timeout : Z)
  (cur_ai : addrinfo) (next : list addrinfo) :
  performs keeps_group (setup_restart E fuel open_timeout cur_ai next).
Proof.
  revert cur_ai. induction next as [| ai_next rest IH]; intros cur_ai;
    cbn [setup_restart];
    (apply performs_bind; [apply performs_setup_candidate | intros j]);
    unfold_program; repeat first [apply IH | performs_step].
Qed.

(** No run of setup, finished or not, calls [srt_epoll_release]. *)
Lemma performs_setup (fuel : nat) (uri : string) (flags : Z) :
  performs keeps_group (libsrt_setup E fuel uri flags).
Proof.
  unfold libsrt_setup, parse_tag, libsrt_neterrno.
  repeat first [apply performs_setup_restart | performs_step].
Qed.

Lemma live_groups_kept (t : list event) (g : gset Z) (eid : Z) :
  forallb (fun e => keeps_group (fst e)) t = true ->
  eid ∈ g -> eid ∈ fold_left apply_group t g.
Proof.
  revert g. induction t as [| [c v] t IH]; intros g Hok Hin; [done |].
  cbn in Hok. apply andb_prop in Hok as [Hc Hok]. cbn [fold_left].
  apply IH; [done |]. destruct c; try done; cbn.
  destruct (0 <=? v); set_solver.
Qed.

(** Whenever setup has created its readiness group, the group is still
    live when setup returns, with success or with any error. *)
Lemma setup_leaves_group_live (fuel : nat) (uri : string) (flags : Z)
  (s : state) :
  0 <= respond E (trace s) srt_epoll_create ->
  respond E (trace s) srt_epoll_create
    ∈ live_groups (trace (snd (libsrt_setup E fuel uri flags s))).
Proof.
  intros Heid. unfold libsrt_setup. rewrite bind_ext.
  set (eid := respond E (trace s) srt_epoll_create) in *.
  assert ((eid <? 0) = false) as -> by (by apply Z.ltb_ge).
  match goal with
  | |- context [snd (?m (add_trace s ?ev))] =>
    assert (performs keeps_group m) as Hm
  end.
  { unfold parse_tag. repeat first [apply performs_setup_restart | performs_step]. }
  destruct (Hm (add_trace s [(srt_epoll_create, eid)])) as (t & -> & Hok).
  rewrite trace_add_trace. unfold live_groups.
  rewrite !fold_left_app. apply live_groups_kept; [done |].
  cbn. apply Z.leb_le in Heid as ->. set_solver.
Qed.

End GroupKept.

(** ** The readiness group on the failure paths of setup *)

(** C6 (failed setups leave the readiness group live): two failing runs of
    setup.  With the scheme "http" setup returns [AVERROR(EINVAL)] right
    after creating the readiness group: the group is recorded in the handle
    and still live, no socket is.  With a single candidate whose connect is
    refused setup leaves through [fail1]: the socket is closed, the address
    list freed, the group is still live; [srt_epoll_release] is called on
    neither path. *)
Theorem failed_setup_leaves_group_live :
  let wrong_scheme :=
    libsrt_setup (scenario always_ready (candidate_a, []) "http" 9000 [])
      3 "http://host:9000" 0 fresh_state in
  let refused :=
    libsrt_setup (scenario connect_refused (candidate_a, []) "srt" 9000 [])
      3 "srt://host:9000" 0 fresh_state in
  (fst wrong_scheme = Some (AVERROR EINVAL)
   /\ trace (snd wrong_scheme) = [(srt_epoll_create, 1)]
   /\ SRTContext.eid (URLContext.priv_data (h (snd wrong_scheme))) = 1
   /\ 1 ∈ live_groups (trace (snd wrong_scheme))
   /\ live_sockets (trace (snd wrong_scheme)) = ∅)
  /\ (fst refused = Some AVERROR_UNKNOWN
      /\ trace (snd refused) =
         [(srt_epoll_create, 1); (getaddrinfo (Some "host") 9000 0, 0);
          (srt_socket 2 2 0, 7);
          (srt_setsockopt 7 0 SRTO_TSBPDDELAY (OptInt 0), 0);
          (srt_setsockopt 7 0 SRTO_SNDSYN (OptInt 1), 0);
          (srt_setsockopt 7 0 SRTO_RCVSYN (OptInt 1), 0);
          (srt_connect 7 101, -1); (srt_getlasterror, 1001);
          (srt_close 7, 0); (freeaddrinfo, 0)]
      /\ 1 ∈ live_groups (trace (snd refused))
      /\ live_sockets (trace (snd refused)) = ∅).
Proof.
  intros wrong_scheme refused. split.
  - split; [reflexivity |]. split; [reflexivity |]. split; [reflexivity |].
    split.
    + change (trace (snd wrong_scheme)) with [(srt_epoll_create, 1)].
      cbn. set_solver.
    + change (trace (snd wrong_scheme)) with [(srt_epoll_create, 1)].
      reflexivity.
  - split; [reflexivity |].
    assert (trace (snd refused) =
         [(srt_epoll_create, 1); (getaddrinfo (Some "host") 9000 0, 0);
          (srt_socket 2 2 0, 7);
          (srt_setsockopt 7 0 SRTO_TSBPDDELAY (OptInt 0), 0);
          (srt_setsockopt 7 0 SRTO_SNDSYN (OptInt 1), 0);
          (srt_setsockopt 7 0 SRTO_RCVSYN (OptInt 1), 0);
          (srt_connect 7 101, -1); (srt_getlasterror, 1001);
          (srt_close 7, 0); (freeaddrinfo, 0)]) as Ht by reflexivity.
    split; [exact Ht |]. rewrite Ht. split.
    + cbn. set_solver.
    + cbn. set_solver.
Qed.

(* ===================================================================== *)
(** * Further properties of the functions *)

(** ** Which calls a function makes *)

Section OnlyCalls.

Context {A B : Type}.
Variable ok : extcall -> bool.

Lemma only_calls_Ret (a : A) : only_calls ok (Ret a).
Proof. intros s. exists []. by rewrite add_trace_nil. Qed.

Lemma only_calls_out_of_fuel : only_calls ok (@out_of_fuel A).
Proof. intros s. exists []. by rewrite add_trace_nil. Qed.

Lemma only_calls_if (b : bool) (m1 m2 : M A) :
  only_calls ok m1 -> only_calls ok m2 ->
  only_calls ok (if b then m1 else m2).
Proof. by destruct b. Qed.

Lemma only_calls_bind (m : M A) (k : A -> M B) :
  only_calls ok m -> (forall a, only_calls ok (k a)) ->
  only_calls ok (bind m k).
Proof.
  intros Hm Hk s. destruct (Hm s) as (t1 & Ht1 & Hok1). unfold bind.
  destruct (m s) as [[a |] s1]; cbn [fst snd] in *; [| by exists t1].
  destruct (Hk a s1) as (t2 & Ht2 & Hok2). exists (t1 ++ t2).
  split; [by rewrite Ht2, Ht1, add_trace_app |].
  by rewrite forallb_app, Hok1, Hok2.
Qed.

Lemma only_calls_mono (ok' : extcall -> bool) (m : M A) :
  (forall c, ok c = true -> ok' c = true) ->
  only_calls ok m -> only_calls ok' m.
Proof.
  intros Hsub Hm s. destruct (Hm s) as (t & Ht & Hok). exists t.
  split; [done |]. rewrite forallb_forall in *. intros e He.
  by apply Hsub, Hok.
Qed.

End OnlyCalls.

Lemma only_calls_ext (E : env) (ok : extcall -> bool) (c : extcall) :
  ok c = true -> only_calls ok (ext E c).
Proof.
  intros Hc s. exists [(c, respond E (trace s) c)].
  split; [reflexivity | cbn; by rewrite Hc].
Qed.

Lemma only_calls_get_s (ok : extcall -> bool) : only_calls ok get_s.
Proof. intros s. exists []. by rewrite add_trace_nil. Qed.

Lemma only_calls_get_h (ok : extcall -> bool) : only_calls ok get_h.
Proof. intros s. exists []. by rewrite add_trace_nil. Qed.

Lemma only_calls_performs {A : Type} (ok : extcall -> bool) (m : M A) :
  only_calls ok m -> performs ok m.
Proof.
  intros Hm s. destruct (Hm s) as (t & -> & Hok). by exists t.
Qed.

Lemma only_calls_handle {A : Type} (ok : extcall -> bool) (m : M A)
  (s : state) :
  only_calls ok m -> h (snd (m s)) = h s.
Proof. intros Hm. by destruct (Hm s) as (t & -> & _). Qed.

Ltac only_calls_step :=
  first
    [ apply only_calls_Ret
    | apply only_calls_out_of_fuel
    | apply only_calls_get_s
    | apply only_calls_get_h
    | apply only_calls_ext; cbn; rewrite ?Z.eqb_refl, ?Bool.eqb_reflx;
      reflexivity
    | apply only_calls_if
    | apply only_calls_bind; [| intros ?]
    | match goal with
      | |- only_calls _ (match ?x with _ => _ end) => destruct x
      end ].

Section CallsOfTheWaits.

Variable E : env.

Lemma only_calls_wait_fd (eid fd write : Z) :
  only_calls (wait_call eid fd write) (libsrt_network_wait_fd E eid fd write).
Proof.
  unfold libsrt_network_wait_fd, libsrt_neterrno. repeat only_calls_step.
Qed.

Lemma only_calls_wait_loop (fuel : nat) (eid fd write timeout ws : Z) :
  only_calls (wait_call eid fd write)
    (wait_fd_timeout_loop E fuel eid fd write timeout ws).
Proof.
  revert ws. induction fuel as [| n IH]; intros ws;
    cbn [wait_fd_timeout_loop];
    repeat first [apply IH | apply only_calls_wait_fd | only_calls_step].
Qed.

Lemma wait_call_candidate (eid fd write : Z) (c : extcall) :
  wait_call eid fd write c = true -> candidate_call c = true.
Proof. by destruct c. Qed.

Lemma only_calls_listen_wait_loop (fuel : nat) (eid fd timeout : Z) :
  only_calls (wait_call eid fd 1) (listen_wait_loop E fuel eid fd timeout).
Proof.
  induction fuel as [| n IH]; cbn [listen_wait_loop];
    unfold libsrt_network_wait_fd_timeout;
    repeat first [apply IH | apply only_calls_wait_loop | only_calls_step].
Qed.

Lemma only_calls_listen (fuel : nat) (eid fd addr timeout : Z) :
  only_calls candidate_call (libsrt_listen E fuel eid fd addr timeout).
Proof.
  unfold libsrt_listen, libsrt_socket_nonblock, libsrt_neterrno.
  repeat first
    [ apply (only_calls_mono _ _ _ (wait_call_candidate eid fd 1)),
        only_calls_listen_wait_loop
    | only_calls_step ].
Qed.

Lemma only_calls_listen_connect_loop (fuel : nat) (eid fd addr timeout : Z)
  (will_try_next : bool) :
  only_calls candidate_call
    (listen_connect_loop E fuel eid fd addr timeout will_try_next).
Proof.
  induction fuel as [| n IH]; cbn [listen_connect_loop];
    unfold libsrt_network_wait_fd_timeout, libsrt_neterrno;
    repeat first
      [ apply IH
      | apply (only_calls_mono _ _ _ (wait_call_candidate eid fd 1)),
          only_calls_wait_loop
      | only_calls_step ].
Qed.

Lemma only_calls_setup_candidate (fuel : nat) (open_timeout : Z)
  (cur_ai : addrinfo) (has_next : bool) :
  only_calls candidate_call
    (setup_candidate E fuel open_timeout cur_ai has_next).
Proof.
  unfold setup_candidate, setup_socket, setup_connect, setup_post,
    libsrt_listen_connect, libsrt_set_options_pre, libsrt_set_options_post,
    libsrt_setsockopt, libsrt_socket_nonblock, libsrt_neterrno, and_fails,
    or_else.
  repeat first
    [ apply only_calls_listen | apply only_calls_listen_connect_loop
    | only_calls_step ].
Qed.

End CallsOfTheWaits.

Lemma calls_of_app (p : extcall -> bool) (t1 t2 : list event) :
  calls_of p (t1 ++ t2) = calls_of p t1 ++ calls_of p t2.
Proof. apply List.filter_app. Qed.

Lemma calls_of_none (p ok : extcall -> bool) (t : list event) :
  (forall c, ok c = true -> p c = false) ->
  forallb (fun e => ok (fst e)) t = true ->
  calls_of p t = [].
Proof.
  intros Hdis. induction t as [| [c v] t IH]; [done |]. cbn.
  intros [Hc Ht]%andb_prop. rewrite (Hdis c Hc). by apply IH.
Qed.

(** ** The value of one readiness wait *)

Section WaitFdValue.

Variable E : env.

(** X1: one readiness wait returns 0 exactly when its run is the
    registration, the poll and the deregistration, none of them negative;
    every other run returns [AVERROR(EAGAIN)] or [AVERROR_UNKNOWN]. *)
Theorem wait_fd_ready_iff (eid fd write : Z) (s : state) :
  exists r t,
    libsrt_network_wait_fd E eid fd write s = (Some r, add_trace s t)
    /\ (r = 0 \/ r = AVERROR EAGAIN \/ r = AVERROR_UNKNOWN)
    /\ (r = 0 <->
        exists r1 r2 r3,
          0 <= r1 /\ 0 <= r2 /\ 0 <= r3
          /\ t = [(srt_epoll_add_usock eid fd
                     (if truthy write then SRT_EPOLL_OUT else SRT_EPOLL_IN),
                   r1);
                  (srt_epoll_wait eid (truthy write) POLLING_TIME, r2);
                  (srt_epoll_remove_usock eid fd, r3)]).
Proof.
  destruct (wait_fd_run E eid fd write s) as (r & t & Hrun & Hp).
  exists r, t. split; [done |].
  split; [by apply (wait_fd_path_result _ _ _ _ _ Hp) |].
  inversion Hp as [r1 err Hr1 | r1 r2 r3 ret r' diag diag' Hr1 Hpo Hde]; subst.
  - split.
    + intros H0. pose proof (neterrno_of_neg err). lia.
    + intros (? & ? & ? & _ & _ & _ & [=]).
  - split.
    + intros ->. inversion Hde as [? ? Hr3 | ? err ? Hr3]; subst.
      * inversion Hpo as [? Hr2 | ? Hr2 | ? ? e2 Hr2];
          try match goal with
              | H : neterrno_of ?e = 0 |- _ =>
                pose proof (neterrno_of_neg e); lia
              end.
        subst. by exists r1, r2, r3.
      * pose proof (neterrno_of_neg err). lia.
    + intros (q1 & q2 & q3 & H1 & H2 & H3 & Heq).
      injection Heq as -> -> Heq.
      inversion Hpo as [? Hr2 | ? Hr2 | ? ? e2 Hr2]; subst; cbn in Heq;
        try (by inversion Heq).
      injection Heq as -> ->.
      inversion Hde as [? ? Hr3 | ? err ? Hr3]; subst; first [done | lia].
Qed.

End WaitFdValue.

(** ** The value of the deadline loop *)

Lemma wait_fd_path_ready (eid fd write : Z) (t : list event) :
  wait_fd_path eid fd write t 0 ->
  exists r1 r2 r3,
    0 <= r1 /\ 0 <= r2 /\ 0 <= r3
    /\ t = [(srt_epoll_add_usock eid fd
               (if truthy write then SRT_EPOLL_OUT else SRT_EPOLL_IN), r1);
            (srt_epoll_wait eid (truthy write) POLLING_TIME, r2);
            (srt_epoll_remove_usock eid fd, r3)].
Proof.
  intros Hp. remember 0 as r eqn:Hr.
  inversion Hp as [r1 err Hr1 | r1 r2 r3 ret r' diag diag' Hr1 Hpo Hde]; subst.
  { pose proof (neterrno_of_neg err). lia. }
  inversion Hde as [? ? Hr3 | ? err ? Hr3 Heq];
    [| pose proof (neterrno_of_neg err); lia].
  subst. inversion Hpo as [? Hr2 | ? Hr2 | ? ? e2 Hr2 Hne Heq1 Heq2 Heq3];
    [| pose proof (neterrno_of_neg e2); lia].
  subst. by exists r1, r2, r3.
Qed.

Lemma wait_fd_path_checks (eid fd write r : Z) (t : list event) :
  wait_fd_path eid fd write t r ->
  exists modes r1,
    calls_of is_check_or_registration t =
      [(srt_epoll_add_usock eid fd modes, r1)].
Proof.
  intros Hp.
  inversion Hp as [r1 err Hr1 | r1 r2 r3 ret r' diag diag' Hr1 Hpo Hde]; subst.
  - by eexists _, _.
  - eexists _, r1. unfold calls_of. cbn. f_equal.
    rewrite List.filter_app. cbn.
    inversion Hpo; subst; inversion Hde; subst; reflexivity.
Qed.

Section LoopValue.

Variables eid fd write timeout : Z.

Lemma wait_loop_path_value (fuel : nat) (ws v : Z) (t : list event) :
  wait_loop_path eid fd write timeout fuel ws t (Some v) ->
  (v = 0 \/ v = AVERROR_UNKNOWN \/ v = AVERROR_EXIT \/ v = AVERROR ETIMEDOUT)
  /\ (v = 0 ->
      exists pre r1 r2 r3,
        0 <= r1 /\ 0 <= r2 /\ 0 <= r3
        /\ t = pre ++
               [(srt_epoll_add_usock eid fd
                   (if truthy write then SRT_EPOLL_OUT else SRT_EPOLL_IN), r1);
                (srt_epoll_wait eid (truthy write) POLLING_TIME, r2);
                (srt_epoll_remove_usock eid fd, r3)]).
Proof.
  intros Hp. remember (Some v) as r eqn:Hr. revert v Hr.
  assert (Hiter : forall x tp mid rest (w : Z),
    (w = 0 ->
     exists pre r1 r2 r3,
       0 <= r1 /\ 0 <= r2 /\ 0 <= r3
       /\ rest = pre ++
            [(srt_epoll_add_usock eid fd
                (if truthy write then SRT_EPOLL_OUT else SRT_EPOLL_IN), r1);
             (srt_epoll_wait eid (truthy write) POLLING_TIME, r2);
             (srt_epoll_remove_usock eid fd, r3)]) ->
    w = 0 ->
    exists pre r1 r2 r3,
      0 <= r1 /\ 0 <= r2 /\ 0 <= r3
      /\ (ff_check_interrupt, x) :: tp ++ mid ++ rest = pre ++
           [(srt_epoll_add_usock eid fd
               (if truthy write then SRT_EPOLL_OUT else SRT_EPOLL_IN), r1);
            (srt_epoll_wait eid (truthy write) POLLING_TIME, r2);
            (srt_epoll_remove_usock eid fd, r3)]).
  { intros x tp mid rest w Hrest Hw.
    destruct (Hrest Hw) as (pre & r1 & r2 & r3 & H1 & H2 & H3 & ->).
    exists ((ff_check_interrupt, x) :: tp ++ mid ++ pre), r1, r2, r3.
    repeat split; try done. cbn. by rewrite <- !app_assoc. }
  induction Hp as
    [ ws | n ws x Hx | n ws x r tp Hx Hwp Hr | n ws x tp t r Hx Hwp Hle Hp IH
    | n x now tp t r Hx Hwp ? Hp IH | n ws x now tp Hx Hwp ? Hws Hdl
    | n ws x now tp t r Hx Hwp ? Hws Hdl Hp IH ]; intros v Hv.
  - discriminate.
  - injection Hv as <-. split; [auto | done].
  - injection Hv as <-. split.
    + destruct (wait_fd_path_result _ _ _ _ _ Hwp) as [-> | [-> | ->]]; auto.
      done.
    + intros ->. destruct (wait_fd_path_ready _ _ _ _ Hwp)
        as (r1 & r2 & r3 & H1 & H2 & H3 & ->).
      by exists [(ff_check_interrupt, x)], r1, r2, r3.
  - destruct (IH v Hv) as [Hval Hready]. split; [done |].
    apply (Hiter x tp [] t v Hready).
  - destruct (IH v Hv) as [Hval Hready]. split; [done |].
    apply (Hiter x tp [(av_gettime_relative, now)] t v Hready).
  - injection Hv as <-. split; [auto | done].
  - destruct (IH v Hv) as [Hval Hready]. split; [done |].
    apply (Hiter x tp [(av_gettime_relative, now)] t v Hready).
Qed.

Lemma wait_loop_path_checks (fuel : nat) (ws : Z) (t : list event)
  (r : option Z) :
  wait_loop_path eid fd write timeout fuel ws t r ->
  checks_before_polls (calls_of is_check_or_registration t) = true.
Proof.
  assert (Hiter : forall x tp mid rest ret,
    truthy x = false -> wait_fd_path eid fd write tp ret ->
    calls_of is_check_or_registration mid = [] ->
    checks_before_polls (calls_of is_check_or_registration rest) = true ->
    checks_before_polls
      (calls_of is_check_or_registration
         ((ff_check_interrupt, x) :: tp ++ mid ++ rest)) = true).
  { intros x tp mid rest ret Hx Hwp Hmid Hrest.
    destruct (wait_fd_path_checks _ _ _ _ _ Hwp) as (modes & r1 & Hc).
    change (calls_of is_check_or_registration
              ((ff_check_interrupt, x) :: tp ++ mid ++ rest))
      with ((ff_check_interrupt, x)
            :: calls_of is_check_or_registration (tp ++ mid ++ rest)).
    rewrite !calls_of_app, Hc, Hmid. cbn. by rewrite Hx. }
  induction 1 as
    [ ws | n ws x Hx | n ws x r tp Hx Hwp Hr | n ws x tp t r Hx Hwp Hle Hp IH
    | n x now tp t r Hx Hwp ? Hp IH | n ws x now tp Hx Hwp ? Hws Hdl
    | n ws x now tp t r Hx Hwp ? Hws Hdl Hp IH ].
  - done.
  - done.
  - rewrite <- (app_nil_r tp). by apply (Hiter x tp [] [] r).
  - by apply (Hiter x tp [] t (AVERROR EAGAIN)).
  - by apply (Hiter x tp [(av_gettime_relative, now)] t (AVERROR EAGAIN)).
  - by apply (Hiter x tp [(av_gettime_relative, now)] [] (AVERROR EAGAIN)).
  - by apply (Hiter x tp [(av_gettime_relative, now)] t (AVERROR EAGAIN)).
Qed.

End LoopValue.

Section DeadlineLoopValue.

Variable E : env.

(** X2: the deadline loop touches nothing but the history, and any value
    it returns is 0, [AVERROR_UNKNOWN], [AVERROR_EXIT] or
    [AVERROR(ETIMEDOUT)], never the [AVERROR(EAGAIN)] of a poll that timed
    out; it returns 0 only when its last three calls are a registration, a
    poll and a deregistration that all succeeded. *)
Theorem deadline_loop_value (fuel : nat) (eid fd write timeout : Z)
  (s : state) :
  exists r t,
    libsrt_network_wait_fd_timeout E fuel eid fd write timeout s =
      (r, add_trace s t)
    /\ forall v, r = Some v ->
         (v = 0 \/ v = AVERROR_UNKNOWN \/ v = AVERROR_EXIT
          \/ v = AVERROR ETIMEDOUT)
         /\ (v = 0 ->
             exists pre r1 r2 r3,
               0 <= r1 /\ 0 <= r2 /\ 0 <= r3
               /\ t = pre ++
                      [(srt_epoll_add_usock eid fd
                          (if truthy write then SRT_EPOLL_OUT
                           else SRT_EPOLL_IN), r1);
                       (srt_epoll_wait eid (truthy write) POLLING_TIME, r2);
                       (srt_epoll_remove_usock eid fd, r3)]).
Proof.
  unfold libsrt_network_wait_fd_timeout.
  destruct (wait_loop_run E fuel eid fd write timeout 0 s) as (r & t & Hrun & Hp).
  exists r, t. split; [done |]. intros v ->.
  by apply (wait_loop_path_value _ _ _ _ _ _ _ _ Hp).
Qed.

(** X3: in every run of the deadline loop the interrupt checks and the
    registrations of the socket alternate, beginning with a check: the
    socket is polled only after a check that did not signal, and the group
    calls are all on the given socket and group with the polling slice of
    [POLLING_TIME] milliseconds. *)
Theorem deadline_loop_checks_before_polls (fuel : nat)
  (eid fd write timeout : Z) (s : state) :
  exists t,
    snd (libsrt_network_wait_fd_timeout E fuel eid fd write timeout s) =
      add_trace s t
    /\ checks_before_polls (calls_of is_check_or_registration t) = true
    /\ forallb (fun e => wait_call eid fd write (fst e)) t = true.
Proof.
  unfold libsrt_network_wait_fd_timeout.
  destruct (wait_loop_run E fuel eid fd write timeout 0 s) as (r & t & Hrun & Hp).
  destruct (only_calls_wait_loop E fuel eid fd write timeout 0 s)
    as (t' & Ht' & Hok).
  rewrite Hrun in Ht'. cbn [snd] in Ht'.
  assert (t' = t) as ->.
  { apply (f_equal trace) in Ht'. rewrite !trace_add_trace in Ht'.
    by apply app_inv_head in Ht'. }
  exists t. rewrite Hrun. split; [done |]. split; [| done].
  by apply (wait_loop_path_checks _ _ _ _ _ _ _ _ Hp).
Qed.

End DeadlineLoopValue.

(** ** Listening *)

(** One call of the collaborators, its answer made a fresh variable. *)
Ltac step_call E :=
  first [rewrite bind_ext | rewrite ext_run | rewrite libsrt_neterrno_run
        | rewrite (bind_Some _ _ _ _ _ (libsrt_neterrno_run E _))];
  match goal with
  | |- context [respond E ?hist ?c] =>
    let r := fresh "r" in generalize (respond E hist c); intro r
  end;
  rewrite ?add_trace_app; cbn [app].

Lemma truthy_false (z : Z) : truthy z = false -> z = 0.
Proof. unfold truthy. destruct (z =? 0) eqn:Hz; [by z_facts | done]. Qed.

Lemma truthy_true (z : Z) : truthy z = true -> z <> 0.
Proof. unfold truthy. destruct (z =? 0) eqn:Hz; [done | by z_facts]. Qed.

Section Listen.

Variable E : env.

Lemma wait_fd_timeout_run (fuel : nat) (eid fd write timeout : Z) (s : state) :
  exists r t,
    libsrt_network_wait_fd_timeout E fuel eid fd write timeout s =
      (r, add_trace s t)
    /\ forallb (fun e => wait_call eid fd write (fst e)) t = true
    /\ forall v, r = Some v ->
         v = 0 \/ v = AVERROR_UNKNOWN \/ v = AVERROR_EXIT
         \/ v = AVERROR ETIMEDOUT.
Proof.
  unfold libsrt_network_wait_fd_timeout.
  destruct (wait_loop_run E fuel eid fd write timeout 0 s) as (r & t & Hrun & Hp).
  destruct (only_calls_wait_loop E fuel eid fd write timeout 0 s)
    as (t' & Ht' & Hok).
  rewrite Hrun in Ht'. cbn [snd] in Ht'.
  assert (t' = t) as ->.
  { apply (f_equal trace) in Ht'. rewrite !trace_add_trace in Ht'.
    by apply app_inv_head in Ht'. }
  exists r, t. split; [done |]. split; [done |]. intros v ->.
  by apply (wait_loop_path_value _ _ _ _ _ _ _ _ Hp).
Qed.

(** The wait of [libsrt_listen] ends with 0, with the error of a poll or
    with the cancellation. *)
Lemma listen_wait_loop_run (fuel : nat) (eid fd timeout : Z) (s : state) :
  exists r t,
    listen_wait_loop E fuel eid fd timeout s = (r, add_trace s t)
    /\ forallb (fun e => wait_call eid fd 1 (fst e)) t = true
    /\ forall v, r = Some v ->
         v = 0 \/ v = AVERROR_UNKNOWN \/ v = AVERROR_EXIT.
Proof.
  revert s. induction fuel as [| n IH]; intros s.
  { exists None, []. by rewrite add_trace_nil. }
  cbn [listen_wait_loop].
  destruct (wait_fd_timeout_run n eid fd 1 timeout s)
    as (r0 & t0 & Hrun0 & Hok0 & Hval0).
  destruct r0 as [v0 |].
  2:{ exists None, t0. by rewrite (bind_None _ _ _ _ Hrun0). }
  rewrite (bind_Some _ _ _ _ _ Hrun0).
  destruct (Hval0 v0 eq_refl) as [-> | [-> | [-> | ->]]].
  - exists (Some 0), t0. repeat split; try done. intros v [= <-]. auto.
  - exists (Some AVERROR_UNKNOWN), t0. repeat split; try done.
    intros v [= <-]. auto.
  - exists (Some AVERROR_EXIT), t0. repeat split; try done.
    intros v [= <-]. auto.
  - change (truthy (AVERROR ETIMEDOUT)) with true. rewrite Z.eqb_refl.
    destruct (IH (add_trace s t0)) as (r & t & Hrun & Hok & Hval).
    exists r, (t0 ++ t). rewrite Hrun, add_trace_app.
    split; [done |]. split; [| done]. by rewrite forallb_app, Hok0, Hok.
Qed.

(** X4: [libsrt_listen] never returns [AVERROR(ETIMEDOUT)].  A value that is
    not negative is the socket that the one [srt_accept] of the run
    returned, after [srt_bind] and [srt_listen] returned 0; a negative value
    is [AVERROR(EAGAIN)], [AVERROR_UNKNOWN] or [AVERROR_EXIT], and then no
    connection was accepted.  A failure to set the address reuse or the
    non-blocking mode changes neither. *)
Theorem listen_value (fuel : nat) (eid fd addr timeout : Z) (s : state) :
  exists r t,
    libsrt_listen E fuel eid fd addr timeout s = (r, add_trace s t)
    /\ (length (calls_of is_accept t) <= 1)%nat
    /\ forall v, r = Some v ->
         v <> AVERROR ETIMEDOUT
         /\ (0 <= v ->
             calls_of is_accept t = [(srt_accept fd, v)]
             /\ In (srt_bind fd addr, 0) t
             /\ In (srt_listen fd 1, 0) t)
         /\ (v < 0 ->
             (v = AVERROR EAGAIN \/ v = AVERROR_UNKNOWN \/ v = AVERROR_EXIT)
             /\ forall a, In (srt_accept fd, a) t -> a < 0).
Proof.
  unfold libsrt_listen. step_call E. step_call E.
  destruct (truthy r0) eqn:Hbind.
  { step_call E. eexists _, _. split; [reflexivity |]. split; [cbn; lia |].
    intros v [= <-]. pose proof (neterrno_of_neg r1) as Hneg.
    destruct (neterrno_of_cases r1) as [Hc | Hc]; rewrite Hc in *.
    all: split; [done |]; split; [lia |]; intros _; split; [auto |].
    all: intros a [Ha | [Ha | [Ha | []]]]; discriminate Ha. }
  apply truthy_false in Hbind as ->. step_call E.
  destruct (truthy r0) eqn:Hlisten.
  { step_call E. eexists _, _. split; [reflexivity |]. split; [cbn; lia |].
    intros v [= <-]. pose proof (neterrno_of_neg r1) as Hneg.
    destruct (neterrno_of_cases r1) as [Hc | Hc]; rewrite Hc in *.
    all: split; [done |]; split; [lia |]; intros _; split; [auto |].
    all: intros a [Ha | [Ha | [Ha | [Ha | []]]]]; discriminate Ha. }
  apply truthy_false in Hlisten as ->.
  set (pre := [(srt_setsockopt fd SOL_SOCKET SRTO_REUSEADDR (OptInt 1), r);
               (srt_bind fd addr, 0); (srt_listen fd 1, 0)]).
  destruct (listen_wait_loop_run fuel eid fd timeout (add_trace s pre))
    as (rw & tw & Hrunw & Hokw & Hvalw).
  assert (Hnoacc : calls_of is_accept tw = []).
  { apply (calls_of_none _ (wait_call eid fd 1)); [| done]. by intros []. }
  assert (Hpre : forall a, ~ In (srt_accept fd, a) pre).
  { intros a [Ha | [Ha | [Ha | []]]]; discriminate Ha. }
  assert (Hnoin : forall a, ~ In (srt_accept fd, a) tw).
  { intros a Ha. rewrite forallb_forall in Hokw. by apply Hokw in Ha. }
  destruct rw as [vw |].
  2:{ rewrite (bind_None _ _ _ _ Hrunw), add_trace_app.
      eexists None, _. split; [reflexivity |]. split; [| done].
      rewrite calls_of_app, Hnoacc. cbn. lia. }
  rewrite (bind_Some _ _ _ _ _ Hrunw), add_trace_app.
  destruct (truthy vw) eqn:Hvw.
  { apply truthy_true in Hvw.
    eexists (Some vw), _. split; [reflexivity |].
    split; [rewrite calls_of_app, Hnoacc; cbn; lia |].
    intros v [= <-].
    destruct (Hvalw vw eq_refl) as [-> | [-> | ->]]; [done | |].
    all: split; [done |]; split; [done |]; intros _; split; [auto |].
    all: intros a [Ha | Ha]%in_app_or;
      [by apply Hpre in Ha | by apply Hnoin in Ha]. }
  step_call E. destruct (r0 <? 0) eqn:Hacc; z_facts.
  { step_call E. eexists _, _. split; [reflexivity |].
    split; [rewrite !calls_of_app, Hnoacc; cbn; lia |].
    intros v [= <-]. pose proof (neterrno_of_neg r1) as Hneg.
    split; [destruct (neterrno_of_cases r1) as [-> | ->]; done |].
    split; [lia |]. intros _.
    split; [destruct (neterrno_of_cases r1) as [-> | ->]; auto |].
    intros a. rewrite !in_app_iff.
    intros [[[Ha | Ha] | [Ha | []]] | [Ha | []]];
      [by apply Hpre in Ha | by apply Hnoin in Ha
      | injection Ha as <-; lia | discriminate Ha]. }
  set (tr := (pre ++ tw) ++ [(srt_accept fd, r0)]).
  assert (Hnb : exists x tn,
    libsrt_socket_nonblock E r0 1 (add_trace s tr) =
      (Some x, add_trace s (tr ++ tn))
    /\ calls_of is_accept tn = []).
  { unfold libsrt_socket_nonblock. step_call E.
    destruct (_ <? 0); [by eexists _, [_] |].
    step_call E. rewrite <- app_assoc. by eexists _, [_; _]. }
  destruct Hnb as (x & tn & Hrunn & Hnoacc').
  rewrite (bind_Some _ _ _ _ _ Hrunn).
  eexists (Some r0), _. split; [reflexivity |].
  assert (calls_of is_accept (tr ++ tn) = [(srt_accept fd, r0)]) as Hcalls.
  { unfold tr. by rewrite !calls_of_app, Hnoacc, Hnoacc'. }
  split; [rewrite Hcalls; cbn; lia |].
  intros v [= <-]. split; [unfold AVERROR, ETIMEDOUT; lia |].
  split; [| lia]. intros _. split; [done |].
  unfold tr. rewrite !in_app_iff. split; left; left; left; cbn; auto.
Qed.

End Listen.

(** ** Connecting *)

Section ListenConnect.

Variable E : env.

Lemma socket_nonblock_run (socket enable : Z) (s : state) :
  exists x tn,
    libsrt_socket_nonblock E socket enable s = (Some x, add_trace s tn)
    /\ forallb is_setsockopt tn = true.
Proof.
  unfold libsrt_socket_nonblock. step_call E.
  destruct (_ <? 0); [by eexists _, [_] |].
  step_call E. by eexists _, [_; _].
Qed.

Lemma calls_of_cons (p : extcall -> bool) (e : event) (t : list event) :
  calls_of p (e :: t) = (if p (fst e) then [e] else []) ++ calls_of p t.
Proof. unfold calls_of. cbn. by destruct (p (fst e)). Qed.



End ListenConnect.

(** ** The option chains *)

Section OptionChains.

Variable E : env.

Lemma applies_and_fails (fd : Z) (o : SRT_SOCKOPT) (v : optval) (c : bool) :
  applies fd [o] (and_fails c (libsrt_setsockopt E fd o v)).
Proof.
  intros s. unfold and_fails, libsrt_setsockopt. destruct c.
  - rewrite bind_assoc. step_call E. destruct (r <? 0) eqn:Hr; z_facts.
    + exists true, [(srt_setsockopt fd 0 o v, r)]. split; [done |].
      exists [(o, v, r)]. split; [done |]. split; [done |].
      by exists [], (o, v, r).
    + exists false, [(srt_setsockopt fd 0 o v, r)]. split; [done |].
      exists [(o, v, r)]. split; [done |]. split; [done |].
      by repeat constructor.
  - exists false, []. rewrite add_trace_nil. split; [done |].
    exists []. split; [done |]. split; [apply sublist_nil_l | constructor].
Qed.

Lemma applies_or_else (fd : Z) (o : SRT_SOCKOPT) (os : list SRT_SOCKOPT)
  (a b : M bool) :
  applies fd [o] a -> applies fd os b -> applies fd (o :: os) (or_else a b).
Proof.
  intros Ha Hb s. unfold or_else.
  destruct (Ha s) as (fa & ta & Hruna & la & -> & Hsuba & Hfa).
  rewrite (bind_Some _ _ _ _ _ Hruna). destruct fa.
  { exists true, (sockopt_events fd la). split; [done |].
    exists la. split; [done |]. split; [| done].
    by apply (sublist_inserts_r os) in Hsuba. }
  destruct (Hb (add_trace s (sockopt_events fd la)))
    as (fb & tb & Hrunb & lb & -> & Hsubb & Hfb).
  rewrite Hrunb, add_trace_app.
  exists fb, (sockopt_events fd la ++ sockopt_events fd lb).
  split; [done |]. exists (la ++ lb).
  split; [unfold sockopt_events; by rewrite map_app |].
  split; [rewrite map_app; change (o :: os) with ([o] ++ os);
          by apply sublist_app |].
  destruct fb.
  - destruct Hfb as (l' & x & -> & Hx & Hl').
    exists (la ++ l'), x. rewrite app_assoc. split; [done |].
    split; [done |]. by apply Forall_app.
  - by apply Forall_app.
Qed.

(** X6: [libsrt_set_options_pre] stops at the first option that the
    library rejects.  Every call of a run is [srt_setsockopt] on the given
    socket at level 0; the options come in the order of the source, each at
    most once; the result is [AVERROR(EIO)] exactly when the last answer is
    negative, and then no earlier answer is; otherwise the result is 0 and
    no answer is negative. *)
Theorem pre_options_stop_at_first_failure (fd : Z) (s : state) :
  exists (failed : bool) t,
    libsrt_set_options_pre E fd s =
      (Some (if failed then AVERROR EIO else 0), add_trace s t)
    /\ applied fd pre_options failed t.
Proof.
  unfold libsrt_set_options_pre. rewrite bind_get_s.
  match goal with
  | |- context [bind ?chain _ _] =>
    assert (applies fd pre_options chain) as Hchain
      by (unfold pre_options;
          repeat first [apply applies_or_else | apply applies_and_fails]);
    destruct (Hchain s) as (failed & t & Hrun & Happ);
    rewrite (bind_Some _ _ _ _ _ Hrun)
  end.
  exists failed, t. split; [by destruct failed | done].
Qed.

(** X7: [libsrt_set_options_post] sets at most the input bandwidth and then
    the overhead bandwidth on the given socket, and stops at the first
    rejection: the result is [AVERROR(EIO)] exactly when the last answer is
    negative, otherwise 0. *)
Theorem post_options_stop_at_first_failure (fd : Z) (s : state) :
  exists (failed : bool) t,
    libsrt_set_options_post E fd s =
      (Some (if failed then AVERROR EIO else 0), add_trace s t)
    /\ applied fd post_options failed t.
Proof.
  unfold libsrt_set_options_post. rewrite bind_get_s.
  match goal with
  | |- context [bind ?chain _ _] =>
    assert (applies fd post_options chain) as Hchain
      by (unfold post_options;
          repeat first [apply applies_or_else | apply applies_and_fails]);
    destruct (Hchain s) as (failed & t & Hrun & Happ);
    rewrite (bind_Some _ _ _ _ _ Hrun)
  end.
  exists failed, t. split; [by destruct failed | done].
Qed.

End OptionChains.

(** ** Reading and writing *)

Section Transfer.

Variable E : env.





End Transfer.

(** ** The candidates of setup *)

Lemma bind_put_h {B : Type} (v : URLContext.t) (k : unit -> M B) (s : state) :
  bind (put_h v) k s = k tt (mk_state (trace s) v).
Proof. reflexivity. Qed.

Lemma bind_modify_s {B : Type} (f : SRTContext.t -> SRTContext.t)
  (k : unit -> M B) (s : state) :
  bind (modify_s f) k s =
    k tt (mk_state (trace s)
            (URLContext.set_priv_data (f (URLContext.priv_data (h s))) (h s))).
Proof. reflexivity. Qed.

(** The two outcomes of the computation bound first. *)
Ltac bind_cases H :=
  match goal with
  | |- context [bind ?m ?k ?s] =>
    let a := fresh "a" in
    let s1 := fresh "s" in
    destruct (m s) as [[a |] s1] eqn:H;
    [rewrite (bind_Some _ _ _ _ _ H) | rewrite (bind_None _ _ _ _ H)]
  end.

Section Candidates.

Variable E : env.

Lemma setup_socket_jump (cur_ai : addrinfo) (j : jump) (s s0 : state) :
  setup_socket E cur_ai s = (Some (inl j), s0) ->
  exists ret fd, j = goto_fail ret fd /\ ret < 0.
Proof.
  unfold setup_socket. rewrite bind_ext.
  set (fd' := respond E (trace s) _). destruct (fd' <? 0) eqn:Hfd; z_facts.
  { rewrite (bind_Some _ _ _ _ _ (libsrt_neterrno_run E _)).
    intros [= <- _]. eexists _, _. split; [done |]. apply neterrno_of_neg. }
  destruct (emits_set_options_pre E fd' (add_trace s
              [(srt_socket (ai_family cur_ai) (ai_socktype cur_ai) 0, fd')]))
    as (ret & t & Hpre & _).
  rewrite (bind_Some _ _ _ _ _ Hpre). destruct (ret <? 0) eqn:Hret; z_facts.
  { intros [= <- _]. by exists ret, fd'. }
  rewrite bind_get_s.
  destruct (0 <? SRTContext.recv_buffer_size _);
    destruct (0 <? SRTContext.send_buffer_size _);
    rewrite ?bind_ext, ?bind_Ret; discriminate.
Qed.

Lemma setup_post_jump (fd : Z) (j : jump) (s s' : state) :
  0 <= fd -> setup_post E fd s = (Some j, s') -> jump_sound j.
Proof.
  intros Hfd. unfold setup_post.
  destruct (emits_set_options_post E fd s) as (ret & t & Hrun & _).
  rewrite (bind_Some _ _ _ _ _ Hrun).
  destruct (ret <? 0) eqn:Hret; z_facts; by intros [= <- _].
Qed.

Lemma setup_connect_jump (fuel : nat) (open_timeout : Z) (cur_ai : addrinfo)
  (has_next : bool) (fd : Z) (j : jump) (s s' : state) :
  0 <= fd ->
  setup_connect E fuel open_timeout cur_ai has_next fd s = (Some j, s') ->
  jump_sound j.
Proof.
  intros Hfd. unfold setup_connect. rewrite bind_get_s.
  destruct (SRTMode_eqb _ SRT_MODE_LISTENER).
  - bind_cases Hl; [| discriminate].
    destruct (a <? 0) eqn:Ha; z_facts.
    + intros [= <- _]. cbn. lia.
    + by apply setup_post_jump.
  - bind_cases Hb; [| discriminate].
    destruct (truthy a) eqn:Ha.
    { intros [= <- _]. by apply truthy_true. }
    bind_cases Hc; [| discriminate].
    destruct (a0 <? 0) eqn:Ha0; z_facts; [| by apply setup_post_jump].
    destruct (a0 =? AVERROR_EXIT); intros [= <- _]; cbn; lia.
Qed.

Lemma setup_candidate_jump (fuel : nat) (open_timeout : Z) (cur_ai : addrinfo)
  (has_next : bool) (j : jump) (s s' : state) :
  setup_candidate E fuel open_timeout cur_ai has_next s = (Some j, s') ->
  jump_sound j.
Proof.
  unfold setup_candidate. bind_cases Hs; [| discriminate].
  destruct a as [j0 | fd].
  - destruct (setup_socket_jump _ _ _ _ Hs) as (ret & fd & -> & Hret).
    by intros [= <- _].
  - apply setup_connect_jump. by apply (setup_socket_fd E _ _ _ _ Hs).
Qed.

Lemma setup_fail1_run (ret fd : Z) (s : state) :
  exists t' x,
    setup_fail1 E ret fd s = (Some ret, add_trace s (t' ++ [(freeaddrinfo, x)]))
    /\ forallb (fun e => candidate_or_close (fst e)) t' = true.
Proof.
  unfold setup_fail1. destruct (0 <=? fd).
  - step_call E. step_call E. by exists [(srt_close fd, r)], r0.
  - rewrite bind_Ret. step_call E. by exists [], r.
Qed.

(** The candidate loop frees the address list as its last call, and only
    then; it changes the handle exactly when it returns 0. *)
Lemma setup_restart_run (fuel : nat) (open_timeout : Z)
  (next : list addrinfo) (cur_ai : addrinfo) (s : state) :
  exists r s' t,
    setup_restart E fuel open_timeout cur_ai next s = (r, s')
    /\ trace s' = trace s ++ t
    /\ forall v, r = Some v ->
         (exists t' x,
            t = t' ++ [(freeaddrinfo, x)]
            /\ forallb (fun e => candidate_or_close (fst e)) t' = true)
         /\ ((v = 0
              /\ exists fd,
                   0 <= fd
                   /\ h s' =
                      URLContext.set_priv_data
                        (SRTContext.set_fd fd (URLContext.priv_data (h s)))
                        (URLContext.set_is_streamed 1 (h s)))
             \/ (v <> 0 /\ h s' = h s)).
Proof.
  revert cur_ai s. induction next as [| ai_next rest IH]; intros cur_ai s;
    rewrite setup_restart_unfold;
    match goal with
    | |- context [setup_candidate E fuel open_timeout cur_ai ?b] =>
      destruct (only_calls_setup_candidate E fuel open_timeout cur_ai b s)
        as (tc & Htc & Hokc);
      destruct (setup_candidate E fuel open_timeout cur_ai b s)
        as [[j |] s1] eqn:Hc
    end; cbn [snd] in Htc; subst s1.
  all: try (rewrite (bind_None _ _ _ _ Hc);
            exists None, (add_trace s tc), tc; split; [done |];
            split; [by rewrite trace_add_trace | done]).
  all: pose proof (setup_candidate_jump _ _ _ _ _ _ _ Hc) as Hj;
    rewrite (bind_Some _ _ _ _ _ Hc).
  all: assert (Hcc : forallb (fun e => candidate_or_close (fst e)) tc = true)
    by (rewrite forallb_forall in *; intros e He; unfold candidate_or_close;
        by rewrite (Hokc e He)).
  all: destruct j as [fd | ret fd | ret fd]; cbn [jump_sound] in Hj.
  all: try (destruct (setup_fail1_run ret fd (add_trace s tc))
              as (t' & x & Hrun & Hok);
            rewrite Hrun, add_trace_app;
            exists (Some ret), (add_trace s (tc ++ t' ++ [(freeaddrinfo, x)])),
              (tc ++ t' ++ [(freeaddrinfo, x)]);
            split; [done |]; split; [by rewrite trace_add_trace |];
            intros v [= <-]; split;
            [ exists (tc ++ t'), x; rewrite <- app_assoc; split; [done |];
              by rewrite forallb_app, Hcc, Hok
            | right; split; [lia |]; by rewrite h_add_trace ]).
  - rewrite bind_get_h, bind_put_h, bind_modify_s. step_call E.
    eexists (Some 0), _, (tc ++ [(freeaddrinfo, r)]).
    split; [reflexivity |]. split.
    { rewrite trace_add_trace. cbn [trace]. by rewrite trace_add_trace,
        <- app_assoc. }
    intros v [= <-]. split; [by exists tc, r |]. left. split; [done |].
    exists fd. split; [done |]. rewrite h_add_trace. cbn [h].
    by rewrite h_add_trace.
  - rewrite bind_get_h, bind_put_h, bind_modify_s. step_call E.
    eexists (Some 0), _, (tc ++ [(freeaddrinfo, r)]).
    split; [reflexivity |]. split.
    { rewrite trace_add_trace. cbn [trace]. by rewrite trace_add_trace,
        <- app_assoc. }
    intros v [= <-]. split; [by exists tc, r |]. left. split; [done |].
    exists fd. split; [done |]. rewrite h_add_trace. cbn [h].
    by rewrite h_add_trace.
  - assert (Hclose : exists tx s2,
      (if 0 <=? fd then ext E (srt_close fd) else Ret 0) (add_trace s tc) =
        (Some (fst tx), s2)
      /\ s2 = add_trace s (tc ++ snd tx)
      /\ forallb (fun e => candidate_or_close (fst e)) (snd tx) = true).
    { destruct (0 <=? fd).
      - rewrite ext_run, add_trace_app.
        by eexists (_, [(srt_close fd, _)]), _.
      - by eexists (0, []), _; rewrite app_nil_r. }
    destruct Hclose as ([x tx] & s2 & Hrunx & -> & Hokx). cbn [fst snd] in *.
    rewrite (bind_Some _ _ _ _ _ Hrunx).
    destruct (IH ai_next (add_trace s (tc ++ tx)))
      as (r & s' & t & Hrun & Htr & Hval).
    exists r, s', ((tc ++ tx) ++ t). split; [done |].
    split; [by rewrite Htr, trace_add_trace, <- !app_assoc |].
    intros v Hv. destruct (Hval v Hv) as ((t' & y & -> & Hok') & Hh).
    split.
    { exists ((tc ++ tx) ++ t'), y. rewrite <- !app_assoc. split; [done |].
      by rewrite !forallb_app, Hcc, Hokx, Hok'. }
    by rewrite h_add_trace in Hh.
Qed.

End Candidates.

(** ** Setup *)

Section Setup.

Variable E : env.

(** The two timeouts of the query string are stored without a call and
    without touching the connection, the group or the mode of the handle. *)
Lemma setup_timeouts_run (uri : string) (s : state) :
  exists s1,
    (match strchr uri "?" with
     | Some p =>
       parse_tag E "timeout" p (fun buf => strtol E buf 10)
         SRTContext.set_rw_timeout ;;
       parse_tag E "listen_timeout" p (fun buf => strtol E buf 10)
         SRTContext.set_listen_timeout
     | None => Ret tt
     end) s = (Some tt, s1)
    /\ trace s1 = trace s
    /\ same_connection (h s1) (h s)
    /\ SRTContext.eid (URLContext.priv_data (h s1)) =
       SRTContext.eid (URLContext.priv_data (h s))
    /\ SRTContext.mode (URLContext.priv_data (h s1)) =
       SRTContext.mode (URLContext.priv_data (h s)).
Proof.
  unfold parse_tag. destruct (strchr uri "?") as [p |]; [| by exists s].
  destruct (av_find_info_tag E "timeout" p);
    destruct (av_find_info_tag E "listen_timeout" p);
    eexists; (split; [reflexivity |]); by repeat split.
Qed.

(** [libsrt_setup] up to the label [restart]: it returns before resolving
    an address, or it is the candidate loop run from a state that differs
    from the initial one by the two calls and the group and timeouts
    stored. *)
Lemma setup_prefix (fuel : nat) (uri : string) (flags : Z) (s : state)
  (res : option Z * state) :
  libsrt_setup E fuel uri flags s = res ->
  let '(proto, hostname, port) := av_url_split E uri in
  (exists v s' t,
     res = (Some v, s')
     /\ trace s' = trace s ++ t
     /\ ((exists eid err,
            eid < 0
            /\ t = [(srt_epoll_create, eid); (srt_getlasterror, err)]
            /\ v = neterrno_of err /\ h s' = h s)
         \/ (exists eid,
               0 <= eid
               /\ (proto <> "srt" \/ port <= 0 \/ 65536 <= port)
               /\ t = [(srt_epoll_create, eid)]
               /\ v = AVERROR EINVAL
               /\ h s' =
                  URLContext.set_priv_data
                    (SRTContext.set_eid eid (URLContext.priv_data (h s)))
                    (h s))
         \/ (exists eid node fl a,
               0 <= eid /\ proto = "srt" /\ 0 < port < 65536 /\ a <> 0
               /\ t = [(srt_epoll_create, eid);
                       (getaddrinfo node port fl, a)]
               /\ v = AVERROR EIO
               /\ same_connection (h s') (h s)
               /\ SRTContext.eid (URLContext.priv_data (h s')) = eid)))
  \/ (exists eid node fl open_timeout ai ai_rest s3,
        0 <= eid /\ proto = "srt" /\ 0 < port < 65536
        /\ res = setup_restart E fuel open_timeout ai ai_rest s3
        /\ trace s3 =
           trace s ++ [(srt_epoll_create, eid);
                       (getaddrinfo node port fl, 0)]
        /\ same_connection (h s3) (h s)
        /\ SRTContext.eid (URLContext.priv_data (h s3)) = eid
        /\ SRTContext.mode (URLContext.priv_data (h s3)) =
           SRTContext.mode (URLContext.priv_data (h s))).
Proof.
  unfold libsrt_setup. step_call E. rename r into eid.
  destruct (eid <? 0) eqn:Heid; z_facts.
  { step_call E. intros <-.
    destruct (av_url_split E uri) as [[proto hostname] port].
    left. eexists _, _, _. split; [reflexivity |].
    split; [by rewrite trace_add_trace |]. left. exists eid, r.
    by rewrite h_add_trace. }
  rewrite bind_modify_s. rewrite trace_add_trace, h_add_trace.
  destruct (av_url_split E uri) as [[proto hostname] port].
  destruct (String.eqb proto "srt") eqn:Hproto; cbn [negb].
  2:{ apply String.eqb_neq in Hproto. intros <-. left.
      eexists _, _, [(srt_epoll_create, eid)]. split; [reflexivity |].
      split; [done |]. right. left. exists eid.
      by repeat split; auto. }
  apply String.eqb_eq in Hproto.
  destruct ((port <=? 0) || (65536 <=? port)) eqn:Hport.
  { apply orb_true_iff in Hport as [Hport | Hport]; z_facts.
    all: intros <-; left.
    all: eexists _, _, [(srt_epoll_create, eid)]; split; [reflexivity |].
    all: split; [done |]; right; left; exists eid.
    all: by repeat split; auto. }
  apply orb_false_iff in Hport as [Hp1 Hp2]. z_facts.
  set (s0 := mk_state _ _).
  destruct (setup_timeouts_run uri s0)
    as (s1 & Hprep & Htr1 & Hconn1 & Heid1 & Hmode1).
  rewrite (bind_Some _ _ _ _ _ Hprep), bind_get_s, bind_get_h.
  set (ctx := URLContext.priv_data (h s1)).
  set (node := if String.eqb hostname "" then None else Some hostname).
  set (fl := if SRTMode_eqb (SRTContext.mode ctx) SRT_MODE_LISTENER
             then AI_PASSIVE else 0).
  assert (Hput : exists s2,
    (if 0 <=? SRTContext.rw_timeout ctx then
       put_h (URLContext.set_rw_timeout (SRTContext.rw_timeout ctx) (h s1))
     else Ret tt) s1 = (Some tt, s2)
    /\ trace s2 = trace s1
    /\ same_connection (h s2) (h s1)
    /\ SRTContext.eid (URLContext.priv_data (h s2)) =
       SRTContext.eid (URLContext.priv_data (h s1))
    /\ SRTContext.mode (URLContext.priv_data (h s2)) =
       SRTContext.mode (URLContext.priv_data (h s1))).
  { destruct (0 <=? SRTContext.rw_timeout ctx); eexists;
      (split; [reflexivity |]); by repeat split. }
  destruct Hput as (s2 & Hput & Htr2 & Hconn2 & Heid2 & Hmode2).
  rewrite (bind_Some _ _ _ _ _ Hput). step_call E. rename r into a.
  assert (Htr : trace s2 = trace s ++ [(srt_epoll_create, eid)])
    by (by rewrite Htr2, Htr1).
  assert (Hconn : same_connection (h s2) (h s)).
  { destruct Hconn2 as [Hfd2 Hst2], Hconn1 as [Hfd1 Hst1].
    split; [by rewrite Hfd2, Hfd1 | by rewrite Hst2, Hst1]. }
  assert (Heid' : SRTContext.eid (URLContext.priv_data (h s2)) = eid)
    by (by rewrite Heid2, Heid1).
  assert (Hmode : SRTContext.mode (URLContext.priv_data (h s2)) =
                  SRTContext.mode (URLContext.priv_data (h s)))
    by (by rewrite Hmode2, Hmode1).
  destruct (truthy a) eqn:Ha.
  { apply truthy_true in Ha. intros <-. left.
    eexists _, _, [(srt_epoll_create, eid); (getaddrinfo node port fl, a)].
    split; [reflexivity |].
    split; [by rewrite trace_add_trace, Htr, <- app_assoc |].
    right. right. exists eid, node, fl, a. rewrite h_add_trace.
    split; [done |]. split; [done |]. split; [lia |]. split; [done |].
    split; [done |]. split; [done |]. by split. }
  apply truthy_false in Ha as ->.
  destruct (resolved E node port fl) as [ai ai_rest].
  intros <-. right.
  eexists eid, node, fl, _, ai, ai_rest, _.
  split; [done |]. split; [done |]. split; [lia |].
  split; [reflexivity |].
  split; [by rewrite trace_add_trace, Htr, <- app_assoc |].
  by rewrite h_add_trace.
Qed.

(** Every finished run of [libsrt_setup], by the place where it returns. *)
Lemma setup_run (fuel : nat) (uri : string) (flags : Z) (s : state) :
  exists r s' t,
    libsrt_setup E fuel uri flags s = (r, s')
    /\ trace s' = trace s ++ t
    /\ forall v, r = Some v ->
       let '(proto, hostname, port) := av_url_split E uri in
       (exists eid err,
          eid < 0
          /\ t = [(srt_epoll_create, eid); (srt_getlasterror, err)]
          /\ v = neterrno_of err /\ h s' = h s)
       \/ (exists eid,
             0 <= eid
             /\ (proto <> "srt" \/ port <= 0 \/ 65536 <= port)
             /\ t = [(srt_epoll_create, eid)]
             /\ v = AVERROR EINVAL
             /\ h s' =
                URLContext.set_priv_data
                  (SRTContext.set_eid eid (URLContext.priv_data (h s))) (h s))
       \/ (exists eid node fl a,
             0 <= eid /\ proto = "srt" /\ 0 < port < 65536 /\ a <> 0
             /\ t = [(srt_epoll_create, eid); (getaddrinfo node port fl, a)]
             /\ v = AVERROR EIO
             /\ same_connection (h s') (h s)
             /\ SRTContext.eid (URLContext.priv_data (h s')) = eid)
       \/ (exists eid node fl t' x,
             0 <= eid /\ proto = "srt" /\ 0 < port < 65536
             /\ t = (srt_epoll_create, eid) :: (getaddrinfo node port fl, 0)
                    :: t' ++ [(freeaddrinfo, x)]
             /\ forallb (fun e => candidate_or_close (fst e)) t' = true
             /\ SRTContext.eid (URLContext.priv_data (h s')) = eid
             /\ ((v = 0
                  /\ URLContext.is_streamed (h s') = 1
                  /\ 0 <= SRTContext.fd (URLContext.priv_data (h s')))
                 \/ (v <> 0 /\ same_connection (h s') (h s)))).
Proof.
  pose proof (setup_prefix fuel uri flags s _ eq_refl) as Hpre.
  destruct (av_url_split E uri) as [[proto hostname] port].
  destruct Hpre as [(v & s' & t & Hrun & Htr & Hcase)
    | (eid & node & fl & ot & ai & ai_rest & s3 & Heid & Hproto & Hport
       & Hrun & Htr & Hconn & Hstored & _)].
  { exists (Some v), s', t. split; [done |]. split; [done |].
    intros v' [= <-]. destruct Hcase as [Hc | [Hc | Hc]]; auto. }
  destruct (setup_restart_run E fuel ot ai_rest ai s3)
    as (r & s' & t & Hrun' & Htr' & Hval).
  exists r, s',
    ((srt_epoll_create, eid) :: (getaddrinfo node port fl, 0) :: t).
  split; [by rewrite Hrun |].
  split; [by rewrite Htr', Htr, <- !app_assoc |].
  intros v Hv. destruct (Hval v Hv) as ((t' & x & -> & Hok) & Hh).
  right. right. right. exists eid, node, fl, t', x.
  split; [done |]. split; [done |]. split; [done |]. split; [done |].
  split; [done |].
  destruct Hh as [(-> & fd & Hfd & ->) | (Hv0 & ->)].
  - split; [done |]. left. by repeat split.
  - split; [done |]. by right.
Qed.

Lemma candidate_or_close_no (p : extcall -> bool) (t : list event) :
  (forall c, candidate_or_close c = true -> p c = false) ->
  forallb (fun e => candidate_or_close (fst e)) t = true ->
  calls_of p t = [].
Proof. apply calls_of_none. Qed.

(** X10: a finished [libsrt_setup] frees the address list exactly when
    [getaddrinfo] returned 0, and then exactly once, as its very last call,
    whichever candidate succeeded or failed.  When [getaddrinfo] was not
    called or did not return 0, [freeaddrinfo] is not called and no socket is
    created.  [getaddrinfo] is called at most once. *)
Theorem setup_frees_addresses_once (fuel : nat) (uri : string) (flags : Z)
    (s : state) :
  exists r s' t,
    libsrt_setup E fuel uri flags s = (r, s')
    /\ trace s' = trace s ++ t
    /\ forall v, r = Some v ->
         (calls_of is_freeaddrinfo t = []
          /\ calls_of is_socket t = []
          /\ (length (calls_of is_getaddrinfo t) <= 1)%nat
          /\ forall n p f a, In (getaddrinfo n p f, a) t -> a <> 0)
         \/ (exists t' n p f x,
               t = t' ++ [(freeaddrinfo, x)]
               /\ calls_of is_freeaddrinfo t' = []
               /\ calls_of is_getaddrinfo t' = [(getaddrinfo n p f, 0)]).
Proof.
  destruct (setup_run fuel uri flags s) as (r & s' & t & Hrun & Htr & Hval).
  exists r, s', t. split; [done |]. split; [done |]. intros v Hv.
  specialize (Hval v Hv).
  destruct (av_url_split E uri) as [[proto hostname] port].
  destruct Hval as [(eid & err & _ & -> & _)
    | [(eid & _ & _ & -> & _)
    | [(eid & node & fl & a & _ & _ & _ & Ha & -> & _)
    | (eid & node & fl & t' & x & _ & _ & _ & -> & Hok & _)]]].
  - left. repeat split; [cbn; lia |].
    intros n p f a [Hin | [Hin | []]]; discriminate Hin.
  - left. repeat split; [cbn; lia |].
    intros n p f a [Hin | []]; discriminate Hin.
  - left. repeat split; [cbn; lia |].
    intros n p f a' [Hin | [Hin | []]]; [discriminate Hin |].
    by injection Hin as _ _ _ <-.
  - right.
    exists ((srt_epoll_create, eid) :: (getaddrinfo node port fl, 0) :: t'),
      node, port, fl, x.
    split; [done |]. rewrite !calls_of_cons. cbn [fst is_freeaddrinfo
      is_getaddrinfo app].
    split; (rewrite (candidate_or_close_no _ t'); [done | | done]);
      intros c; unfold candidate_or_close; by destruct c.
Qed.

(** X11: the URL is checked before anything is resolved.  In a finished
    run whose readiness group was created, a scheme other than [srt] or a
    port outside 1..65535 gives [AVERROR(EINVAL)], and [srt_epoll_create] is
    then the only call of the run; and [getaddrinfo] is only ever called for
    the scheme [srt], with the port of the URL, which is in 1..65535. *)
Theorem setup_checks_url_first (fuel : nat) (uri : string) (flags : Z)
    (s : state) :
  exists r s' t,
    libsrt_setup E fuel uri flags s = (r, s')
    /\ trace s' = trace s ++ t
    /\ forall v, r = Some v ->
       let '(proto, hostname, port) := av_url_split E uri in
       (forall eid,
          In (srt_epoll_create, eid) t -> 0 <= eid ->
          proto <> "srt" \/ port <= 0 \/ 65536 <= port ->
          v = AVERROR EINVAL /\ t = [(srt_epoll_create, eid)])
       /\ (forall n p f a,
             In (getaddrinfo n p f, a) t ->
             proto = "srt" /\ p = port /\ 0 < port < 65536).
Proof.
  destruct (setup_run fuel uri flags s) as (r & s' & t & Hrun & Htr & Hval).
  exists r, s', t. split; [done |]. split; [done |]. intros v Hv.
  specialize (Hval v Hv).
  destruct (av_url_split E uri) as [[proto hostname] port].
  destruct Hval as [(eid & err & Heid & -> & _)
    | [(eid & _ & _ & -> & -> & _)
    | [(eid & node & fl & a & _ & Hproto & Hport & Ha & -> & _)
    | (eid & node & fl & t' & x & _ & Hproto & Hport & -> & Hok & _)]]].
  - split.
    + intros eid' [Hin | [Hin | []]] Hpos; [| discriminate Hin].
      injection Hin as ->. lia.
    + intros n p f a [Hin | [Hin | []]]; discriminate Hin.
  - split.
    + intros eid' [Hin | []] _ _. by injection Hin as ->.
    + intros n p f a [Hin | []]; discriminate Hin.
  - split.
    + intros eid' _ _ [Hbad | Hbad]; [done | lia].
    + intros n p f a' [Hin | [Hin | []]]; [discriminate Hin |].
      by injection Hin as _ <- _ _.
  - split.
    + intros eid' _ _ [Hbad | Hbad]; [done | lia].
    + intros n p f a' [Hin | [Hin | Hin]]; [discriminate Hin | |].
      * by injection Hin as _ <- _ _.
      * apply in_app_or in Hin as [Hin | [Hin | []]]; [| discriminate Hin].
        rewrite forallb_forall in Hok. by apply Hok in Hin.
Qed.

(** X12: what a finished [libsrt_setup] leaves in the handle.  When it
    returns 0 the run went past the resolution of the address and ended
    with [freeaddrinfo], the handle is streamed and holds a socket that is
    not negative, and [libsrt_get_file_handle] returns that socket; when it
    returns anything else the socket and the streamed flag of the handle are
    as before.  The group of [srt_epoll_create] is stored in the handle
    whenever it was created, whatever the result.  (The result 0 says
    nothing about [srt_connect]: the post-options are reached whenever
    [libsrt_listen_connect] returns a value that is not negative.) *)
Theorem setup_result_and_handle (fuel : nat) (uri : string) (flags : Z)
    (s : state) :
  exists r s',
    libsrt_setup E fuel uri flags s = (r, s')
    /\ forall v, r = Some v ->
       exists eid rest,
         trace s' = trace s ++ (srt_epoll_create, eid) :: rest
         /\ (0 <= eid -> SRTContext.eid (URLContext.priv_data (h s')) = eid)
         /\ (eid < 0 -> h s' = h s /\ v < 0)
         /\ (v = 0 ->
             URLContext.is_streamed (h s') = 1
             /\ 0 <= SRTContext.fd (URLContext.priv_data (h s'))
             /\ libsrt_get_file_handle s' =
                (Some (SRTContext.fd (URLContext.priv_data (h s'))), s')
             /\ exists node port fl t' x,
                  rest = (getaddrinfo node port fl, 0)
                         :: t' ++ [(freeaddrinfo, x)])
         /\ (v <> 0 -> same_connection (h s') (h s)).
Proof.
  destruct (setup_run fuel uri flags s) as (r & s' & t & Hrun & Htr & Hval).
  exists r, s'. split; [done |]. intros v Hv. specialize (Hval v Hv).
  destruct (av_url_split E uri) as [[proto hostname] port].
  destruct Hval as [(eid & err & Heid & -> & -> & Hh)
    | [(eid & Heid & _ & -> & -> & Hh)
    | [(eid & node & fl & a & Heid & _ & _ & _ & -> & -> & Hconn & Hstored)
    | (eid & node & fl & t' & x & Heid & _ & _ & -> & _ & Hstored & Hres)]]].
  - exists eid, [(srt_getlasterror, err)]. split; [done |].
    pose proof (neterrno_of_neg err) as Hneg.
    split; [lia |]. split; [done |]. split; [lia |].
    intros _. by rewrite Hh.
  - exists eid, []. split; [done |]. rewrite Hh.
    split; [done |]. split; [lia |]. split; [done |]. by intros _.
  - exists eid, [(getaddrinfo node port fl, a)]. split; [done |].
    split; [done |]. split; [lia |]. split; [done |]. by intros _.
  - exists eid, ((getaddrinfo node port fl, 0) :: t' ++ [(freeaddrinfo, x)]).
    split; [done |]. split; [done |]. split; [lia |].
    destruct Hres as [(-> & Hst & Hfd) | (Hv0 & Hconn)].
    + split; [| done]. intros _. split; [done |]. split; [done |].
      split; [done |]. by exists node, port, fl, t', x.
    + split; [done |]. by intros _.
Qed.

End Setup.

(** ** The calls of open *)

Section CallsOfOpen.

Variable E : env.

Lemma performs_mono {A : Type} (ok ok' : extcall -> bool) (m : M A) :
  (forall c, ok c = true -> ok' c = true) ->
  performs ok m -> performs ok' m.
Proof.
  intros Hsub Hm s. destruct (Hm s) as (t & Ht & Hok). exists t.
  split; [done |]. rewrite forallb_forall in *. intros e He.
  by apply Hsub, Hok.
Qed.

Lemma performs_call (ok : extcall -> bool) (c : extcall) :
  ok c = true -> performs ok (ext E c).
Proof.
  intros Hc s. exists [(c, respond E (trace s) c)].
  split; [reflexivity | cbn; by rewrite Hc].
Qed.

Lemma performs_quiet {A : Type} (ok : extcall -> bool) (m : M A) :
  (forall s, trace (snd (m s)) = trace s) -> performs ok m.
Proof. intros Hm s. exists []. by rewrite Hm, app_nil_r. Qed.

Lemma performs_parse_tag (ok : extcall -> bool) (tag p : string)
  (conv : string -> Z) (set : Z -> SRTContext.t -> SRTContext.t) :
  performs ok (parse_tag E tag p conv set).
Proof.
  unfold parse_tag.
  destruct (av_find_info_tag E tag p); by apply performs_quiet.
Qed.

Ltac calls_step :=
  first
    [ apply performs_Ret
    | apply performs_out_of_fuel
    | apply performs_parse_tag
    | apply performs_call; reflexivity
    | apply performs_quiet; reflexivity
    | apply performs_if
    | apply performs_bind; [| intros ?]
    | match goal with
      | |- performs _ (match ?x with _ => _ end) => destruct x
      end ].

Lemma setup_calls_restart (fuel : nat) (open_timeout : Z)
  (cur_ai : addrinfo) (next : list addrinfo) :
  performs setup_call (setup_restart E fuel open_timeout cur_ai next).
Proof.
  revert cur_ai. induction next as [| ai_next rest IH]; intros cur_ai;
    cbn [setup_restart];
    (apply performs_bind;
     [ apply only_calls_performs, (only_calls_mono candidate_call);
       [by intros [] | apply only_calls_setup_candidate]
     | intros j ]);
    unfold setup_fail1; repeat first [apply IH | calls_step].
Qed.

Lemma setup_calls (fuel : nat) (uri : string) (flags : Z) :
  performs setup_call (libsrt_setup E fuel uri flags).
Proof.
  unfold libsrt_setup, libsrt_neterrno.
  repeat first [apply setup_calls_restart | calls_step].
Qed.

Lemma open_options_calls (p : string) :
  performs setup_call (open_options E p).
Proof. unfold open_options. repeat calls_step. Qed.

(** X13: [libsrt_open] starts the library first and exactly once, and calls
    nothing more when that fails, returning [AVERROR_UNKNOWN].  Whatever
    happens afterwards, in a run that returns or not, it makes only the
    calls of setup: never [srt_cleanup], [srt_epoll_release], [srt_recvmsg]
    or [srt_sendmsg], so a failed open leaves the library started. *)
Theorem open_starts_library_once (fuel : nat) (uri : string) (flags : Z)
    (s : state) :
  exists r0 rest,
    trace (snd (libsrt_open E fuel uri flags s)) =
      trace s ++ (srt_startup, r0) :: rest
    /\ forallb (fun e => setup_call (fst e)) rest = true
    /\ (r0 < 0 ->
        rest = []
        /\ fst (libsrt_open E fuel uri flags s) = Some AVERROR_UNKNOWN).
Proof.
  unfold libsrt_open. rewrite bind_ext.
  set (r0 := respond E (trace s) srt_startup).
  destruct (r0 <? 0) eqn:Hr0; z_facts.
  { exists r0, []. unfold Ret. cbn [fst snd]. by rewrite trace_add_trace. }
  match goal with
  | |- context [bind ?m ?k (add_trace s ?t0)] =>
    assert (performs setup_call (bind m k)) as Hk
  end.
  { apply performs_bind.
    - destruct (strchr uri "?");
        [apply open_options_calls | apply performs_Ret].
    - intros [e |]; [apply performs_Ret | apply setup_calls]. }
  destruct (Hk (add_trace s [(srt_startup, r0)])) as (t & Ht & Hok).
  exists r0, t. rewrite Ht, trace_add_trace, <- app_assoc.
  split; [done |]. split; [done |]. lia.
Qed.

End CallsOfOpen.

(** ** The sockets of setup *)

Lemma add_trace_inj (s : state) (t t' : list event) :
  add_trace s t = add_trace s t' -> t = t'.
Proof.
  intros Heq. apply (f_equal trace) in Heq. rewrite !trace_add_trace in Heq.
  by apply app_inv_head in Heq.
Qed.

Lemma connect_calls_keep_sockets (t : list event) (g : gset Z) :
  forallb (fun e => connect_call (fst e)) t = true ->
  fold_left apply_socket t g = g.
Proof.
  revert g. induction t as [| [c v] t IH]; intros g; [done |].
  cbn [forallb fst]. intros [Hc Ht]%andb_prop. cbn [fold_left].
  assert (apply_socket g (c, v) = g) as -> by (by destruct c).
  by apply IH.
Qed.

Lemma free_keeps_sockets (r : Z) (g : gset Z) :
  fold_left apply_socket [(freeaddrinfo, r)] g = g.
Proof. reflexivity. Qed.

Lemma fold_socket_app (t1 t2 : list event) (g : gset Z) :
  fold_left apply_socket (t1 ++ t2) g =
    fold_left apply_socket t2 (fold_left apply_socket t1 g).
Proof. apply fold_left_app. Qed.

Section Sockets.

Variable E : env.

Lemma wait_call_connect (eid fd write : Z) (c : extcall) :
  wait_call eid fd write c = true -> connect_call c = true.
Proof. by destruct c. Qed.

Ltac connect_step :=
  first
    [ match goal with
      | |- only_calls _ (wait_fd_timeout_loop _ _ ?eid ?fd ?w _ _) =>
        apply (only_calls_mono _ _ _ (wait_call_connect eid fd w)),
          only_calls_wait_loop
      end
    | only_calls_step ].

Lemma connect_calls_listen_connect_loop (fuel : nat)
  (eid fd addr timeout : Z) (will_try_next : bool) :
  only_calls connect_call
    (listen_connect_loop E fuel eid fd addr timeout will_try_next).
Proof.
  induction fuel as [| n IH]; cbn [listen_connect_loop];
    unfold libsrt_network_wait_fd_timeout, libsrt_neterrno;
    repeat first [apply IH | connect_step].
Qed.

Lemma connect_calls_options_pre (fd : Z) :
  only_calls connect_call (libsrt_set_options_pre E fd).
Proof.
  unfold libsrt_set_options_pre, libsrt_setsockopt, and_fails, or_else.
  repeat only_calls_step.
Qed.

Lemma connect_calls_options_post (fd : Z) :
  only_calls connect_call (libsrt_set_options_post E fd).
Proof.
  unfold libsrt_set_options_post, libsrt_setsockopt, and_fails, or_else.
  repeat only_calls_step.
Qed.

(** [setup_socket] always returns; its first call creates the socket that
    its value or its jump carries, and no other call creates or closes
    one. *)
Lemma setup_socket_run (cur_ai : addrinfo) (s : state) :
  exists sfd r rest,
    setup_socket E cur_ai s =
      (Some r,
       add_trace s
         ((srt_socket (ai_family cur_ai) (ai_socktype cur_ai) 0, sfd) :: rest))
    /\ forallb (fun e => connect_call (fst e)) rest = true
    /\ ((r = inr sfd /\ 0 <= sfd)
        \/ exists ret, r = inl (goto_fail ret sfd) /\ ret < 0).
Proof.
  unfold setup_socket. step_call E. rename r into sfd.
  destruct (sfd <? 0) eqn:Hsfd; z_facts.
  { step_call E. exists sfd, (inl (goto_fail (neterrno_of r) sfd)),
      [(srt_getlasterror, r)].
    split; [done |]. split; [done |]. right. eexists. split; [done |].
    apply neterrno_of_neg. }
  set (s1 := add_trace s _).
  destruct (emits_set_options_pre E sfd s1) as (ret & t & Hpre & _).
  destruct (connect_calls_options_pre sfd s1) as (t1 & Ht1 & Hok1).
  rewrite Hpre in Ht1. cbn [snd] in Ht1. apply add_trace_inj in Ht1 as ->.
  rewrite (bind_Some _ _ _ _ _ Hpre). unfold s1. rewrite add_trace_app.
  cbn [app].
  destruct (ret <? 0) eqn:Hret; z_facts.
  { exists sfd, (inl (goto_fail ret sfd)), t1. split; [done |].
    split; [done |]. right. by exists ret. }
  rewrite bind_get_s.
  destruct (0 <? SRTContext.recv_buffer_size _);
    destruct (0 <? SRTContext.send_buffer_size _);
    rewrite ?bind_Ret; repeat step_call E; rewrite ?bind_Ret.
  - exists sfd, (inr sfd), (t1 ++ [(srt_setsockopt sfd SOL_SOCKET
      SRTO_UDP_RCVBUF (OptInt (SRTContext.recv_buffer_size
        (URLContext.priv_data (h s)))), r);
      (srt_setsockopt sfd SOL_SOCKET SRTO_UDP_SNDBUF
        (OptInt (SRTContext.send_buffer_size
           (URLContext.priv_data (h s)))), r0)]).
    rewrite <- ?app_assoc. split; [done |].
    split; [by rewrite forallb_app, Hok1 | by left].
  - exists sfd, (inr sfd), (t1 ++ [(srt_setsockopt sfd SOL_SOCKET
      SRTO_UDP_RCVBUF (OptInt (SRTContext.recv_buffer_size
        (URLContext.priv_data (h s)))), r)]).
    rewrite <- ?app_assoc. split; [done |].
    split; [by rewrite forallb_app, Hok1 | by left].
  - exists sfd, (inr sfd), (t1 ++ [(srt_setsockopt sfd SOL_SOCKET
      SRTO_UDP_SNDBUF (OptInt (SRTContext.send_buffer_size
        (URLContext.priv_data (h s)))), r)]).
    rewrite <- ?app_assoc. split; [done |].
    split; [by rewrite forallb_app, Hok1 | by left].
  - exists sfd, (inr sfd), t1. split; [done |]. split; [done | by left].
Qed.

Lemma SRTMode_eqb_eq (a b : SRTMode) : SRTMode_eqb a b = true -> a = b.
Proof. by destruct a, b. Qed.

Lemma SRTMode_eqb_refl (a : SRTMode) : SRTMode_eqb a a = true.
Proof. by destruct a. Qed.

(** Outside listener mode the steps after the creation of the socket leave
    with that socket, and neither create nor close one. *)
Lemma setup_connect_caller (fuel : nat) (open_timeout : Z) (cur_ai : addrinfo)
  (has_next : bool) (fd : Z) (s : state) :
  SRTContext.mode (URLContext.priv_data (h s)) <> SRT_MODE_LISTENER ->
  exists r rest,
    setup_connect E fuel open_timeout cur_ai has_next fd s =
      (r, add_trace s rest)
    /\ forallb (fun e => connect_call (fst e)) rest = true
    /\ forall j, r = Some j -> jump_fd j = fd.
Proof.
  intros Hmode. unfold setup_connect. rewrite bind_get_s.
  destruct (SRTMode_eqb _ SRT_MODE_LISTENER) eqn:Hm.
  { by apply SRTMode_eqb_eq in Hm. }
  match goal with |- context [bind ?m ?k s] => set (body := bind m k) end.
  assert (Hcalls : only_calls connect_call body).
  { unfold body, libsrt_listen_connect, libsrt_socket_nonblock, setup_post.
    repeat first [ apply connect_calls_listen_connect_loop
                 | apply connect_calls_options_post | only_calls_step ]. }
  assert (Hfd : forall j s', body s = (Some j, s') -> jump_fd j = fd).
  { intros j s'. unfold body. bind_cases Hb; [| discriminate].
    destruct (truthy _); [by intros [= <- _] |].
    bind_cases Hc; [| discriminate].
    destruct (_ <? 0).
    - destruct (_ =? AVERROR_EXIT); by intros [= <- _].
    - unfold setup_post. bind_cases Hp; [| discriminate].
      destruct (_ <? 0); by intros [= <- _]. }
  destruct (Hcalls s) as (rest & Hsnd & Hok).
  exists (fst (body s)), rest.
  split; [rewrite <- Hsnd; by destruct (body s) |]. split; [done |].
  intros j Hj. apply (Hfd j (snd (body s))). rewrite <- Hj.
  by destruct (body s).
Qed.

Lemma setup_candidate_caller (fuel : nat) (open_timeout : Z)
  (cur_ai : addrinfo) (has_next : bool) (s : state) :
  SRTContext.mode (URLContext.priv_data (h s)) <> SRT_MODE_LISTENER ->
  exists r sfd rest,
    setup_candidate E fuel open_timeout cur_ai has_next s =
      (r,
       add_trace s
         ((srt_socket (ai_family cur_ai) (ai_socktype cur_ai) 0, sfd) :: rest))
    /\ forallb (fun e => connect_call (fst e)) rest = true
    /\ forall j, r = Some j -> jump_fd j = sfd /\ jump_sound j.
Proof.
  intros Hmode. unfold setup_candidate.
  destruct (setup_socket_run cur_ai s) as (sfd & x & rest & Hrun & Hok & Hx).
  rewrite (bind_Some _ _ _ _ _ Hrun).
  destruct Hx as [[-> Hsfd] | (ret & -> & Hret)].
  - match goal with
    | |- context [setup_connect E fuel open_timeout cur_ai has_next sfd ?s1] =>
      destruct (setup_connect_caller fuel open_timeout cur_ai has_next sfd s1
                  Hmode) as (r & rest2 & Hrun2 & Hok2 & Hj)
    end.
    exists r, sfd, (rest ++ rest2). rewrite Hrun2, add_trace_app.
    split; [done |]. split; [by rewrite forallb_app, Hok, Hok2 |].
    intros j ->. split; [by apply Hj |].
    by apply (setup_connect_jump E _ _ _ _ _ _ _ _ Hsfd Hrun2).
  - exists (Some (goto_fail ret sfd)), sfd, rest. split; [done |].
    split; [done |]. by intros j [= <-].
Qed.

Lemma close_if_run {B : Type} (fd : Z) (k : Z -> M B) (s : state) :
  exists x y,
    bind (if 0 <=? fd then ext E (srt_close fd) else Ret 0) k s =
      k y (add_trace s (if 0 <=? fd then [(srt_close fd, x)] else [])).
Proof.
  destruct (0 <=? fd).
  - rewrite bind_ext. by eexists _, _.
  - rewrite bind_Ret, add_trace_nil. by exists 0, 0.
Qed.

(** A candidate that was given up leaves no socket behind. *)
Lemma candidate_closed (af ty sfd x : Z) (rest : list event) (g : gset Z) :
  forallb (fun e => connect_call (fst e)) rest = true ->
  fold_left apply_socket
    ((srt_socket af ty 0, sfd) :: rest ++
     (if 0 <=? sfd then [(srt_close sfd, x)] else [])) g ⊆ g.
Proof.
  intros Hok. rewrite app_comm_cons, fold_socket_app. cbn [fold_left].
  rewrite (connect_calls_keep_sockets rest _ Hok). cbn [apply_socket].
  destruct (0 <=? sfd); cbn [fold_left apply_socket]; [| done].
  intros y [Hy Hn]%elem_of_difference.
  by apply elem_of_union in Hy as [Hy | Hy].
Qed.

(** The candidate that connected: the handle takes its socket. *)
Ltac connected_case rest Hok :=
  rewrite bind_get_h, bind_put_h, bind_modify_s; step_call E;
  eexists (Some 0), _, _; split; [reflexivity |];
  split;
  [ rewrite trace_add_trace; cbn [trace];
    by rewrite trace_add_trace, <- app_assoc
  | intros v [= <-] g;
    cbn [Z.eqb h URLContext.priv_data URLContext.set_priv_data
         SRTContext.fd SRTContext.set_fd];
    rewrite fold_socket_app; cbn [fold_left];
    rewrite (connect_calls_keep_sockets rest _ Hok);
    cbn [apply_socket fold_left];
    match goal with |- context [0 <=? ?fd] => destruct (0 <=? fd) end;
    [done | apply union_subseteq_l] ].

(** The candidate that connected: its socket is live. *)
Ltac stored_case rest Hok Hs :=
  rewrite bind_get_h, bind_put_h, bind_modify_s, bind_ext;
  intros [= <-]; eexists; split;
  [ rewrite trace_add_trace; cbn [trace]; rewrite <- app_assoc; reflexivity
  | intros g; rewrite h_add_trace;
    cbn [h URLContext.priv_data URLContext.set_priv_data
         SRTContext.fd SRTContext.set_fd];
    rewrite fold_socket_app; cbn [fold_left];
    rewrite (connect_calls_keep_sockets rest _ Hok);
    cbn [apply_socket fold_left];
    apply Z.leb_le in Hs as ->;
    apply elem_of_union_r; by apply elem_of_singleton ].

(** The candidate that leaves through [fail1]: its socket is closed. *)
Ltac failed_case s sfd ret rest Hok :=
  unfold setup_fail1;
  match goal with
  | |- context [bind _ ?k (add_trace s ?tc)] =>
    let x := fresh "x" in
    let y := fresh "y" in
    destruct (close_if_run sfd k (add_trace s tc)) as (x & y & ->)
  end;
  rewrite add_trace_app; step_call E;
  eexists (Some ret), _, _; split; [reflexivity |];
  split; [by rewrite trace_add_trace |];
  let v := fresh "v" in
  let g := fresh "g" in
  intros v [= <-] g;
  assert ((ret =? 0) = false) as -> by (apply Z.eqb_neq; lia);
  rewrite app_comm_cons, fold_socket_app, free_keeps_sockets;
  by apply candidate_closed.

(** Outside listener mode the candidate loop leaves at most the socket it
    stored in the handle. *)
Lemma setup_restart_sockets (fuel : nat) (open_timeout : Z)
  (next : list addrinfo) (cur_ai : addrinfo) (s : state) :
  SRTContext.mode (URLContext.priv_data (h s)) <> SRT_MODE_LISTENER ->
  exists r s' t,
    setup_restart E fuel open_timeout cur_ai next s = (r, s')
    /\ trace s' = trace s ++ t
    /\ forall v, r = Some v ->
       forall g,
         fold_left apply_socket t g ⊆
           (if v =? 0
            then g ∪ {[SRTContext.fd (URLContext.priv_data (h s'))]}
            else g).
Proof.
  revert cur_ai s. induction next as [| ai_next rest' IH]; intros cur_ai s Hmode;
    rewrite setup_restart_unfold;
    match goal with
    | |- context [setup_candidate E fuel open_timeout cur_ai ?b] =>
      destruct (setup_candidate_caller fuel open_timeout cur_ai b s Hmode)
        as (rc & sfd & rest & Hc & Hok & Hj)
    end;
    (destruct rc as [j |];
     [ rewrite (bind_Some _ _ _ _ _ Hc); destruct (Hj j eq_refl) as [Hfd Hs];
       clear Hj
     | rewrite (bind_None _ _ _ _ Hc); eexists None, _, _;
       split; [reflexivity |]; split; [by rewrite trace_add_trace | done] ]);
    (destruct j as [fd | ret fd | ret fd]; cbn [jump_fd jump_sound] in *;
     subst fd).
  - connected_case rest Hok.
  - failed_case s sfd ret rest Hok.
  - failed_case s sfd ret rest Hok.
  - connected_case rest Hok.
  - match goal with
    | |- context [bind _ ?k (add_trace s ?tc)] =>
      destruct (close_if_run sfd k (add_trace s tc)) as (x & y & ->)
    end.
    rewrite add_trace_app.
    match goal with
    | |- context [setup_restart E fuel open_timeout ai_next rest' ?s1] =>
      destruct (IH ai_next s1 Hmode) as (r & s' & t & Hrun & Htr & Hval)
    end.
    exists r, s',
      (((srt_socket (ai_family cur_ai) (ai_socktype cur_ai) 0, sfd) :: rest
        ++ (if 0 <=? sfd then [(srt_close sfd, x)] else [])) ++ t).
    split; [done |].
    split; [by rewrite Htr, trace_add_trace, <- app_assoc |].
    intros v Hv g. rewrite fold_socket_app.
    pose proof (candidate_closed (ai_family cur_ai) (ai_socktype cur_ai)
                  sfd x rest g Hok) as Hclosed.
    specialize (Hval v Hv (fold_left apply_socket
      ((srt_socket (ai_family cur_ai) (ai_socktype cur_ai) 0, sfd) :: rest
       ++ (if 0 <=? sfd then [(srt_close sfd, x)] else [])) g)).
    destruct (v =? 0); (etrans; [apply Hval |]);
      [by apply union_mono_r | done].
  - failed_case s sfd ret rest Hok.
Qed.

(** Outside listener mode the calls of a finished [libsrt_setup] add at
    most the stored socket to any set of live sockets. *)
Lemma setup_sockets (fuel : nat) (uri : string) (flags : Z) (s : state) :
  SRTContext.mode (URLContext.priv_data (h s)) <> SRT_MODE_LISTENER ->
  exists r s' t,
    libsrt_setup E fuel uri flags s = (r, s')
    /\ trace s' = trace s ++ t
    /\ forall v, r = Some v ->
       forall g,
         fold_left apply_socket t g ⊆
           (if v =? 0
            then g ∪ {[SRTContext.fd (URLContext.priv_data (h s'))]}
            else g).
Proof.
  intros Hmode.
  pose proof (setup_prefix E fuel uri flags s _ eq_refl) as Hpre.
  destruct (av_url_split E uri) as [[proto hostname] port].
  destruct Hpre as [(v & s' & t & Hrun & Htr & Hcase)
    | (eid & node & fl & ot & ai & ai_rest & s3 & Heid & Hproto & Hport
       & Hrun & Htr & Hconn & Hstored & Hmode3)].
  { exists (Some v), s', t. split; [done |]. split; [done |].
    intros v' [= <-] g.
    destruct Hcase as [(eid & err & _ & -> & -> & _)
      | [(eid & _ & _ & -> & -> & _)
      | (eid & node & fl & a & _ & _ & _ & _ & -> & -> & _)]];
      cbn [fold_left apply_socket]; [| done | done].
    pose proof (neterrno_of_neg err) as Hneg.
    by assert ((neterrno_of err =? 0) = false) as ->
      by (apply Z.eqb_neq; lia). }
  rewrite <- Hmode3 in Hmode.
  destruct (setup_restart_sockets fuel ot ai_rest ai s3 Hmode)
    as (r & s' & t & Hrun' & Htr' & Hval).
  exists r, s',
    ([(srt_epoll_create, eid); (getaddrinfo node port fl, 0)] ++ t).
  split; [by rewrite Hrun |].
  split; [by rewrite Htr', Htr, <- app_assoc |].
  intros v Hv g. rewrite fold_left_app. cbn [fold_left apply_socket].
  by apply Hval.
Qed.

(** Outside listener mode the socket that the candidate loop stores when
    it returns 0 was created in the loop and not closed since. *)
Lemma setup_restart_stored (fuel : nat) (open_timeout : Z)
  (next : list addrinfo) (cur_ai : addrinfo) (s s' : state) :
  SRTContext.mode (URLContext.priv_data (h s)) <> SRT_MODE_LISTENER ->
  setup_restart E fuel open_timeout cur_ai next s = (Some 0, s') ->
  exists t,
    trace s' = trace s ++ t
    /\ forall g,
         SRTContext.fd (URLContext.priv_data (h s'))
         ∈ fold_left apply_socket t g.
Proof.
  revert cur_ai s. induction next as [| ai_next rest' IH]; intros cur_ai s Hmode;
    rewrite setup_restart_unfold;
    match goal with
    | |- context [setup_candidate E fuel open_timeout cur_ai ?b] =>
      destruct (setup_candidate_caller fuel open_timeout cur_ai b s Hmode)
        as (rc & sfd & rest & Hc & Hok & Hj)
    end;
    (destruct rc as [j |];
     [ rewrite (bind_Some _ _ _ _ _ Hc); destruct (Hj j eq_refl) as [Hfd Hs];
       clear Hj
     | rewrite (bind_None _ _ _ _ Hc); discriminate ]);
    (destruct j as [fd | ret fd | ret fd]; cbn [jump_fd jump_sound] in *;
     subst fd).
  - stored_case rest Hok Hs.
  - destruct (setup_fail1_run E ret sfd
                (add_trace s ((srt_socket (ai_family cur_ai)
                                 (ai_socktype cur_ai) 0, sfd) :: rest)))
      as (t' & x & -> & _).
    intros [= Hret _]. lia.
  - destruct (setup_fail1_run E ret sfd
                (add_trace s ((srt_socket (ai_family cur_ai)
                                 (ai_socktype cur_ai) 0, sfd) :: rest)))
      as (t' & x & -> & _).
    intros [= Hret _]. lia.
  - stored_case rest Hok Hs.
  - match goal with
    | |- context [bind _ ?k (add_trace s ?tc)] =>
      destruct (close_if_run sfd k (add_trace s tc)) as (x & y & ->)
    end.
    rewrite add_trace_app. intros Hrun.
    apply IH in Hrun as (t & Htr & Hin); [| done].
    exists (((srt_socket (ai_family cur_ai) (ai_socktype cur_ai) 0, sfd)
             :: rest ++ (if 0 <=? sfd then [(srt_close sfd, x)] else []))
            ++ t).
    split; [by rewrite Htr, trace_add_trace, <- app_assoc |].
    intros g. rewrite fold_socket_app. apply Hin.
  - destruct (setup_fail1_run E ret sfd
                (add_trace s ((srt_socket (ai_family cur_ai)
                                 (ai_socktype cur_ai) 0, sfd) :: rest)))
      as (t' & x & -> & _).
    intros [= Hret _]. lia.
Qed.

(** Outside listener mode the socket that [libsrt_setup] stores when it
    returns 0 is live. *)
Lemma setup_stored_live (fuel : nat) (uri : string) (flags : Z)
  (s s' : state) :
  SRTContext.mode (URLContext.priv_data (h s)) <> SRT_MODE_LISTENER ->
  libsrt_setup E fuel uri flags s = (Some 0, s') ->
  SRTContext.fd (URLContext.priv_data (h s')) ∈ live_sockets (trace s').
Proof.
  intros Hmode Hrun.
  pose proof (setup_prefix E fuel uri flags s _ Hrun) as Hpre.
  destruct (av_url_split E uri) as [[proto hostname] port].
  destruct Hpre as [(v & s0 & t & [= <- <-] & Htr & Hcase)
    | (eid & node & fl & ot & ai & ai_rest & s3 & Heid & Hproto & Hport
       & Hrun' & Htr & Hconn & Hstored & Hmode3)].
  { pose proof neterrno_of_neg as Hneg.
    destruct Hcase as [(eid & err & _ & _ & Hv & _)
      | [(eid & _ & _ & _ & Hv & _)
      | (eid & node & fl & a & _ & _ & _ & _ & _ & Hv & _)]];
      [specialize (Hneg err); lia | done | done]. }
  rewrite <- Hmode3 in Hmode. symmetry in Hrun'.
  destruct (setup_restart_stored _ _ _ _ _ _ Hmode Hrun') as (t & Htr' & Hin).
  unfold live_sockets. rewrite Htr', fold_left_app. apply Hin.
Qed.

(** X14: outside listener mode a finished [libsrt_setup] leaves no socket
    behind but the one it stored in the handle: each socket it created for a
    candidate it gave up is closed again.  When it returns 0 the stored
    socket is live and every other live socket was live before setup; when
    it fails every live socket was live before setup. *)
Theorem setup_leaks_no_socket (fuel : nat) (uri : string) (flags : Z)
    (s : state) :
  SRTContext.mode (URLContext.priv_data (h s)) <> SRT_MODE_LISTENER ->
  exists r s',
    libsrt_setup E fuel uri flags s = (r, s')
    /\ forall v, r = Some v ->
         live_sockets (trace s') ⊆
           (if v =? 0
            then live_sockets (trace s)
                 ∪ {[SRTContext.fd (URLContext.priv_data (h s'))]}
            else live_sockets (trace s))
         /\ (v = 0 ->
             SRTContext.fd (URLContext.priv_data (h s'))
             ∈ live_sockets (trace s')).
Proof.
  intros Hmode.
  destruct (setup_sockets fuel uri flags s Hmode)
    as (r & s' & t & Hrun & Htr & Hval).
  exists r, s'. split; [done |]. intros v Hv. split.
  - unfold live_sockets. rewrite Htr, fold_left_app. by apply Hval.
  - intros ->. subst r. by apply (setup_stored_live fuel uri flags s).
Qed.

End Sockets.

(** Caller mode on the transport that is ready: setup returns 0, socket 5,
    which the handle holds, is live, and no other socket is. *)
Lemma setup_leaks_no_socket_witness :
  let E := scenario always_ready (candidate_a, [candidate_b]) "srt" 9000 [] in
  SRTContext.mode (URLContext.priv_data (h fresh_state)) <> SRT_MODE_LISTENER
  /\ fst (libsrt_setup E 5 "srt://host:9000" 0 fresh_state) = Some 0
  /\ exists r s',
       libsrt_setup E 5 "srt://host:9000" 0 fresh_state = (r, s')
       /\ forall v, r = Some v ->
            live_sockets (trace s') ⊆
              (if v =? 0
               then live_sockets (trace fresh_state)
                    ∪ {[SRTContext.fd (URLContext.priv_data (h s'))]}
               else live_sockets (trace fresh_state))
            /\ (v = 0 ->
                SRTContext.fd (URLContext.priv_data (h s'))
                ∈ live_sockets (trace s')).
Proof.
  intros E. split; [done |]. split; [reflexivity |].
  apply (setup_leaks_no_socket E 5 "srt://host:9000" 0 fresh_state). done.
Defined.

(** ** Setup followed by close *)

Lemma candidates_keep_groups (t : list event) (g : gset Z) :
  forallb (fun e => candidate_or_close (fst e)) t = true ->
  fold_left apply_group t g = g.
Proof.
  revert g. induction t as [| [c v] t IH]; intros g; [done |].
  cbn [forallb fst]. intros [Hc Ht]%andb_prop. cbn [fold_left].
  assert (apply_group g (c, v) = g) as -> by (by destruct c).
  by apply IH.
Qed.

Lemma sockets_kept (t : list event) (g : gset Z) (x : Z) :
  forallb (fun e => negb (is_close (fst e))) t = true ->
  x ∈ g -> x ∈ fold_left apply_socket t g.
Proof.
  revert g. induction t as [| [c v] t IH]; intros g; [done |].
  cbn [forallb fst]. intros [Hc Ht]%andb_prop Hx. cbn [fold_left].
  apply IH; [done |]. destruct c; try done; cbn [apply_socket].
  all: destruct (0 <=? v); [by apply elem_of_union_l | done].
Qed.

Lemma connect_call_candidate (c : extcall) :
  connect_call c = true -> candidate_call c = true.
Proof. unfold connect_call. by intros [[Hc _]%andb_prop _]%andb_prop. Qed.

Lemma candidate_call_not_close (t : list event) :
  forallb (fun e => candidate_call (fst e)) t = true ->
  forallb (fun e => negb (is_close (fst e))) t = true.
Proof.
  rewrite !forallb_forall. intros Hok e He. specialize (Hok e He).
  by destruct (fst e).
Qed.

Section SetupAndClose.

Variable E : env.

Lemma close_run (s : state) :
  exists x1 x2 x3,
    libsrt_close E s =
      (Some 0,
       add_trace s
         [(srt_close (SRTContext.fd (URLContext.priv_data (h s))), x1);
          (srt_epoll_release (SRTContext.eid (URLContext.priv_data (h s))),
           x2);
          (srt_cleanup, x3)]).
Proof.
  unfold libsrt_close. rewrite bind_get_s. do 3 step_call E.
  by exists r, r0, r1.
Qed.

(** X15: setup and close as a round trip.  Outside listener mode, when
    [libsrt_setup] has returned 0, [libsrt_close] closes the socket and
    releases the group that setup stored, then calls [srt_cleanup] and
    returns 0; afterwards no socket and no readiness group is live that was
    not live before setup. *)
Theorem close_after_setup_returns_resources (fuel : nat) (uri : string)
    (flags : Z) (s : state) :
  SRTContext.mode (URLContext.priv_data (h s)) <> SRT_MODE_LISTENER ->
  exists r s',
    libsrt_setup E fuel uri flags s = (r, s')
    /\ (r = Some 0 ->
        exists x1 x2 x3,
          libsrt_close E s' =
            (Some 0,
             add_trace s'
               [(srt_close (SRTContext.fd (URLContext.priv_data (h s'))), x1);
                (srt_epoll_release
                   (SRTContext.eid (URLContext.priv_data (h s'))), x2);
                (srt_cleanup, x3)])
          /\ live_sockets (trace (snd (libsrt_close E s')))
             ⊆ live_sockets (trace s)
          /\ live_groups (trace (snd (libsrt_close E s')))
             ⊆ live_groups (trace s)).
Proof.
  intros Hmode.
  destruct (setup_sockets E fuel uri flags s Hmode)
    as (r & s' & ts & Hrun & Htrs & Hsock).
  exists r, s'. split; [done |]. intros ->.
  specialize (Hsock 0 eq_refl (live_sockets (trace s))).
  cbn [Z.eqb] in Hsock.
  destruct (close_run s') as (x1 & x2 & x3 & Hclose).
  exists x1, x2, x3. split; [done |]. rewrite Hclose. cbn [snd].
  rewrite trace_add_trace. split.
  - unfold live_sockets at 1. rewrite Htrs, !fold_left_app.
    cbn [fold_left apply_socket].
    intros y [Hy Hn]%elem_of_difference. apply Hsock in Hy.
    by apply elem_of_union in Hy as [Hy | Hy].
  - destruct (setup_run E fuel uri flags s)
      as (r0 & s0 & t & Hrun0 & Htr & Hval).
    rewrite Hrun in Hrun0. injection Hrun0 as <- <-.
    specialize (Hval 0 eq_refl).
    destruct (av_url_split E uri) as [[proto hostname] port].
    pose proof (neterrno_of_neg) as Hneg.
    destruct Hval as [(eid & err & _ & _ & Hv & _)
      | [(eid & _ & _ & _ & Hv & _)
      | [(eid & node & fl & a & _ & _ & _ & _ & _ & Hv & _)
      | (eid & node & fl & t' & x & Heid & _ & _ & -> & Hok & Hstored & _)]]];
      [specialize (Hneg err); lia | done | done |].
    unfold live_groups. rewrite Htr, Hstored, !fold_left_app.
    cbn [fold_left]. rewrite fold_left_app, (candidates_keep_groups t' _ Hok).
    cbn [fold_left apply_group].
    apply Z.leb_le in Heid as ->.
    intros y [Hy Hn]%elem_of_difference.
    by apply elem_of_union in Hy as [Hy | Hy].
Qed.

End SetupAndClose.

(** Caller mode on the transport that is ready: setup returns 0, and after
    close neither socket 5 nor group 1 is live. *)
Lemma close_after_setup_returns_resources_witness :
  let E := scenario always_ready (candidate_a, [candidate_b]) "srt" 9000 [] in
  SRTContext.mode (URLContext.priv_data (h fresh_state)) <> SRT_MODE_LISTENER
  /\ fst (libsrt_setup E 5 "srt://host:9000" 0 fresh_state) = Some 0
  /\ exists r s',
       libsrt_setup E 5 "srt://host:9000" 0 fresh_state = (r, s')
       /\ (r = Some 0 ->
           exists x1 x2 x3,
             libsrt_close E s' =
               (Some 0,
                add_trace s'
                  [(srt_close (SRTContext.fd (URLContext.priv_data (h s'))),
                    x1);
                   (srt_epoll_release
                      (SRTContext.eid (URLContext.priv_data (h s'))), x2);
                   (srt_cleanup, x3)])
             /\ live_sockets (trace (snd (libsrt_close E s')))
                ⊆ live_sockets (trace fresh_state)
             /\ live_groups (trace (snd (libsrt_close E s')))
                ⊆ live_groups (trace fresh_state)).
Proof.
  intros E. split; [done |]. split; [reflexivity |].
  apply (close_after_setup_returns_resources E 5 "srt://host:9000" 0
           fresh_state).
  done.
Defined.

(** ** The listening socket *)

Section ListeningSocket.

Variable E : env.

(** A socket that [libsrt_listen] returns was accepted on the listening
    socket. *)
Lemma listen_accepted (fuel : nat) (eid fd addr timeout v : Z)
  (s s' : state) :
  libsrt_listen E fuel eid fd addr timeout s = (Some v, s') ->
  0 <= v ->
  exists t,
    s' = add_trace s t
    /\ forallb (fun e => candidate_call (fst e)) t = true
    /\ In (srt_accept fd, v) t.
Proof.
  intros Hrun Hv.
  destruct (only_calls_listen E fuel eid fd addr timeout s) as (t & Ht & Hok).
  rewrite Hrun in Ht. cbn [snd] in Ht. subst s'.
  exists t. split; [done |]. split; [done |].
  revert Hrun. unfold libsrt_listen. step_call E. step_call E.
  destruct (truthy r0).
  { step_call E. intros [= Hneg _]. pose proof (neterrno_of_neg r1). lia. }
  step_call E. destruct (truthy r1).
  { step_call E. intros [= Hneg _]. pose proof (neterrno_of_neg r2). lia. }
  match goal with
  | |- context [bind (listen_wait_loop E fuel eid fd timeout) _ ?s1] =>
    destruct (listen_wait_loop_run E fuel eid fd timeout s1)
      as (rw & tw & Hrunw & _ & Hvalw)
  end.
  destruct rw as [vw |];
    [rewrite (bind_Some _ _ _ _ _ Hrunw)
    | rewrite (bind_None _ _ _ _ Hrunw); discriminate].
  destruct (truthy vw) eqn:Hvw.
  { intros [= -> _]. apply truthy_true in Hvw.
    destruct (Hvalw v eq_refl) as [-> | [-> | ->]]; [done | |];
      consts; lia. }
  rewrite add_trace_app. step_call E. rename r2 into acc.
  destruct (acc <? 0) eqn:Hacc; z_facts.
  { step_call E. intros [= Hneg _]. pose proof (neterrno_of_neg r2). lia. }
  match goal with
  | |- context [bind (libsrt_socket_nonblock E acc 1) _ ?s1] =>
    destruct (socket_nonblock_run E acc 1 s1) as (x & tn & Hrunn & _)
  end.
  rewrite (bind_Some _ _ _ _ _ Hrunn), add_trace_app.
  intros [= -> Heq]. apply app_inv_head in Heq as <-.
  do 3 right. rewrite !in_app_iff. left. right. by left.
Qed.

(** In listener mode a candidate that connects was accepted on the socket
    that the candidate created. *)
Lemma setup_candidate_listener (fuel : nat) (open_timeout : Z)
  (cur_ai : addrinfo) (has_next : bool) (fd : Z) (s s' : state) :
  SRTContext.mode (URLContext.priv_data (h s)) = SRT_MODE_LISTENER ->
  setup_candidate E fuel open_timeout cur_ai has_next s =
    (Some (connected fd), s') ->
  exists lfd rest,
    s' = add_trace s
           ((srt_socket (ai_family cur_ai) (ai_socktype cur_ai) 0, lfd)
            :: rest)
    /\ 0 <= lfd
    /\ forallb (fun e => candidate_call (fst e)) rest = true
    /\ In (srt_accept lfd, fd) rest.
Proof.
  intros Hmode. unfold setup_candidate.
  destruct (setup_socket_run E cur_ai s) as (lfd & x & rest & Hrun & Hok & Hx).
  rewrite (bind_Some _ _ _ _ _ Hrun).
  destruct Hx as [[-> Hlfd] | (ret & -> & _)]; [| discriminate].
  unfold setup_connect. rewrite bind_get_s, h_add_trace, Hmode.
  cbn [SRTMode_eqb]. bind_cases Hl; [| discriminate].
  destruct (a <? 0) eqn:Ha; [discriminate |]. z_facts.
  destruct (listen_accepted _ _ _ _ _ _ _ _ Hl Ha) as (tl & -> & Hokl & Hin).
  unfold setup_post.
  match goal with
  | |- context [bind (libsrt_set_options_post E a) _ ?s1] =>
    destruct (emits_set_options_post E a s1) as (ret & tp & Hrunp & _);
    destruct (connect_calls_options_post E a s1) as (tp' & Htp & Hokp)
  end.
  rewrite Hrunp in Htp. cbn [snd] in Htp. apply add_trace_inj in Htp as <-.
  rewrite (bind_Some _ _ _ _ _ Hrunp), !add_trace_app.
  destruct (ret <? 0); [discriminate |]. intros [= <- <-].
  exists lfd, (rest ++ tl ++ tp). split; [done |]. split; [done |].
  split.
  - rewrite !forallb_app, Hokl, !andb_true_iff. split; [| split; [done |]].
    + rewrite forallb_forall in *. intros e He.
      by apply connect_call_candidate, Hok.
    + rewrite forallb_forall in *. intros e He.
      by apply connect_call_candidate, Hokp.
  - rewrite !in_app_iff. right. by left.
Qed.

(** The candidate that connected in listener mode. *)
Ltac accepted_case cur_ai Hmode Hc :=
  apply (setup_candidate_listener _ _ _ _ _ _ _ Hmode) in Hc
    as (lfd & rest & -> & Hlfd & Hok & Hin);
  rewrite bind_get_h, bind_put_h, bind_modify_s, bind_ext;
  match goal with
  | |- context [(freeaddrinfo, ?r)] =>
    intros [= <-]; exists cur_ai, [], lfd, (rest ++ [(freeaddrinfo, r)])
  end;
  split;
  [ rewrite trace_add_trace; cbn [trace]; rewrite <- app_assoc; reflexivity
  | split; [done |]; split;
    [ by rewrite forallb_app, (candidate_call_not_close rest Hok)
    | rewrite h_add_trace;
      cbn [h URLContext.priv_data URLContext.set_priv_data SRTContext.fd
           SRTContext.set_fd];
      apply in_or_app; by left ] ].

(** In listener mode, when the candidate loop returns 0, the socket in the
    handle was accepted on a socket created in the loop, after which the
    loop closes nothing. *)
Lemma setup_restart_listener (fuel : nat) (open_timeout : Z)
  (next : list addrinfo) (cur_ai : addrinfo) (s s' : state) :
  SRTContext.mode (URLContext.priv_data (h s)) = SRT_MODE_LISTENER ->
  setup_restart E fuel open_timeout cur_ai next s = (Some 0, s') ->
  exists ai pre lfd post,
    trace s' =
      trace s ++ pre ++
      (srt_socket (ai_family ai) (ai_socktype ai) 0, lfd) :: post
    /\ 0 <= lfd
    /\ forallb (fun e => negb (is_close (fst e))) post = true
    /\ In (srt_accept lfd, SRTContext.fd (URLContext.priv_data (h s'))) post.
Proof.
  revert cur_ai s. induction next as [| ai_next rest' IH];
    intros cur_ai s Hmode; rewrite setup_restart_unfold;
    match goal with
    | |- context [setup_candidate E fuel open_timeout cur_ai ?b] =>
      destruct (only_calls_setup_candidate E fuel open_timeout cur_ai b s)
        as (tc & Htc & Hokc);
      destruct (setup_candidate E fuel open_timeout cur_ai b s)
        as [[j |] s1] eqn:Hc
    end; cbn [snd] in Htc;
    (rewrite (bind_Some _ _ _ _ _ Hc)
     || (rewrite (bind_None _ _ _ _ Hc); discriminate));
    pose proof (setup_candidate_jump E _ _ _ _ _ _ _ Hc) as Hj;
    (destruct j as [fd | ret fd | ret fd]; cbn [jump_sound] in Hj).
  - accepted_case cur_ai Hmode Hc.
  - destruct (setup_fail1_run E ret fd s1) as (t' & x & -> & _).
    intros [= Hret _]. lia.
  - destruct (setup_fail1_run E ret fd s1) as (t' & x & -> & _).
    intros [= Hret _]. lia.
  - accepted_case cur_ai Hmode Hc.
  - subst s1.
    match goal with
    | |- context [bind _ ?k (add_trace s tc)] =>
      destruct (close_if_run E fd k (add_trace s tc)) as (x & y & ->)
    end.
    rewrite add_trace_app. intros Hrun.
    apply IH in Hrun as (ai & pre & lfd & post & Htr & Hlfd & Hpost & Hin);
      [| done].
    exists ai,
      ((tc ++ (if 0 <=? fd then [(srt_close fd, x)] else [])) ++ pre),
      lfd, post.
    split; [by rewrite Htr, trace_add_trace, <- !app_assoc | done].
  - destruct (setup_fail1_run E ret fd s1) as (t' & x & -> & _).
    intros [= Hret _]. lia.
Qed.

End ListeningSocket.

Section ListenerLeak.

Variable E : env.

(** X16: in listener mode the listening socket is never closed.  When
    [libsrt_setup] returns 0 the socket in the handle is the one
    [srt_accept] returned on a listening socket that setup created; that
    listening socket is still live when setup returns, and, unless it is
    the accepted socket itself, it is still live after [libsrt_close]. *)
Theorem listener_socket_stays_open (fuel : nat) (uri : string) (flags : Z)
    (s : state) :
  SRTContext.mode (URLContext.priv_data (h s)) = SRT_MODE_LISTENER ->
  exists r s',
    libsrt_setup E fuel uri flags s = (r, s')
    /\ (r = Some 0 ->
        exists lfd,
          0 <= lfd
          /\ In (srt_accept lfd, SRTContext.fd (URLContext.priv_data (h s')))
               (trace s')
          /\ lfd ∈ live_sockets (trace s')
          /\ (lfd <> SRTContext.fd (URLContext.priv_data (h s')) ->
              lfd ∈ live_sockets (trace (snd (libsrt_close E s'))))).
Proof.
  intros Hmode.
  pose proof (setup_prefix E fuel uri flags s _ eq_refl) as Hpre.
  destruct (av_url_split E uri) as [[proto hostname] port].
  destruct Hpre as [(v & s' & t & Hrun & Htr & Hcase)
    | (eid & node & fl & ot & ai & ai_rest & s3 & Heid & Hproto & Hport
       & Hrun & Htr & Hconn & Hstored & Hmode3)].
  { exists (Some v), s'. split; [done |]. intros [= ->].
    pose proof neterrno_of_neg as Hneg.
    destruct Hcase as [(eid & err & _ & _ & Hv & _)
      | [(eid & _ & _ & _ & Hv & _)
      | (eid & node & fl & a & _ & _ & _ & _ & _ & Hv & _)]];
      [specialize (Hneg err); lia | done | done]. }
  rewrite <- Hmode3 in Hmode.
  destruct (setup_restart E fuel ot ai ai_rest s3) as [r s'] eqn:Hrun'.
  exists r, s'. split; [done |]. intros ->.
  destruct (setup_restart_listener E _ _ _ _ _ _ Hmode Hrun')
    as (ai' & pre & lfd & post & Htr' & Hlfd & Hpost & Hin).
  assert (Hlive : lfd ∈ live_sockets (trace s')).
  { unfold live_sockets. rewrite Htr', !fold_left_app. cbn [fold_left].
    apply sockets_kept; [done |]. cbn [apply_socket].
    apply Z.leb_le in Hlfd as ->. apply elem_of_union_r.
    by apply elem_of_singleton. }
  exists lfd. split; [done |].
  split; [rewrite Htr', !in_app_iff; right; right; by right |].
  split; [done |]. intros Hne.
  destruct (close_run E s') as (x1 & x2 & x3 & ->). cbn [snd].
  rewrite trace_add_trace. unfold live_sockets in *.
  rewrite fold_left_app. cbn [fold_left apply_socket].
  apply elem_of_difference. split; [done |].
  by intros ->%elem_of_singleton.
Qed.

End ListenerLeak.

(** Listener mode on the transport that is ready: setup returns 0 with the
    accepted socket 6 in the handle; the listening socket 5 is live, also
    after close. *)
Lemma listener_socket_stays_open_witness :
  let E := scenario always_ready (candidate_a, []) "srt" 9000 [] in
  SRTContext.mode (URLContext.priv_data (h listener_state)) = SRT_MODE_LISTENER
  /\ fst (libsrt_setup E 5 "srt://:9000" 0 listener_state) = Some 0
  /\ exists r s',
       libsrt_setup E 5 "srt://:9000" 0 listener_state = (r, s')
       /\ (r = Some 0 ->
           exists lfd,
             0 <= lfd
             /\ In (srt_accept lfd,
                    SRTContext.fd (URLContext.priv_data (h s')))
                  (trace s')
             /\ lfd ∈ live_sockets (trace s')
             /\ (lfd <> SRTContext.fd (URLContext.priv_data (h s')) ->
                 lfd ∈ live_sockets (trace (snd (libsrt_close E s'))))).
Proof.
  intros E. split; [reflexivity |]. split; [reflexivity |].
  apply (listener_socket_stays_open E 5 "srt://:9000" 0 listener_state).
  reflexivity.
Defined.

(** ** Cancellation is final *)

Lemma polls_checked_weaken (p : option event) (t : list event) :
  polls_checked None t = true -> polls_checked p t = true.
Proof. destruct t as [| [c v] t]; [done |]. by destruct c. Qed.

Lemma polls_checked_app (p : option event) (t1 t2 : list event) :
  polls_checked p t1 = true -> polls_checked None t2 = true ->
  polls_checked p (t1 ++ t2) = true.
Proof.
  revert p. induction t1 as [| e t1 IH]; intros p H1 H2;
    [by apply polls_checked_weaken |].
  cbn [polls_checked app] in *. apply andb_prop in H1 as [Ha Hb].
  rewrite Ha. by apply IH.
Qed.

Section ChecksPollsCalculus.

Context {A B : Type}.

Lemma checks_polls_Ret (a : A) : checks_polls (Ret a).
Proof. intros s. exists []. by rewrite app_nil_r. Qed.

Lemma checks_polls_out_of_fuel : checks_polls (@out_of_fuel A).
Proof. intros s. exists []. by rewrite app_nil_r. Qed.

Lemma checks_polls_if (b : bool) (m1 m2 : M A) :
  checks_polls m1 -> checks_polls m2 -> checks_polls (if b then m1 else m2).
Proof. by destruct b. Qed.

Lemma checks_polls_bind (m : M A) (k : A -> M B) :
  checks_polls m -> (forall a, checks_polls (k a)) -> checks_polls (bind m k).
Proof.
  intros Hm Hk s. destruct (Hm s) as (t1 & Ht1 & Hok1). unfold bind.
  destruct (m s) as [[a |] s1]; cbn [fst snd] in *; [| by exists t1].
  destruct (Hk a s1) as (t2 & Ht2 & Hok2). exists (t1 ++ t2).
  split; [by rewrite Ht2, Ht1, <- !app_assoc |].
  by apply polls_checked_app.
Qed.

Lemma checks_polls_quiet (m : M A) :
  (forall s, trace (snd (m s)) = trace s) -> checks_polls m.
Proof. intros Hm s. exists []. by rewrite Hm, app_nil_r. Qed.

End ChecksPollsCalculus.

Section ChecksPolls.

Variable E : env.

Lemma checks_polls_call (c : extcall) :
  is_registration c = false -> checks_polls (ext E c).
Proof.
  intros Hc s. exists [(c, respond E (trace s) c)].
  split; [reflexivity |]. by destruct c.
Qed.

Lemma checks_polls_parse_tag (tag p : string) (conv : string -> Z)
  (set : Z -> SRTContext.t -> SRTContext.t) :
  checks_polls (parse_tag E tag p conv set).
Proof.
  unfold parse_tag.
  destruct (av_find_info_tag E tag p); by apply checks_polls_quiet.
Qed.

(** One readiness wait entered after a check that did not signal. *)
Lemma wait_fd_path_checked (eid fd write r v : Z) (tp : list event) :
  wait_fd_path eid fd write tp r ->
  truthy v = false ->
  polls_checked (Some (ff_check_interrupt, v)) tp = true.
Proof.
  intros Hp Hv.
  inversion Hp as [r1 err Hr1 | r1 r2 r3 ret r' diag diag' Hr1 Hpo Hde]; subst.
  - cbn. by rewrite Hv.
  - cbn [polls_checked fst]. rewrite Hv. cbn [negb andb].
    inversion Hpo; subst; inversion Hde; subst; reflexivity.
Qed.

Lemma wait_loop_path_checked (eid fd write timeout : Z) (fuel : nat)
  (ws : Z) (t : list event) (r : option Z) :
  wait_loop_path eid fd write timeout fuel ws t r ->
  polls_checked None t = true.
Proof.
  assert (Hiter : forall x tp rest ret,
    truthy x = false -> wait_fd_path eid fd write tp ret ->
    polls_checked None rest = true ->
    polls_checked None ((ff_check_interrupt, x) :: tp ++ rest) = true).
  { intros x tp rest ret Hx Hwp Hrest.
    change (polls_checked (Some (ff_check_interrupt, x)) (tp ++ rest) = true).
    apply polls_checked_app;
      [exact (wait_fd_path_checked eid fd write ret x tp Hwp Hx) | done]. }
  induction 1 as
    [ ws | n ws x Hx | n ws x r tp Hx Hwp Hr | n ws x tp t r Hx Hwp Hle Hp IH
    | n x now tp t r Hx Hwp ? Hp IH | n ws x now tp Hx Hwp ? Hws Hdl
    | n ws x now tp t r Hx Hwp ? Hws Hdl Hp IH ].
  - done.
  - done.
  - rewrite <- (app_nil_r tp). by apply (Hiter x tp [] r).
  - by apply (Hiter x tp t (AVERROR EAGAIN)).
  - apply (Hiter x tp _ (AVERROR EAGAIN)); [done | done |].
    by apply (polls_checked_weaken (Some (av_gettime_relative, now))).
  - by apply (Hiter x tp [(av_gettime_relative, now)] (AVERROR EAGAIN)).
  - apply (Hiter x tp _ (AVERROR EAGAIN)); [done | done |].
    by apply (polls_checked_weaken (Some (av_gettime_relative, now))).
Qed.

Lemma checks_polls_wait_loop (fuel : nat) (eid fd write timeout ws : Z) :
  checks_polls (wait_fd_timeout_loop E fuel eid fd write timeout ws).
Proof.
  intros s.
  destruct (wait_loop_run E fuel eid fd write timeout ws s)
    as (r & t & Hrun & Hp).
  exists t. rewrite Hrun. split; [done |].
  by apply (wait_loop_path_checked _ _ _ _ _ _ _ _ Hp).
Qed.

Ltac checks_step :=
  first
    [ apply checks_polls_Ret
    | apply checks_polls_out_of_fuel
    | apply checks_polls_wait_loop
    | apply checks_polls_parse_tag
    | apply checks_polls_call; reflexivity
    | apply checks_polls_quiet; reflexivity
    | apply checks_polls_if
    | apply checks_polls_bind; [| intros ?]
    | match goal with
      | |- checks_polls (match ?x with _ => _ end) => destruct x
      end ].

Ltac unfold_setup :=
  unfold libsrt_setup, setup_candidate, setup_socket, setup_connect,
    setup_post, setup_fail1, libsrt_listen, libsrt_listen_connect,
    libsrt_network_wait_fd_timeout, libsrt_set_options_pre,
    libsrt_set_options_post, libsrt_setsockopt, libsrt_socket_nonblock,
    libsrt_neterrno, and_fails, or_else.

Lemma checks_polls_listen_wait_loop (fuel : nat) (eid fd timeout : Z) :
  checks_polls (listen_wait_loop E fuel eid fd timeout).
Proof.
  induction fuel as [| n IH]; cbn [listen_wait_loop]; unfold_setup;
    repeat first [apply IH | checks_step].
Qed.

Lemma checks_polls_listen_connect_loop (fuel : nat)
  (eid fd addr timeout : Z) (will_try_next : bool) :
  checks_polls (listen_connect_loop E fuel eid fd addr timeout will_try_next).
Proof.
  induction fuel as [| n IH]; cbn [listen_connect_loop]; unfold_setup;
    repeat first [apply IH | checks_step].
Qed.

Lemma checks_polls_setup_candidate (fuel : nat) (open_timeout : Z)
  (cur_ai : addrinfo) (has_next : bool) :
  checks_polls (setup_candidate E fuel open_timeout cur_ai has_next).
Proof.
  unfold_setup.
  repeat first [ apply checks_polls_listen_wait_loop
               | apply checks_polls_listen_connect_loop | checks_step ].
Qed.

Lemma checks_polls_setup_restart (fuel : nat) (open_timeout : Z)
  (cur_ai : addrinfo) (next : list addrinfo) :
  checks_polls (setup_restart E fuel open_timeout cur_ai next).
Proof.
  revert cur_ai. induction next as [| ai_next rest IH]; intros cur_ai;
    cbn [setup_restart];
    (apply checks_polls_bind;
     [apply checks_polls_setup_candidate | intros j]);
    unfold_setup; repeat first [apply IH | checks_step].
Qed.

Lemma checks_polls_setup (fuel : nat) (uri : string) (flags : Z) :
  checks_polls (libsrt_setup E fuel uri flags).
Proof.
  unfold libsrt_setup, libsrt_neterrno.
  repeat first [apply checks_polls_setup_restart | checks_step].
Qed.

Lemma checks_polls_open (fuel : nat) (uri : string) (flags : Z) :
  checks_polls (libsrt_open E fuel uri flags).
Proof.
  unfold libsrt_open, open_options.
  repeat first [apply checks_polls_setup | checks_step].
Qed.

Lemma checks_polls_read (fuel : nat) (size : Z) :
  checks_polls (libsrt_read E fuel size).
Proof.
  unfold libsrt_read, libsrt_network_wait_fd_timeout, libsrt_neterrno.
  repeat checks_step.
Qed.

Lemma checks_polls_write (fuel : nat) (size : Z) :
  checks_polls (libsrt_write E fuel size).
Proof.
  unfold libsrt_write, libsrt_network_wait_fd_timeout, libsrt_neterrno.
  repeat checks_step.
Qed.

(** A deadline loop with fuel begins with an interrupt check; if the check
    signals, the loop returns the cancellation at once. *)
Lemma wait_loop_first_check (n : nat) (eid fd write timeout ws : Z)
  (s : state) :
  exists r v rest,
    wait_fd_timeout_loop E (S n) eid fd write timeout ws s =
      (r, add_trace s ((ff_check_interrupt, v) :: rest))
    /\ (truthy v = true -> r = Some AVERROR_EXIT /\ rest = []).
Proof.
  destruct (wait_loop_run E (S n) eid fd write timeout ws s)
    as (r & t & Hrun & Hp).
  inversion Hp as
    [ ws' | n' ws' x Hx | n' ws' x r' tp Hx Hwp Hr
    | n' ws' x tp t' r' Hx Hwp Hle Hp'
    | n' x now tp t' r' Hx Hwp ? Hp' | n' ws' x now tp Hx Hwp ? Hws Hdl
    | n' ws' x now tp t' r' Hx Hwp ? Hws Hdl Hp' ]; subst;
    eexists _, _, _; (split; [exact Hrun |]); intros Hv; [done | ..];
    by rewrite Hv in Hx.
Qed.

(** The body that [libsrt_read] and [libsrt_write] share, in blocking mode
    and with fuel: the interrupt callback is asked first. *)
Lemma transfer_first_check (io : extcall) (n : nat)
  (eid fd write timeout : Z) (s : state) :
  exists r v rest,
    (ret <- libsrt_network_wait_fd_timeout E (S n) eid fd write timeout ;;
     if truthy ret then Ret ret
     else ret <- ext E io ;;
          if ret <? 0 then libsrt_neterrno E else Ret ret) s =
      (r, add_trace s ((ff_check_interrupt, v) :: rest))
    /\ (truthy v = true -> r = Some AVERROR_EXIT /\ rest = []).
Proof.
  unfold libsrt_network_wait_fd_timeout.
  destruct (wait_loop_first_check n eid fd write timeout 0 s)
    as (rw & v & rest & Hrun & Hsig).
  destruct rw as [vw |].
  2:{ rewrite (bind_None _ _ _ _ Hrun). exists None, v, rest.
      split; [done |]. intros Hv. by destruct (Hsig Hv). }
  rewrite (bind_Some _ _ _ _ _ Hrun).
  destruct (truthy vw) eqn:Hvw.
  { exists (Some vw), v, rest. split; [done |]. intros Hv.
    by destruct (Hsig Hv) as [[= ->] ->]. }
  assert (Hnot : truthy v = true -> False).
  { intros Hv. destruct (Hsig Hv) as [[= ->] _]. discriminate Hvw. }
  step_call E. destruct (r <? 0).
  - step_call E. eexists _, v, _. split; [reflexivity |].
    intros Hv. by destruct (Hnot Hv).
  - eexists _, v, _. split; [reflexivity |].
    intros Hv. by destruct (Hnot Hv).
Qed.

End ChecksPolls.

(** C7 (cancellation is final): in any run of open, setup, read or write,
    if the interrupt check signals at some point of the run (the event [e],
    with the events [t1] before it and [t2] after it), then the run does
    return, with the cancellation code [AVERROR_EXIT]; in open and setup the
    events after the signal only give resources back (the current socket is
    closed, the address list freed): no socket is created, nothing is bound,
    connected or polled, so no further candidate is tried; in read and write
    nothing at all follows the signal.  And the callback is asked: in every
    run of the four operations, returning or not, a socket is registered for
    a poll only directly after an interrupt check that did not signal, so
    each polling slice of a blocking wait begins with a check; a blocking
    read or write with fuel begins with an interrupt check, and returns
    [AVERROR_EXIT] with no other event when that check signals. *)
Theorem cancellation_is_final (E : env) (fuel : nat) :
  (forall uri flags s r s' t1 e t2,
      libsrt_open E fuel uri flags s = (r, s') ->
      trace s' = trace s ++ t1 ++ e :: t2 ->
      is_cancel e = true ->
      r = Some AVERROR_EXIT /\ forallb is_release t2 = true)
  /\ (forall uri flags s r s' t1 e t2,
      libsrt_setup E fuel uri flags s = (r, s') ->
      trace s' = trace s ++ t1 ++ e :: t2 ->
      is_cancel e = true ->
      r = Some AVERROR_EXIT /\ forallb is_release t2 = true)
  /\ (forall size s r s' t1 e t2,
      libsrt_read E fuel size s = (r, s') ->
      trace s' = trace s ++ t1 ++ e :: t2 ->
      is_cancel e = true ->
      r = Some AVERROR_EXIT /\ t2 = [])
  /\ (forall size s r s' t1 e t2,
      libsrt_write E fuel size s = (r, s') ->
      trace s' = trace s ++ t1 ++ e :: t2 ->
      is_cancel e = true ->
      r = Some AVERROR_EXIT /\ t2 = [])
  /\ ((forall uri flags, checks_polls (libsrt_open E fuel uri flags))
      /\ (forall uri flags, checks_polls (libsrt_setup E fuel uri flags))
      /\ (forall size, checks_polls (libsrt_read E fuel size))
      /\ (forall size, checks_polls (libsrt_write E fuel size)))
  /\ (forall size s,
      Z.land (URLContext.flags (h s)) AVIO_FLAG_NONBLOCK = 0 ->
      fuel <> 0%nat ->
      exists r v rest,
        libsrt_read E fuel size s =
          (r, add_trace s ((ff_check_interrupt, v) :: rest))
        /\ (truthy v = true -> r = Some AVERROR_EXIT /\ rest = []))
  /\ (forall size s,
      Z.land (URLContext.flags (h s)) AVIO_FLAG_NONBLOCK = 0 ->
      fuel <> 0%nat ->
      exists r v rest,
        libsrt_write E fuel size s =
          (r, add_trace s ((ff_check_interrupt, v) :: rest))
        /\ (truthy v = true -> r = Some AVERROR_EXIT /\ rest = [])).
Proof.
  split; [| split; [| split; [| split; [| split; [| split]]]]].
  - intros uri flags. apply (cancels_final is_release);
      [apply cancels_open | apply release_not_cancel].
  - intros uri flags. apply (cancels_final is_release);
      [apply cancels_setup | apply release_not_cancel].
  - intros size s r s' t1 e t2 Hrun Ht He.
    destruct (cancels_final (fun _ => false) _ (cancels_read E _ fuel size)
                (fun _ Hx => False_ind _ (Bool.diff_false_true Hx))
                s r s' t1 e t2 Hrun Ht He) as [Hr Ht2].
    split; [done | by apply forallb_false_nil].
  - intros size s r s' t1 e t2 Hrun Ht He.
    destruct (cancels_final (fun _ => false) _ (cancels_write E _ fuel size)
                (fun _ Hx => False_ind _ (Bool.diff_false_true Hx))
                s r s' t1 e t2 Hrun Ht He) as [Hr Ht2].
    split; [done | by apply forallb_false_nil].
  - split; [| split; [| split]].
    + intros uri flags. apply checks_polls_open.
    + intros uri flags. apply checks_polls_setup.
    + intros size. apply checks_polls_read.
    + intros size. apply checks_polls_write.
  - intros size s Hflag Hfuel. destruct fuel as [| n]; [done |].
    unfold libsrt_read. rewrite bind_get_h, bind_get_s, Hflag.
    cbn [Z.eqb]. apply transfer_first_check.
  - intros size s Hflag Hfuel. destruct fuel as [| n]; [done |].
    unfold libsrt_write. rewrite bind_get_h, bind_get_s, Hflag.
    cbn [Z.eqb]. apply transfer_first_check.
Qed.

(** Setup in caller mode with two candidates, cancelled while the first
    connect is awaited: it returns [AVERROR_EXIT] after closing socket 5 and
    freeing the address list; the second candidate is not tried.  A blocking
    read and a blocking write of 188 bytes under the same callback: each
    asks the callback first and returns [AVERROR_EXIT] with no other
    event. *)
Lemma cancellation_is_final_witness :
  let E :=
    scenario cancelled_connect (candidate_a, [candidate_b]) "srt" 9000 [] in
  let run := libsrt_setup E 3 "srt://host:9000" 0 fresh_state in
  let reading := libsrt_read E 3 188 fresh_state in
  let writing := libsrt_write E 3 188 fresh_state in
  is_cancel (ff_check_interrupt, 1) = true
  /\ (fst run = Some AVERROR_EXIT
      /\ forallb is_release [(srt_close 5, 0); (freeaddrinfo, 0)] = true)
  /\ fst reading = Some AVERROR_EXIT
  /\ fst writing = Some AVERROR_EXIT
  /\ trace (snd reading) = [(ff_check_interrupt, 1)]
  /\ trace (snd writing) = [(ff_check_interrupt, 1)]
  /\ (Z.land (URLContext.flags (h fresh_state)) AVIO_FLAG_NONBLOCK = 0
      /\ 3%nat <> 0%nat)
  /\ (exists r v rest,
        libsrt_read E 3 188 fresh_state =
          (r, add_trace fresh_state ((ff_check_interrupt, v) :: rest))
        /\ (truthy v = true -> r = Some AVERROR_EXIT /\ rest = []))
  /\ (exists r v rest,
        libsrt_write E 3 188 fresh_state =
          (r, add_trace fresh_state ((ff_check_interrupt, v) :: rest))
        /\ (truthy v = true -> r = Some AVERROR_EXIT /\ rest = [])).
Proof.
  intros E run reading writing.
  pose proof (cancellation_is_final E 3)
    as (_ & Hsetup & Hread & Hwrite & _ & Hread1 & Hwrite1).
  split; [reflexivity |]. split.
  { apply (Hsetup "srt://host:9000" 0 fresh_state (fst run) (snd run)
             [(srt_epoll_create, 1); (getaddrinfo (Some "host") 9000 0, 0);
              (srt_socket 2 2 0, 5);
              (srt_setsockopt 5 0 SRTO_TSBPDDELAY (OptInt 0), 0);
              (srt_setsockopt 5 0 SRTO_SNDSYN (OptInt 1), 0);
              (srt_setsockopt 5 0 SRTO_RCVSYN (OptInt 1), 0);
              (srt_connect 5 101, -1); (srt_getlasterror, 6002)]
             (ff_check_interrupt, 1)
             [(srt_close 5, 0); (freeaddrinfo, 0)]).
    - apply surjective_pairing.
    - vm_compute. reflexivity.
    - reflexivity. }
  split.
  { refine (proj1 (Hread 188 fresh_state (fst reading) (snd reading) []
                     (ff_check_interrupt, 1) [] _ _ _)).
    - apply surjective_pairing.
    - vm_compute. reflexivity.
    - reflexivity. }
  split.
  { refine (proj1 (Hwrite 188 fresh_state (fst writing) (snd writing) []
                     (ff_check_interrupt, 1) [] _ _ _)).
    - apply surjective_pairing.
    - vm_compute. reflexivity.
    - reflexivity. }
  split; [vm_compute; reflexivity |]. split; [vm_compute; reflexivity |].
  split; [split; [reflexivity | discriminate] |].
  split.
  - apply (Hread1 188 fresh_state); [reflexivity | discriminate].
  - apply (Hwrite1 188 fresh_state); [reflexivity | discriminate].
Defined.
